(** * A shallow embedding of the batch ETL run (etl_run.py)

    The development follows the run component stage by stage:
    get_engine, extract, validate_and_clean, transform_daily_metrics,
    load_merchants, upsert_facts and main.

    Modelling conventions.
    - A pandas frame read with dtype=str holds text cells; a missing field
      is NaN, written [None].  Column labels are taken to be pairwise
      distinct, also once stripped (read_csv renames repeated header
      names), so [df[c]] is one column, the first labelled [c].
    - What [astype(str)] does to a missing cell depends on the dtype that
      read_csv(dtype=str) gave the columns, and so on the pandas release
      (the repository pins none): on object columns it becomes the text
      nan, on str columns it stays missing.  A frame carries its dtype
      and both behaviours are modelled.
    - A text is the byte string of its UTF-8 encoding; [str.strip]
      removes the characters Python counts as white space, ASCII or
      not, matched by their encodings.
    - A parsed amount is a rational ([Qc]) or NaN ([None]).  What pandas
      computes from the amounts (the sum of a group, a quotient of two
      columns, [Series.round]) is float64 or int64 arithmetic of the
      library: it is a parameter of the development (class [Arith]), and
      its results may be NaN or infinite.  The exact arithmetic on
      rationals is one instance, used on the example data.
    - pd.to_numeric and pd.to_datetime belong to pandas, not to this
      repository; they are parameters of the development.
    - Frames are Python objects with identity: they live in a store and
      are passed around by reference, so an in-place update made by one
      stage is seen by every later stage that holds the same reference.
    - The sink has the tables of create_tables.py and the staging tables
      the loaders create, with their column types.  Whether a text fits a
      VARCHAR(n) column and which value a DECIMAL(p,s) column stores for
      a number are the server's (class [Server]); an INT column holds
      the integers up to 2^31 - 1; a text is stored as it is given and
      keys are compared as exact text.  Connection failures are not
      modelled.
    - The process environment, once load_dotenv has run, is a finite map
      from names to texts; urllib.parse.quote_plus is modelled byte by
      byte, and the engine get_engine returns is identified with the URL
      it is created for. *)

From Stdlib Require Import Ascii String QArith Qcanon Qround.
From stdpp Require Import base numbers list strings gmap sorting.

#[local] Set Warnings "-clear-no-such-hyp".

Local Open Scope string_scope.
Local Open Scope list_scope.

(** ** Text *)

(** A text is the sequence of the bytes of its UTF-8 encoding.  The
    characters [str.strip] removes are those Python counts as white
    space: of one byte, TAB..CR, FS..US and the space; of two bytes,
    U+0085 and U+00A0; of three bytes, U+1680, U+2000..U+200A, U+2028,
    U+2029, U+202F, U+205F and U+3000. *)
Definition isspace (c : ascii) : bool :=
  let n := nat_of_ascii c in
  (Nat.leb 9 n && Nat.leb n 13) || (Nat.leb 28 n && Nat.leb n 31) || Nat.eqb n 32.

Definition space2 (c d : ascii) : bool :=
  Nat.eqb (nat_of_ascii c) 194
  && (Nat.eqb (nat_of_ascii d) 133 || Nat.eqb (nat_of_ascii d) 160).

Definition space3 (c d e : ascii) : bool :=
  let n := nat_of_ascii e in
  (Nat.eqb (nat_of_ascii c) 225 && Nat.eqb (nat_of_ascii d) 154 && Nat.eqb n 128)
  || (Nat.eqb (nat_of_ascii c) 226 && Nat.eqb (nat_of_ascii d) 128
      && ((Nat.leb 128 n && Nat.leb n 138) || Nat.eqb n 168 || Nat.eqb n 169
          || Nat.eqb n 175))
  || (Nat.eqb (nat_of_ascii c) 226 && Nat.eqb (nat_of_ascii d) 129 && Nat.eqb n 159)
  || (Nat.eqb (nat_of_ascii c) 227 && Nat.eqb (nat_of_ascii d) 128 && Nat.eqb n 128).

(** The text after its first character, when that is white space. *)
Definition space_prefix (s : string) : option string :=
  match s with
  | EmptyString => None
  | String c s1 =>
      if isspace c then Some s1
      else
        match s1 with
        | EmptyString => None
        | String d s2 =>
            if space2 c d then Some s2
            else
              match s2 with
              | EmptyString => None
              | String e s3 => if space3 c d e then Some s3 else None
              end
        end
  end.

(** [str.lstrip()]: white space is dropped from the front, one character
    at a time; the length of the text is fuel enough. *)
Fixpoint lstrip_from (fuel : nat) (s : string) : string :=
  match fuel with
  | 0 => s
  | S n =>
      match space_prefix s with
      | Some s' => lstrip_from n s'
      | None => s
      end
  end.

Definition lstrip (s : string) : string := lstrip_from (String.length s) s.

(** [str.rstrip()]: the text up to its longest end that is white space
    only. *)
Fixpoint rstrip (s : string) : string :=
  match s with
  | EmptyString => EmptyString
  | String c s' =>
      if decide (lstrip s = EmptyString) then EmptyString else String c (rstrip s')
  end.

(** [str.strip()] *)
Definition strip (s : string) : string := lstrip (rstrip s).

(** Texts made of white space only, and texts no end of which is. *)
Inductive blank : string → Prop :=
  | blank_nil : blank EmptyString
  | blank_cons s s' : space_prefix s = Some s' → blank s' → blank s.

Fixpoint clean_end (s : string) : Prop :=
  match s with
  | EmptyString => True
  | String c s' => lstrip s ≠ EmptyString ∧ clean_end s'
  end.

(** ** Frames *)

(** A cell of a frame read with dtype=str: text, or NaN. *)
Definition cell := option string.

(** The dtype read_csv(dtype=str) gives every column: object (pandas
    before 3.0) or str. *)
Inductive Dtype := object_dtype | str_dtype.

Global Instance Dtype_eq_dec : EqDecision Dtype.
Proof. solve_decision. Defined.

(** [astype(str)] at one cell: text stays; NaN becomes the text "nan" in
    an object column and stays NaN in a str column. *)
Definition astype_str (d : Dtype) (c : cell) : cell :=
  match c, d with
  | Some s, _ => Some s
  | None, object_dtype => Some "nan"
  | None, str_dtype => None
  end.

(** [.astype(str).str.strip()] at one cell; [.str] skips NaN. *)
Definition str_strip (d : Dtype) (c : cell) : cell := strip <$> astype_str d c.

Record DataFrame := mkFrame {
  dtype : Dtype;
  columns : list string;
  data : list (list cell)
}.

Definition len (df : DataFrame) : nat := length (data df).

(** Position of the first column labelled [c]. *)
Fixpoint get_loc (c : string) (cols : list string) : option nat :=
  match cols with
  | [] => None
  | c' :: cols' => if decide (c = c') then Some 0 else S <$> get_loc c cols'
  end.

(** The cell of a row at a position; a short row reads as NaN. *)
Definition iat (row : list cell) (i : nat) : cell := default None (row !! i).

(** [df.columns = [c.strip() for c in df.columns]] *)
Definition strip_columns (df : DataFrame) : DataFrame :=
  mkFrame (dtype df) (strip <$> columns df) (data df).

(** [for c in df.columns: df[c] = df[c].astype(str).str.strip()]:
    every column is visited once, so every cell is rewritten. *)
Definition strip_cells (df : DataFrame) : DataFrame :=
  mkFrame (dtype df) (columns df) (map (map (str_strip (dtype df))) (data df)).

(** ** Timestamps and parsed transactions *)

Record Date := mkDate { year : Z; month : Z; day : Z }.

(** A timezone-aware instant normalised to UTC, by its UTC civil fields. *)
Record Timestamp := mkTimestamp {
  date : Date;          (* [.dt.date] *)
  hour : Z; minute : Z; second : Z; nanosecond : Z
}.

Global Instance Date_eq_dec : EqDecision Date.
Proof. solve_decision. Defined.

Global Instance Date_countable : Countable Date.
Proof.
  apply (inj_countable' (λ d, (year d, month d, day d))
                        (λ t, mkDate t.1.1 t.1.2 t.2)).
  by intros [].
Defined.

(** A transaction row once the typed columns are attached: the text cells
    in column order, then [amount_num] and [txn_ts] (NaN / NaT is [None]). *)
Record Txn := mkTxn {
  cells : list cell;
  amount_num : option Qc;
  txn_ts : option Timestamp
}.

Record TxnFrame := mkTxnFrame {
  tcolumns : list string;
  trows : list Txn
}.

(** ** Numbers *)

(** A cell of a numeric column that pandas computed: a finite value, an
    infinity, or NaN. *)
Inductive number :=
  | Finite (q : Qc)
  | Infinite (negative : bool)
  | NaN.

Global Instance number_eq_dec : EqDecision number.
Proof. solve_decision. Defined.

(** A cell of an integer column, as a number. *)
Definition of_int (n : nat) : number := Finite (Qc_of_Z (Z.of_nat n)).

(** The arithmetic of pandas on numeric columns, on float64 or int64
    values as the dtype of the column has it:
    - [column_sum]: [sum] over the rows of one group, in row order
      (NaN skipped);
    - [true_divide]: [/] of two columns, at one row;
    - [series_round]: [Series.round(decimals)], at one cell. *)
Class Arith := {
  column_sum : list (option Qc) → number;
  true_divide : number → number → number;
  series_round : nat → number → number
}.

(** One row of the aggregated frame. *)
Record DailyRow := mkDailyRow {
  metric_date : Date;
  merchant_id : string;
  txn_count : nat;
  approved_txn_count : nat;
  declined_txn_count : nat;
  gross_amount : number;
  approved_amount : number;
  approval_rate : number;
  avg_ticket : number
}.

Record DailyFrame := mkDailyFrame {
  dcolumns : list string;
  drows : list DailyRow
}.

Record RunStats := mkRunStats {
  txns_total : nat;
  txns_after_dedupe : nat;
  txns_valid : nat;
  txns_rejected : nat;
  merchants_loaded : nat;
  daily_rows : nat;
  fact_rows_upserted : nat
}.

(** ** The sink *)

(** The database server.  [varchar n s]: the text [s] fits a VARCHAR(n)
    column; [decimal p s q]: the value a DECIMAL(p,s) column stores for
    the finite number [q], none when the server refuses it (a value out
    of the column's range). *)
Class Server := {
  varchar : nat → string → bool;
  decimal : nat → nat → Qc → option Qc
}.

(** An INT column holds the integers up to 2^31 - 1. *)
Definition int (n : nat) : bool := (Z.of_nat n <=? 2147483647)%Z.

(** dbo.stg_merchants: VARCHAR(64), VARCHAR(255), VARCHAR(100),
    VARCHAR(100) and VARCHAR(50); merchant_id and merchant_name are
    NOT NULL. *)
Record StgMerchant := mkStgMerchant {
  sm_merchant_id : string;
  sm_merchant_name : string;
  sm_category : option string;
  sm_city : option string;
  sm_state : option string
}.

(** dbo.dim_merchants, keyed by merchant_id. *)
Record DimMerchant := mkDimMerchant {
  dm_merchant_name : string;
  dm_category : option string;
  dm_city : option string;
  dm_state : option string;
  created_at_utc : Z
}.

(** dbo.stg_daily_metrics: DATE, VARCHAR(64), three INT columns,
    DECIMAL(18,2) for the amounts and the average ticket, DECIMAL(9,4)
    for the rate; every column is NOT NULL.  A decimal cell holds the
    value the server stored. *)
Record StgDaily := mkStgDaily {
  sd_metric_date : Date;
  sd_merchant_id : string;
  sd_txn_count : nat;
  sd_approved_txn_count : nat;
  sd_declined_txn_count : nat;
  sd_gross_amount : Qc;
  sd_approved_amount : Qc;
  sd_approval_rate : Qc;
  sd_avg_ticket : Qc
}.

(** dbo.fact_daily_merchant_metrics, keyed by (metric_date, merchant_id),
    with the column types of the staging table. *)
Record FactDaily := mkFactDaily {
  f_txn_count : nat;
  f_approved_txn_count : nat;
  f_declined_txn_count : nat;
  f_gross_amount : Qc;
  f_approved_amount : Qc;
  f_approval_rate : Qc;
  f_avg_ticket : Qc;
  loaded_at_utc : Z
}.

(** The database behind the engine.  A staging table that does not exist
    is [None].  Keys are compared as exact text. *)
Record Sink := mkSink {
  dim_merchants : gmap string DimMerchant;
  fact_daily_merchant_metrics : gmap (Date * string) FactDaily;
  stg_merchants : option (list StgMerchant);
  stg_daily_metrics : option (list StgDaily)
}.

(** ** Exceptions, the store and the run monad *)

Inductive exn :=
  | ValueError (file : string) (missing : gset string)
      (* f"{file} missing columns: {missing}" *)
  | KeyError (label : string)
  | DBAPIError (table : string)
      (* the statement on [table] is refused: NULL in a NOT NULL column, a
         value its column does not hold, a repeated key, a foreign key
         without its row *)
  | DanglingReference.

Definition loc := nat.

(** The state of a run: the frames it holds, by reference, and the sink. *)
Record World := mkWorld {
  store : gmap loc DataFrame;
  db : Sink
}.

Inductive result (A : Type) :=
  | Ok (a : A)
  | Raise (e : exn).
Arguments Ok {A} a.
Arguments Raise {A} e.

(** A computation may raise; the updates made before the exception stay. *)
Definition M (A : Type) : Type := World → World * result A.

Definition ret {A} (a : A) : M A := λ w, (w, Ok a).
Definition raise {A} (e : exn) : M A := λ w, (w, Raise e).
Definition bind {A B} (m : M A) (k : A → M B) : M B :=
  λ w, match m w with
       | (w', Ok a) => k a w'
       | (w', Raise e) => (w', Raise e)
       end.

Notation "x <- m ;; k" := (bind m (λ x, k))
  (at level 100, m at next level, right associativity).
Notation "m ;;; k" := (bind m (λ _, k))
  (at level 100, right associativity).

(** Reading and updating the object behind a reference. *)
Definition deref (l : loc) : M DataFrame :=
  λ w, match store w !! l with
       | Some df => (w, Ok df)
       | None => (w, Raise DanglingReference)
       end.

Definition update (l : loc) (f : DataFrame → DataFrame) : M unit :=
  λ w, match store w !! l with
       | Some df => (mkWorld (<[l := f df]> (store w)) (db w), Ok tt)
       | None => (w, Raise DanglingReference)
       end.

(** A new object. *)
Definition alloc (df : DataFrame) : M loc :=
  λ w, let l := fresh (dom (store w)) in
       (mkWorld (<[l := df]> (store w)) (db w), Ok l).

(** [df[c]] resolved to a position; an absent label is a KeyError. *)
Definition getitem (cols : list string) (c : string) : M nat :=
  match get_loc c cols with
  | Some i => ret i
  | None => raise (KeyError c)
  end.

(** [if not cond: raise e] *)
Definition unless (P : Prop) `{Decision P} (e : exn) : M unit :=
  if decide P then ret tt else raise e.

(** [with engine.begin() as conn: ...]: the block commits as a whole, or an
    exception rolls it back. *)
Definition begin (body : Sink → result Sink) : M unit :=
  λ w, match body (db w) with
       | Ok s' => (mkWorld (store w) s', Ok tt)
       | Raise e => (w, Raise e)
       end.

(** ** Validate / Clean: the row-level pieces *)

(** [drop_duplicates(subset=[c], keep="first")] on the column at position
    [i]: a row is kept unless its key was seen on an earlier row. *)
Fixpoint drop_duplicates_from (seen : list cell) (i : nat)
    (rows : list (list cell)) : list (list cell) :=
  match rows with
  | [] => []
  | r :: rows' =>
      if decide (iat r i ∈ seen) then drop_duplicates_from seen i rows'
      else r :: drop_duplicates_from (iat r i :: seen) i rows'
  end.

Definition drop_duplicates (i : nat) (rows : list (list cell)) : list (list cell) :=
  drop_duplicates_from [] i rows.

(** [col.isin(["APPROVED", "DECLINED"])] at one cell. *)
Definition valid_status (c : cell) : bool :=
  bool_decide (c ∈ [Some "APPROVED"; Some "DECLINED"]).

(** [amount_num.notna() & (amount_num > 0)] at one cell. *)
Definition valid_amount (a : option Qc) : bool :=
  match a with
  | Some q => bool_decide (0 < q)%Qc
  | None => false
  end.

(** [txn_ts.notna()] at one cell. *)
Definition valid_ts (t : option Timestamp) : bool :=
  match t with Some _ => true | None => false end.

(** [set(col.dropna().astype(str))] *)
Definition id_set (col : list cell) : gset string :=
  list_to_set (omap id col).

(** [col.isin(merchant_ids)] at one cell. *)
Definition valid_merchant (merchant_ids : gset string) (c : cell) : bool :=
  match c with
  | Some s => bool_decide (s ∈ merchant_ids)
  | None => false
  end.

Definition required_merch_cols : gset string :=
  {[ "merchant_id"; "merchant_name" ]}.
Definition required_txn_cols : gset string :=
  {[ "transaction_id"; "merchant_id"; "txn_ts_utc"; "amount"; "status" ]}.

(** ** Transform: grouping and aggregation *)

(** [count]: the cells that are not NaN. *)
Definition count (l : list cell) : nat :=
  length (filter is_Some l).

(** A row of [clean_txns] with the columns the transform adds to it. *)
Record Enriched := mkEnriched {
  e_txn : Txn;
  e_metric_date : option Date;
  e_is_approved : nat;
  e_is_declined : nat;
  e_approved_amount : option Qc
}.

(** [(col == s).astype(int)] at one cell. *)
Definition eq_int (c : cell) (s : string) : nat :=
  if decide (c = Some s) then 1 else 0.

(** [amount_num.where(status == "APPROVED", 0.0)] at one row. *)
Definition where_approved (status : cell) (a : option Qc) : option Qc :=
  if decide (status = Some "APPROVED") then a else Some 0%Qc.

Definition enrich (i_status : nat) (t : Txn) : Enriched :=
  let status := iat (cells t) i_status in
  mkEnriched t (date <$> txn_ts t)
             (eq_int status "APPROVED") (eq_int status "DECLINED")
             (where_approved status (amount_num t)).

(** The group key of a row; a NaN in either key column drops the row
    from every group (groupby's dropna). *)
Definition group_key (i_merchant : nat) (e : Enriched) : option (Date * string) :=
  match e_metric_date e, iat (cells (e_txn e)) i_merchant with
  | Some d, Some m => Some (d, m)
  | _, _ => None
  end.

(** One pass over the rows: each row joins the group of its key, a new key
    opens a group. *)
Fixpoint group_insert {K A} `{EqDecision K} (k : K) (x : A)
    (gs : list (K * list A)) : list (K * list A) :=
  match gs with
  | [] => [(k, [x])]
  | (k', xs) :: gs' =>
      if decide (k = k') then (k', xs ++ [x]) :: gs'
      else (k', xs) :: group_insert k x gs'
  end.

Definition groups {K A} `{EqDecision K} (key : A → option K)
    (rows : list A) : list (K * list A) :=
  foldl (λ gs r, match key r with
                 | Some k => group_insert k r gs
                 | None => gs
                 end) [] rows.

(** Order of the group keys: by date, then by merchant identifier. *)
Definition date_leb (d1 d2 : Date) : bool :=
  (year d1 <? year d2)%Z ||
  ((year d1 =? year d2)%Z &&
   ((month d1 <? month d2)%Z ||
    ((month d1 =? month d2)%Z && (day d1 <=? day d2)%Z))).

Definition key_leb (k1 k2 : Date * string) : bool :=
  if decide (k1.1 = k2.1) then String.leb k1.2 k2.2 else date_leb k1.1 k2.1.

(** [groupby(keys)] with its default sort=True. *)
Definition groupby {A} (key : A → option (Date * string))
    (rows : list A) : list ((Date * string) * list A) :=
  merge_sort (λ g1 g2, key_leb g1.1 g2.1) (groups key rows).

(** The named aggregations and the derived metrics, for one group. *)
Definition aggregate {ar : Arith} (i_txn_id : nat)
    (g : (Date * string) * list Enriched) : DailyRow :=
  let rows := g.2 in
  let txn_count := count ((λ e, iat (cells (e_txn e)) i_txn_id) <$> rows) in
  let approved_txn_count := sum_list (e_is_approved <$> rows) in
  let declined_txn_count := sum_list (e_is_declined <$> rows) in
  let gross_amount := column_sum ((λ e, amount_num (e_txn e)) <$> rows) in
  let approved_amount := column_sum (e_approved_amount <$> rows) in
  mkDailyRow g.1.1 g.1.2 txn_count approved_txn_count declined_txn_count
    gross_amount approved_amount
    (series_round 4 (true_divide (of_int approved_txn_count) (of_int txn_count)))
    (series_round 2 (true_divide gross_amount (of_int txn_count))).

(** The column selection that closes the transform. *)
Definition daily_columns : list string :=
  [ "metric_date"; "merchant_id"; "txn_count"; "approved_txn_count";
    "declined_txn_count"; "gross_amount"; "approved_amount";
    "approval_rate"; "avg_ticket" ].

(** [clean_txns] is the private copy made by validate_and_clean; the
    columns added to it here are read by nothing but this function.  The
    closing [pd.to_datetime(...).dt.date] maps a date to itself. *)
Definition transform_daily_metrics {ar : Arith} (clean_txns : TxnFrame) : M DailyFrame :=
  i_status <- getitem (tcolumns clean_txns) "status" ;;
  let enriched := enrich i_status <$> trows clean_txns in
  i_merchant <- getitem (tcolumns clean_txns) "merchant_id" ;;
  i_txn_id <- getitem (tcolumns clean_txns) "transaction_id" ;;
  let agg := aggregate i_txn_id <$> groupby (group_key i_merchant) enriched in
  ret (mkDailyFrame daily_columns agg).

(** ** Load: staging and MERGE *)

(** [merchants.copy()] with the five sink columns selected; a column the
    frame lacks is created holding None. *)
Definition sink_merchant_columns : list string :=
  [ "merchant_id"; "merchant_name"; "category"; "city"; "state" ].

Definition select_columns (labels : list string) (df : DataFrame) : list (list cell) :=
  (λ row, (λ c, match get_loc c (columns df) with
                | Some i => iat row i
                | None => None
                end) <$> labels) <$> data df.

(** A text cell bound to a nullable VARCHAR(n) column. *)
Definition varchar_null {sv : Server} (n : nat) (c : cell) : bool :=
  match c with
  | Some s => varchar n s
  | None => true
  end.

(** A number bound to a DECIMAL(p,s) NOT NULL column: NaN is sent as
    NULL, an infinity is no value of the column. *)
Definition decimal_not_null {sv : Server} (p s : nat) (x : number) : option Qc :=
  match x with
  | Finite q => decimal p s q
  | Infinite _ | NaN => None
  end.

(** A selected row as a staging row; the INSERT is refused for NULL in a
    NOT NULL column and for a text its column does not hold. *)
Definition stg_merchant_of {sv : Server} (row : list cell) : option StgMerchant :=
  match row with
  | [Some mid; Some name; category; city; state] =>
      if varchar 64 mid && varchar 255 name && varchar_null 100 category
         && varchar_null 100 city && varchar_null 50 state
      then Some (mkStgMerchant mid name category city state)
      else None
  | _ => None
  end.

(** A daily row as a staging row, each cell converted to the type of its
    column. *)
Definition stg_daily_of {sv : Server} (r : DailyRow) : option StgDaily :=
  if varchar 64 (merchant_id r) && int (txn_count r)
     && int (approved_txn_count r) && int (declined_txn_count r)
  then
    gross ← decimal_not_null 18 2 (gross_amount r);
    approved ← decimal_not_null 18 2 (approved_amount r);
    rate ← decimal_not_null 9 4 (approval_rate r);
    avg ← decimal_not_null 18 2 (avg_ticket r);
    Some (mkStgDaily (metric_date r) (merchant_id r) (txn_count r)
            (approved_txn_count r) (declined_txn_count r)
            gross approved rate avg)
  else None.

(** [to_sql(..., if_exists="append")]: one INSERT of all rows, in a
    transaction of its own; the table is created when it is absent. *)
Definition to_sql_stg_merchants {sv : Server} (rows : list (list cell)) : M unit :=
  begin (λ s,
    match mapM stg_merchant_of rows with
    | Some staged =>
        Ok (mkSink (dim_merchants s) (fact_daily_merchant_metrics s)
              (Some (default [] (stg_merchants s) ++ staged))
              (stg_daily_metrics s))
    | None => Raise (DBAPIError "stg_merchants")
    end).

Definition to_sql_stg_daily_metrics {sv : Server} (rows : list DailyRow) : M unit :=
  begin (λ s,
    match mapM stg_daily_of rows with
    | Some staged =>
        Ok (mkSink (dim_merchants s) (fact_daily_merchant_metrics s)
              (stg_merchants s)
              (Some (default [] (stg_daily_metrics s) ++ staged)))
    | None => Raise (DBAPIError "stg_daily_metrics")
    end).

(** WHEN MATCHED THEN UPDATE ... WHEN NOT MATCHED THEN INSERT, for one
    source row.  created_at_utc takes its default only on INSERT. *)
Definition merge_merchant (now : Z) (dim : gmap string DimMerchant)
    (r : StgMerchant) : gmap string DimMerchant :=
  <[ sm_merchant_id r :=
       mkDimMerchant (sm_merchant_name r) (sm_category r) (sm_city r) (sm_state r)
         (match dim !! sm_merchant_id r with
          | Some old => created_at_utc old
          | None => now
          end) ]> dim.

Definition merge_daily (now : Z) (fact : gmap (Date * string) FactDaily)
    (r : StgDaily) : gmap (Date * string) FactDaily :=
  <[ (sd_metric_date r, sd_merchant_id r) :=
       mkFactDaily (sd_txn_count r) (sd_approved_txn_count r)
         (sd_declined_txn_count r) (sd_gross_amount r) (sd_approved_amount r)
         (sd_approval_rate r) (sd_avg_ticket r)
         (match fact !! (sd_metric_date r, sd_merchant_id r) with
          | Some old => loaded_at_utc old
          | None => now
          end) ]> fact.

(** The MERGE into dim_merchants followed by the DROP of the staging
    table.  Two source rows with one key make the statement fail (a row
    updated twice, or a primary key inserted twice). *)
Definition merge_dim_merchants (now : Z) (s : Sink) : result Sink :=
  match stg_merchants s with
  | None => Raise (DBAPIError "stg_merchants")
  | Some src =>
      if decide (NoDup (sm_merchant_id <$> src)) then
        Ok (mkSink (foldl (merge_merchant now) (dim_merchants s) src)
              (fact_daily_merchant_metrics s) None (stg_daily_metrics s))
      else Raise (DBAPIError "dim_merchants")
  end.

(** The foreign key of the fact table: a row that MERGE inserts must name
    a merchant present in dim_merchants (an update leaves merchant_id as
    it is). *)
Definition fk_merchant (s : Sink) (r : StgDaily) : Prop :=
  (sd_metric_date r, sd_merchant_id r) ∈ dom (fact_daily_merchant_metrics s)
  ∨ sd_merchant_id r ∈ dom (dim_merchants s).

Global Instance fk_merchant_dec s r : Decision (fk_merchant s r).
Proof. unfold fk_merchant. apply _. Defined.

(** The MERGE into the fact table and the DROP of its staging table. *)
Definition merge_fact_daily (now : Z) (s : Sink) : result Sink :=
  match stg_daily_metrics s with
  | None => Raise (DBAPIError "stg_daily_metrics")
  | Some src =>
      if decide (NoDup ((λ r, (sd_metric_date r, sd_merchant_id r)) <$> src)
                 ∧ Forall (fk_merchant s) src) then
        Ok (mkSink (dim_merchants s)
              (foldl (merge_daily now) (fact_daily_merchant_metrics s) src)
              (stg_merchants s) None)
      else Raise (DBAPIError "fact_daily_merchant_metrics")
  end.

(** DROP the staging table if it exists, then CREATE it empty. *)
Definition create_stg_merchants (s : Sink) : result Sink :=
  Ok (mkSink (dim_merchants s) (fact_daily_merchant_metrics s)
        (Some []) (stg_daily_metrics s)).

Definition create_stg_daily_metrics (s : Sink) : result Sink :=
  Ok (mkSink (dim_merchants s) (fact_daily_merchant_metrics s)
        (stg_merchants s) (Some [])).

Definition load_merchants {sv : Server} (now : Z) (merchants : loc) : M nat :=
  begin create_stg_merchants ;;;
  df <- deref merchants ;;
  let merchants_to_load := select_columns sink_merchant_columns df in
  to_sql_stg_merchants merchants_to_load ;;;
  begin (merge_dim_merchants now) ;;;
  ret (length merchants_to_load).

Definition upsert_facts {sv : Server} (now : Z) (daily : DailyFrame) : M nat :=
  begin create_stg_daily_metrics ;;;
  to_sql_stg_daily_metrics (drows daily) ;;;
  begin (merge_fact_daily now) ;;;
  ret (length (drows daily)).

(** ** Extract, Validate / Clean and the run *)

(** The two input files, as read_csv(dtype=str) presents them. *)
Record Files := mkFiles {
  merchants_csv : DataFrame;
  transactions_csv : DataFrame
}.

Definition extract (files : Files) : M (loc * loc) :=
  merchants <- alloc (merchants_csv files) ;;
  txns <- alloc (transactions_csv files) ;;
  ret (merchants, txns).

Section Pipeline.

(** [pd.to_numeric(_, errors="coerce")] and
    [pd.to_datetime(_, errors="coerce", utc=True)] at one text cell;
    [None] is the NaN / NaT of a failed parse. *)
Context {ar : Arith} {sv : Server}.
Context (to_numeric : string → option Qc).
Context (to_datetime : string → option Timestamp).

Definition parse (i_amount i_ts : nat) (row : list cell) : Txn :=
  mkTxn row (iat row i_amount ≫= to_numeric) (iat row i_ts ≫= to_datetime).

Definition is_valid (i_status i_merchant : nat) (merchant_ids : gset string)
    (t : Txn) : bool :=
  valid_status (iat (cells t) i_status)
  && valid_amount (amount_num t)
  && valid_ts (txn_ts t)
  && valid_merchant merchant_ids (iat (cells t) i_merchant).

Definition validate_and_clean (merchants txns : loc) : M (TxnFrame * RunStats) :=
  t0 <- deref txns ;;
  let total := len t0 in
  update merchants strip_columns ;;;
  update txns strip_columns ;;;
  m <- deref merchants ;;
  unless (required_merch_cols ⊆ list_to_set (columns m))
    (ValueError "merchants.csv" (required_merch_cols ∖ list_to_set (columns m))) ;;;
  t <- deref txns ;;
  unless (required_txn_cols ⊆ list_to_set (columns t))
    (ValueError "transactions.csv" (required_txn_cols ∖ list_to_set (columns t))) ;;;
  update merchants strip_cells ;;;
  update txns strip_cells ;;;
  t <- deref txns ;;
  i_txn_id <- getitem (columns t) "transaction_id" ;;
  let deduped := drop_duplicates i_txn_id (data t) in
  let after_dedupe := length deduped in
  i_amount <- getitem (columns t) "amount" ;;
  i_ts <- getitem (columns t) "txn_ts_utc" ;;
  let parsed := parse i_amount i_ts <$> deduped in
  i_status <- getitem (columns t) "status" ;;
  m <- deref merchants ;;
  j_merchant <- getitem (columns m) "merchant_id" ;;
  let merchant_ids := id_set ((λ row, iat row j_merchant) <$> data m) in
  i_merchant <- getitem (columns t) "merchant_id" ;;
  let clean_txns :=
    filter (λ r, is_valid i_status i_merchant merchant_ids r) parsed in
  ret (mkTxnFrame (columns t) clean_txns,
       mkRunStats total after_dedupe (length clean_txns)
                  (after_dedupe - length clean_txns) 0 0 0).

(** The run coordinator, on a connected engine. *)
Definition main (files : Files) (now : Z) : M RunStats :=
  p <- extract files ;;
  let merchants := p.1 in
  let txns := p.2 in
  q <- validate_and_clean merchants txns ;;
  let clean_txns := q.1 in
  let stats := q.2 in
  daily <- transform_daily_metrics clean_txns ;;
  n_merchants <- load_merchants now merchants ;;
  let n_daily := length (drows daily) in
  n_facts <- upsert_facts now daily ;;
  ret (mkRunStats (txns_total stats) (txns_after_dedupe stats)
         (txns_valid stats) (txns_rejected stats)
         n_merchants n_daily n_facts).

(** One process: a fresh store, the sink as found. *)
Definition run (files : Files) (now : Z) (s : Sink) : Sink * result RunStats :=
  let wr := main files now (mkWorld ∅ s) in (db wr.1, wr.2).

End Pipeline.

(** ** Sample parsers

    Instances of the two pandas parsers on the plain formats the data
    generator writes: a signed decimal numeral, and an ISO-8601 instant
    in UTC ("YYYY-MM-DDTHH:MM:SSZ").  They serve as concrete instances
    of the parameters. *)

Definition digit (c : ascii) : option Z :=
  let n := nat_of_ascii c in
  if Nat.leb 48 n && Nat.leb n 57 then Some (Z.of_nat (n - 48)) else None.

Fixpoint digits (s : string) (acc : Z) : option Z :=
  match s with
  | EmptyString => Some acc
  | String c s' => d ← digit c; digits s' (acc * 10 + d)%Z
  end.

Fixpoint split_dot (s : string) : string * option string :=
  match s with
  | EmptyString => (EmptyString, None)
  | String c s' =>
      if decide (c = "."%char) then (EmptyString, Some s')
      else let p := split_dot s' in (String c p.1, p.2)
  end.

Definition unsigned_decimal (s : string) : option Qc :=
  let p := split_dot s in
  match p.2 with
  | None =>
      if decide (p.1 = EmptyString) then None else Qc_of_Z <$> digits p.1 0
  | Some f =>
      if decide (p.1 = EmptyString ∧ f = EmptyString) then None
      else
        n ← digits p.1 0; m ← digits f 0;
        Some (Qc_of_Z n + Qc_of_Z m / Qc_of_Z 10 ^ String.length f)%Qc
  end.

Definition sample_to_numeric (s : string) : option Qc :=
  match s with
  | String "-" s' => Qcopp <$> unsigned_decimal s'
  | String "+" s' => unsigned_decimal s'
  | _ => unsigned_decimal s
  end.

Definition field (s : string) (start n : nat) : option Z :=
  let f := substring start n s in
  if decide (String.length f = n) then digits f 0 else None.

Definition sample_to_datetime (s : string) : option Timestamp :=
  if decide (String.length s = 20
             ∧ substring 4 1 s = "-" ∧ substring 7 1 s = "-"
             ∧ substring 10 1 s = "T" ∧ substring 13 1 s = ":"
             ∧ substring 16 1 s = ":" ∧ substring 19 1 s = "Z") then
    y ← field s 0 4; mo ← field s 5 2; d ← field s 8 2;
    h ← field s 11 2; mi ← field s 14 2; sec ← field s 17 2;
    if decide (1 ≤ mo ≤ 12 ∧ 1 ≤ d ≤ 31 ∧ h ≤ 23 ∧ mi ≤ 59 ∧ sec ≤ 59)%Z
    then Some (mkTimestamp (mkDate y mo d) h mi sec 0) else None
  else None.

(** ** Sample arithmetic

    The exact arithmetic on rationals, as an instance of the library's:
    sums and quotients without rounding error, and the round half to
    even that numpy's multiply / rint / divide computes on exact
    values. *)

(** Round half to even, to an integer ([np.rint]). *)
Definition rint (x : Qc) : Z :=
  let f := Qfloor x in
  match (x - Qc_of_Z f ?= Q2Qc (1 # 2))%Qc with
  | Lt => f
  | Gt => (f + 1)%Z
  | Eq => if Z.even f then f else (f + 1)%Z
  end.

(** [Series.round(decimals)]: multiply by 10^decimals, rint, divide. *)
Definition round (decimals : nat) (x : Qc) : Qc :=
  (Qc_of_Z (rint (x * Qc_of_Z 10 ^ decimals)) / Qc_of_Z 10 ^ decimals)%Qc.

Definition exact_round (decimals : nat) (x : number) : number :=
  match x with
  | Finite q => Finite (round decimals q)
  | _ => x
  end.

(** A quotient; a divisor 0 gives an infinity, or NaN for 0 / 0. *)
Definition exact_divide (x y : number) : number :=
  match x, y with
  | Finite a, Finite b =>
      if decide (b = 0%Qc) then
        if decide (a = 0%Qc) then NaN else Infinite (bool_decide (a < 0)%Qc)
      else Finite (a / b)%Qc
  | Finite _, Infinite _ => Finite 0%Qc
  | Infinite n, Finite b => Infinite (xorb n (bool_decide (b < 0)%Qc))
  | _, _ => NaN
  end.

(** [sum] of a float column, skipping NaN. *)
Definition sum_skipna (l : list (option Qc)) : Qc :=
  foldr (λ x acc, (default 0 x + acc)%Qc) 0%Qc l.

Definition exact_sum (l : list (option Qc)) : number := Finite (sum_skipna l).

Definition exact_arith : Arith :=
  {| column_sum := exact_sum;
     true_divide := exact_divide;
     series_round := exact_round |}.

(** ** Sample server

    A server whose VARCHAR(n) holds the texts of at most n bytes and
    whose DECIMAL(p,s) rounds to s decimals and holds fewer than p - s
    integer digits. *)

Definition sample_varchar (n : nat) (s : string) : bool :=
  bool_decide (String.length s ≤ n)%nat.

Definition sample_decimal (p s : nat) (q : Qc) : option Qc :=
  let r := round s q in
  if decide (- Qc_of_Z 10 ^ (p - s) < r ∧ r < Qc_of_Z 10 ^ (p - s))%Qc
  then Some r else None.

Definition sample_server : Server :=
  {| varchar := sample_varchar; decimal := sample_decimal |}.

(** ** Reading the stages

    Definitions used to state what the stages compute. *)

(** The position a label resolves to, and the cell of a row under a label. *)
Definition pos (c : string) (cols : list string) : nat :=
  default 0 (get_loc c cols).

Definition field_of (cols : list string) (c : string) (row : list cell) : cell :=
  iat row (pos c cols).

(** [df[c]] as a column of cells. *)
Definition column (c : string) (df : DataFrame) : list cell :=
  field_of (columns df) c <$> data df.

(** A frame after both normalisation steps of validate_and_clean. *)
Definition normalised (df : DataFrame) : DataFrame :=
  strip_cells (strip_columns df).

(** A text is trimmed when stripping leaves it as it is. *)
Definition trimmed (s : string) : Prop := strip s = s.

Section Validity.

Context {ar : Arith} {sv : Server}.
Context (to_numeric : string → option Qc).
Context (to_datetime : string → option Timestamp).

(** The validity predicate in the words of the specification: the status
    is APPROVED or DECLINED, the amount parses and is positive, the
    timestamp parses, the merchant identifier is a known one. *)
Definition accepted (cols : list string) (merchant_ids : gset string)
    (row : list cell) : Prop :=
  (field_of cols "status" row = Some "APPROVED"
   ∨ field_of cols "status" row = Some "DECLINED")
  ∧ (∃ a q, field_of cols "amount" row = Some a
            ∧ to_numeric a = Some q ∧ (0 < q)%Qc)
  ∧ (∃ s ts, field_of cols "txn_ts_utc" row = Some s
             ∧ to_datetime s = Some ts)
  ∧ (∃ mid, field_of cols "merchant_id" row = Some mid
            ∧ mid ∈ merchant_ids).

Global Instance accepted_dec cols merchant_ids row :
  Decision (accepted cols merchant_ids row).
Proof.
  unfold accepted.
  apply and_dec; [apply or_dec; solve_decision|].
  apply and_dec.
  { destruct (field_of cols "amount" row) as [a|];
      [|right; intros (? & ? & ? & _); discriminate].
    destruct (to_numeric a) as [q|] eqn:Hq;
      [|right; intros (? & ? & ? & ? & _); congruence].
    destruct (decide (0 < q)%Qc);
      [left; eauto|right; intros (? & ? & ? & ? & ?); congruence]. }
  apply and_dec.
  { destruct (field_of cols "txn_ts_utc" row) as [a|];
      [|right; intros (? & ? & ? & _); discriminate].
    destruct (to_datetime a) as [q|] eqn:Hq;
      [left; eauto|right; intros (? & ? & ? & ?); congruence]. }
  destruct (field_of cols "merchant_id" row) as [a|];
    [|right; intros (? & ? & _); discriminate].
  destruct (decide (a ∈ merchant_ids));
    [left; eauto|right; intros (? & ? & ?); congruence].
Defined.

(** A row with its typed columns, read by label. *)
Definition typed (cols : list string) (row : list cell) : Txn :=
  mkTxn row (field_of cols "amount" row ≫= to_numeric)
            (field_of cols "txn_ts_utc" row ≫= to_datetime).

(** The table and the counters the stage returns, as functions of the
    two normalised frames. *)
Definition clean_rows (m t : DataFrame) : list Txn :=
  let cols := columns t in
  filter (λ x, is_valid (pos "status" cols) (pos "merchant_id" cols)
                 (id_set (column "merchant_id" m)) x)
         (parse to_numeric to_datetime (pos "amount" cols) (pos "txn_ts_utc" cols)
            <$> drop_duplicates (pos "transaction_id" cols) (data t)).

Definition clean_stats (total : nat) (m t : DataFrame) : RunStats :=
  let after := length (drop_duplicates (pos "transaction_id" (columns t)) (data t)) in
  mkRunStats total after (length (clean_rows m t))
             (after - length (clean_rows m t)) 0 0 0.

(** Validate, then aggregate, in a fresh process: the daily rows. *)
Definition metrics (files : Files) : result (list DailyRow) :=
  match (p <- extract files ;;
         q <- validate_and_clean to_numeric to_datetime p.1 p.2 ;;
         transform_daily_metrics q.1)
        (mkWorld ∅ (mkSink ∅ ∅ None None)) with
  | (_, Ok daily) => Ok (drows daily)
  | (_, Raise e) => Raise e
  end.

End Validity.

(** The rows of a cleaned table, read by label. *)
Definition status_of (f : TxnFrame) (x : Txn) : cell :=
  field_of (tcolumns f) "status" (cells x).

Definition in_group (f : TxnFrame) (d : Date) (m : string) (x : Txn) : Prop :=
  date <$> txn_ts x = Some d ∧ field_of (tcolumns f) "merchant_id" (cells x) = Some m.

Global Instance in_group_dec f d m x : Decision (in_group f d m x).
Proof. unfold in_group. apply _. Defined.

(** The rows of [rows] whose key does not occur on an earlier row. *)
Definition first_occurrences (i : nat) (rows : list (list cell)) : list (list cell) :=
  snd <$> filter (λ p, iat p.2 i ∉ (λ r, iat r i) <$> take p.1 rows)
                 (zip (seq 0 (length rows)) rows).

(** Every row has one cell per column. *)
Definition rectangular (df : DataFrame) : Prop :=
  Forall (λ row, length row = length (columns df)) (data df).

(** What validate_and_clean guarantees of the table it returns: the labels
    the transform reads are there, the status is one of the two accepted
    values, both typed cells parsed and the merchant cell is a text. *)
Definition cleaned (f : TxnFrame) : Prop :=
  (∀ c, c ∈ ["transaction_id"; "merchant_id"; "status"] → c ∈ tcolumns f)
  ∧ Forall (λ x,
      (status_of f x = Some "APPROVED" ∨ status_of f x = Some "DECLINED")
      ∧ (∃ q, amount_num x = Some q ∧ (0 < q)%Qc)
      ∧ is_Some (txn_ts x)
      ∧ is_Some (field_of (tcolumns f) "merchant_id" (cells x))) (trows f).

(** What it does not check: that a row carries a transaction identifier.
    The cell is never validated, and a missing one stays missing in a
    str column. *)
Definition has_id (f : TxnFrame) (x : Txn) : Prop :=
  is_Some (field_of (tcolumns f) "transaction_id" (cells x)).

Global Instance has_id_dec f x : Decision (has_id f x).
Proof. unfold has_id. apply _. Defined.

Definition identified (f : TxnFrame) : Prop := Forall (has_id f) (trows f).

(** The rows of one (date, merchant) pair, in table order. *)
Definition group_of (f : TxnFrame) (d : Date) (m : string) : list Txn :=
  filter (in_group f d m) (trows f).

(** The metrics of one (date, merchant) pair in the words of the
    specification, with the sums, the quotients and the rounding the
    library computes; the transaction count is [count] of the
    identifier column, which skips a missing identifier. *)
Definition spec_daily_row {ar : Arith} (f : TxnFrame) (d : Date) (m : string) : DailyRow :=
  let g := group_of f d m in
  let n := length (filter (has_id f) g) in
  let approved := length (filter (λ x, status_of f x = Some "APPROVED") g) in
  let declined := length (filter (λ x, status_of f x = Some "DECLINED") g) in
  let gross := column_sum (amount_num <$> g) in
  let approved_sum :=
    column_sum ((λ x, if decide (status_of f x = Some "APPROVED")
                      then amount_num x else Some 0%Qc) <$> g) in
  mkDailyRow d m n approved declined gross approved_sum
    (series_round 4 (true_divide (of_int approved) (of_int n)))
    (series_round 2 (true_divide gross (of_int n))).

(** The rows the transform computes once its three labels are resolved. *)
Definition daily_of {ar : Arith} (f : TxnFrame) : list DailyRow :=
  aggregate (pos "transaction_id" (tcolumns f))
    <$> groupby (group_key (pos "merchant_id" (tcolumns f)))
          (enrich (pos "status" (tcolumns f)) <$> trows f).

(** The two loaders as functions of the frame they are given and of the
    sink: the sink they leave and what they return. *)
Definition staged_merchants {sv : Server} (df : DataFrame) : option (list StgMerchant) :=
  mapM stg_merchant_of (select_columns sink_merchant_columns df).

Definition load_merchants_db {sv : Server} (now : Z) (df : DataFrame) (s : Sink) :
    Sink * result nat :=
  match staged_merchants df with
  | None =>
      (mkSink (dim_merchants s) (fact_daily_merchant_metrics s) (Some [])
         (stg_daily_metrics s),
       Raise (DBAPIError "stg_merchants"))
  | Some staged =>
      if decide (NoDup (sm_merchant_id <$> staged)) then
        (mkSink (foldl (merge_merchant now) (dim_merchants s) staged)
           (fact_daily_merchant_metrics s) None (stg_daily_metrics s),
         Ok (len df))
      else
        (mkSink (dim_merchants s) (fact_daily_merchant_metrics s) (Some staged)
           (stg_daily_metrics s),
         Raise (DBAPIError "dim_merchants"))
  end.

Definition upsert_facts_db {sv : Server} (now : Z) (rows : list DailyRow) (s : Sink) :
    Sink * result nat :=
  match mapM stg_daily_of rows with
  | None =>
      (mkSink (dim_merchants s) (fact_daily_merchant_metrics s) (stg_merchants s)
         (Some []),
       Raise (DBAPIError "stg_daily_metrics"))
  | Some staged =>
      if decide (NoDup ((λ r, (sd_metric_date r, sd_merchant_id r)) <$> staged)
                 ∧ Forall (fk_merchant s) staged) then
        (mkSink (dim_merchants s)
           (foldl (merge_daily now) (fact_daily_merchant_metrics s) staged)
           (stg_merchants s) None,
         Ok (length rows))
      else
        (mkSink (dim_merchants s) (fact_daily_merchant_metrics s) (stg_merchants s)
           (Some staged),
         Raise (DBAPIError "fact_daily_merchant_metrics"))
  end.

(** A whole run as a function of the files and of the sink it finds. *)
Definition run_db {ar : Arith} {sv : Server} (to_numeric : string → option Qc)
    (to_datetime : string → option Timestamp)
    (files : Files) (now : Z) (s : Sink) : Sink * result RunStats :=
  let m := merchants_csv files in
  let t := transactions_csv files in
  if decide (required_merch_cols ⊆ list_to_set (strip <$> columns m)) then
    if decide (required_txn_cols ⊆ list_to_set (strip <$> columns t)) then
      let clean :=
        mkTxnFrame (columns (normalised t))
          (clean_rows to_numeric to_datetime (normalised m) (normalised t)) in
      let stats := clean_stats to_numeric to_datetime (len t) (normalised m) (normalised t) in
      let loaded := load_merchants_db now (normalised m) s in
      match loaded.2 with
      | Raise e => (loaded.1, Raise e)
      | Ok n_merchants =>
          let upserted := upsert_facts_db now (daily_of clean) loaded.1 in
          match upserted.2 with
          | Raise e => (upserted.1, Raise e)
          | Ok n_facts =>
              (upserted.1,
               Ok (mkRunStats (txns_total stats) (txns_after_dedupe stats)
                     (txns_valid stats) (txns_rejected stats)
                     n_merchants (length (daily_of clean)) n_facts))
          end
      end
    else (s, Raise (ValueError "transactions.csv"
                      (required_txn_cols ∖ list_to_set (strip <$> columns t))))
  else (s, Raise (ValueError "merchants.csv"
                    (required_merch_cols ∖ list_to_set (strip <$> columns m)))).

(** A staging row whose every text field is trimmed. *)
Definition trimmed_opt (o : option string) : Prop :=
  ∀ s, o = Some s → trimmed s.

Definition trimmed_row (r : StgMerchant) : Prop :=
  trimmed (sm_merchant_id r) ∧ trimmed (sm_merchant_name r)
  ∧ trimmed_opt (sm_category r) ∧ trimmed_opt (sm_city r)
  ∧ trimmed_opt (sm_state r).

(** ** Example data

    A small pair of files in the shape the data generator writes, with
    stray whitespace, a repeated transaction identifier, a negative
    amount and an unknown merchant. *)

Definition example_merchants : DataFrame :=
  mkFrame object_dtype [" merchant_id"; "merchant_name "; "city"]
    [ [Some " m1 "; Some "Sunrise Coffee "; Some "Costa Mesa"];
      [Some "m2"; Some "Taco Town"; None] ].

Definition example_transactions : DataFrame :=
  mkFrame object_dtype
    ["transaction_id"; "merchant_id"; "txn_ts_utc"; "amount"; "status";
     "payment_method"]
    [ [Some "t1"; Some "m1"; Some "2026-01-01T10:00:00Z"; Some "10.00";
       Some "APPROVED"; Some "CARD"];
      [Some "t2"; Some "m1 "; Some "2026-01-01T11:00:00Z"; Some "20.00";
       Some "DECLINED"; Some "WALLET"];
      [Some " t1"; Some "m1"; Some "2026-01-01T12:00:00Z"; Some "99.00";
       Some "APPROVED"; Some "CARD"];
      [Some "t3"; Some "m2"; Some "2026-01-02T09:30:00Z"; Some "-5.00";
       Some "APPROVED"; Some "CARD"];
      [Some "t4"; Some "m9"; Some "2026-01-02T09:30:00Z"; Some "7.50";
       Some "APPROVED"; Some "CARD"];
      [Some "t5"; Some "m2"; Some "2026-01-02T08:00:00Z"; Some "7.50";
       Some "APPROVED"; None] ].

Definition example_files : Files :=
  mkFiles example_merchants example_transactions.

Definition empty_sink : Sink := mkSink ∅ ∅ None None.

(** The two frames held at references 0 and 1. *)
Definition example_world : World :=
  mkWorld (<[1 := example_transactions]> (<[0 := example_merchants]> ∅)) empty_sink.

Definition example_validated : World * result (TxnFrame * RunStats) :=
  validate_and_clean sample_to_numeric sample_to_datetime 0 1 example_world.

Definition example_clean : TxnFrame :=
  match example_validated.2 with
  | Ok r => r.1
  | Raise _ => mkTxnFrame [] []
  end.

Definition example_stats : RunStats :=
  match example_validated.2 with
  | Ok r => r.2
  | Raise _ => mkRunStats 0 0 0 0 0 0 0
  end.

(** The same transactions without the status column, and with no row. *)
Definition example_no_status : DataFrame :=
  mkFrame object_dtype ["transaction_id"; "merchant_id"; "txn_ts_utc"; "amount"]
    [ [Some "t1"; Some "m1"; Some "2026-01-01T10:00:00Z"; Some "10.00"] ].


Definition example_world_no_status : World :=
  mkWorld (<[1 := example_no_status]> (<[0 := example_merchants]> ∅)) empty_sink.


(** A run on the example files, on an empty sink, at clock 0. *)
Definition example_run : Sink * result RunStats :=
  run (ar := exact_arith) (sv := sample_server)
    sample_to_numeric sample_to_datetime example_files 0 empty_sink.

Definition example_run_stats : RunStats :=
  match example_run.2 with
  | Ok stats => stats
  | Raise _ => mkRunStats 0 0 0 0 0 0 0
  end.

(** ** Config / DB engine *)

(** [urllib.parse.quote_plus] with its default [safe='']: letters, digits
    and the four marks [_.-~] stay, a space becomes [+], every other byte
    becomes [%XX] in upper-case hexadecimal. *)
Definition always_safe (c : ascii) : bool :=
  let n := nat_of_ascii c in
  (Nat.leb 65 n && Nat.leb n 90) || (Nat.leb 97 n && Nat.leb n 122)
  || (Nat.leb 48 n && Nat.leb n 57)
  || Nat.eqb n 95 || Nat.eqb n 46 || Nat.eqb n 45 || Nat.eqb n 126.

Definition hex_digit (n : nat) : ascii :=
  ascii_of_nat (if Nat.ltb n 10 then 48 + n else 55 + n).

Definition quote_byte (c : ascii) : string :=
  if always_safe c then String c EmptyString
  else if Ascii.eqb c " " then "+"
  else String "%" (String (hex_digit (nat_of_ascii c / 16))
                     (String (hex_digit (nat_of_ascii c mod 16)) EmptyString)).

Fixpoint quote_plus (s : string) : string :=
  match s with
  | EmptyString => EmptyString
  | String c s' => (quote_byte c ++ quote_plus s')%string
  end.

(** An f-string field: the text itself, or "None". *)
Definition fstr (v : option string) : string := default "None" v.

(** Truth value of what [os.getenv] returns: None and the empty text are
    false. *)
Definition truthy (v : option string) : bool :=
  match v with
  | Some EmptyString | None => false
  | Some _ => true
  end.

Definition odbc_str (server database username password : option string) : string :=
  ("DRIVER={ODBC Driver 17 for SQL Server};"
   ++ "SERVER=" ++ fstr server ++ ";"
   ++ "DATABASE=" ++ fstr database ++ ";"
   ++ "UID=" ++ fstr username ++ ";"
   ++ "PWD=" ++ fstr password ++ ";"
   ++ "Encrypt=yes;"
   ++ "TrustServerCertificate=no;"
   ++ "Connection Timeout=30;")%string.

(** What get_engine ends with: the engine made for a URL, or the
    ValueError of a missing variable. *)
Inductive engine_result :=
  | Engine (connect_url : string)
  | ConfigValueError (msg : string).

(** [environ] is the process environment once load_dotenv has run. *)
Definition get_engine (environ : gmap string string) : engine_result :=
  let server := environ !! "AZURE_SQL_SERVER" in
  let database := environ !! "AZURE_SQL_DATABASE" in
  let username := environ !! "AZURE_SQL_USERNAME" in
  let password := environ !! "AZURE_SQL_PASSWORD" in
  if negb (forallb truthy [server; database; username; password]) then
    ConfigValueError "Missing one or more required env vars. Check your .env file."
  else
    Engine ("mssql+pyodbc:///?odbc_connect="
            ++ quote_plus (odbc_str server database username password))%string.

(** The inverse reading of a quoted text, as the URL's reader does it
    ([urllib.parse.unquote_plus]): [+] is a space, [%XX] with two
    hexadecimal digits is the byte XX, anything else is itself. *)
Definition is_hex (c : ascii) : bool :=
  let n := nat_of_ascii c in
  (Nat.leb 48 n && Nat.leb n 57) || (Nat.leb 65 n && Nat.leb n 70)
  || (Nat.leb 97 n && Nat.leb n 102).

Definition hex_value (c : ascii) : nat :=
  let n := nat_of_ascii c in
  if Nat.leb 48 n && Nat.leb n 57 then n - 48
  else if Nat.leb 65 n && Nat.leb n 70 then n - 55
  else if Nat.leb 97 n && Nat.leb n 102 then n - 87
  else 0.

Fixpoint unquote_plus (s : string) : string :=
  match s with
  | EmptyString => EmptyString
  | String c s' =>
      if Ascii.eqb c "+" then String " " (unquote_plus s')
      else if Ascii.eqb c "%" then
        match s' with
        | String h (String l s'') =>
            if is_hex h && is_hex l then
              String (ascii_of_nat (16 * hex_value h + hex_value l))
                     (unquote_plus s'')
            else String c (unquote_plus s')
        | _ => String c (unquote_plus s')
        end
      else String c (unquote_plus s')
  end.

(** The characters a quoted text is made of. *)
Definition url_char (c : ascii) : bool :=
  always_safe c || Ascii.eqb c "+" || Ascii.eqb c "%".

Fixpoint all_chars (P : ascii → bool) (s : string) : bool :=
  match s with
  | EmptyString => true
  | String c s' => P c && all_chars P s'
  end.

Definition example_environ : gmap string string :=
  <["AZURE_SQL_SERVER" := "tcp:etl.database.windows.net,1433"]>
    (<["AZURE_SQL_DATABASE" := "payments"]>
       (<["AZURE_SQL_USERNAME" := "etl user"]>
          (<["AZURE_SQL_PASSWORD" := "p@ss;w=rd%+"]> ∅))).

Definition example_url : string :=
  match get_engine example_environ with
  | Engine url => url
  | ConfigValueError _ => EmptyString
  end.

(** Calendar order, and the order of the daily rows: by date, then by
    merchant identifier compared byte by byte. *)
Definition date_lt (d1 d2 : Date) : Prop :=
  (year d1 < year d2)%Z
  ∨ (year d1 = year d2
     ∧ ((month d1 < month d2)%Z
        ∨ (month d1 = month d2 ∧ (day d1 < day d2)%Z))).

Definition daily_lt (r1 r2 : DailyRow) : Prop :=
  date_lt (metric_date r1) (metric_date r2)
  ∨ (metric_date r1 = metric_date r2
     ∧ String.ltb (merchant_id r1) (merchant_id r2) = true).

(** The fact row MERGE writes for a staged row, given the row its key
    matched: loaded_at_utc takes its default only on INSERT. *)
Definition fact_of (now : Z) (r : StgDaily) (o : option FactDaily) : FactDaily :=
  mkFactDaily (sd_txn_count r) (sd_approved_txn_count r) (sd_declined_txn_count r)
    (sd_gross_amount r) (sd_approved_amount r) (sd_approval_rate r)
    (sd_avg_ticket r)
    (match o with Some old => loaded_at_utc old | None => now end).

(** The foreign key of the fact table, as a property of a sink. *)
Definition fk_closed (s : Sink) : Prop :=
  ∀ k, k ∈ dom (fact_daily_merchant_metrics s) → k.2 ∈ dom (dim_merchants s).

(** The cell a selection reads under a label: NULL for a column the
    frame lacks. *)
Definition selected (df : DataFrame) (row : list cell) (c : string) : cell :=
  match get_loc c (columns df) with
  | Some i => iat row i
  | None => None
  end.

(** What the staging table of merchants accepts of the row selected from
    a frame: a text in both NOT NULL columns, every text within the
    width of its column. *)
Definition stageable_merchant {sv : Server} (df : DataFrame) (row : list cell) : Prop :=
  (∃ mid, selected df row "merchant_id" = Some mid ∧ varchar 64 mid)
  ∧ (∃ name, selected df row "merchant_name" = Some name ∧ varchar 255 name)
  ∧ varchar_null 100 (selected df row "category")
  ∧ varchar_null 100 (selected df row "city")
  ∧ varchar_null 50 (selected df row "state").

(** What the staging table of daily metrics accepts of a daily row: an
    identifier within its width, counts within INT, and four numbers the
    decimal columns hold. *)
Definition stageable_daily {sv : Server} (r : DailyRow) : Prop :=
  varchar 64 (merchant_id r)
  ∧ int (txn_count r) ∧ int (approved_txn_count r) ∧ int (declined_txn_count r)
  ∧ is_Some (decimal_not_null 18 2 (gross_amount r))
  ∧ is_Some (decimal_not_null 18 2 (approved_amount r))
  ∧ is_Some (decimal_not_null 9 4 (approval_rate r))
  ∧ is_Some (decimal_not_null 18 2 (avg_ticket r)).

(** The staging row that stands for a daily row: the key and the counts
    as they are, each number as its decimal column stores it. *)
Definition staged_as {sv : Server} (r : DailyRow) (s : StgDaily) : Prop :=
  sd_metric_date s = metric_date r ∧ sd_merchant_id s = merchant_id r
  ∧ sd_txn_count s = txn_count r
  ∧ sd_approved_txn_count s = approved_txn_count r
  ∧ sd_declined_txn_count s = declined_txn_count r
  ∧ decimal_not_null 18 2 (gross_amount r) = Some (sd_gross_amount s)
  ∧ decimal_not_null 18 2 (approved_amount r) = Some (sd_approved_amount s)
  ∧ decimal_not_null 9 4 (approval_rate r) = Some (sd_approval_rate s)
  ∧ decimal_not_null 18 2 (avg_ticket r) = Some (sd_avg_ticket s).

(** More example data: a merchants frame with a repeated identifier, the
    example once its merchants are loaded, its daily frame, and a sink
    with a staging table left behind. *)
Definition example_duplicate_merchants : DataFrame :=
  mkFrame object_dtype ["merchant_id"; "merchant_name"]
    [ [Some "m1"; Some "Sunrise Coffee"];
      [Some "m1"; Some "Sunrise Cafe"] ].

Definition example_world_duplicates : World :=
  mkWorld (<[0 := example_duplicate_merchants]> ∅) empty_sink.

Definition example_files_duplicates : Files :=
  mkFiles example_duplicate_merchants example_transactions.

Definition example_loaded : World * result nat :=
  load_merchants (sv := sample_server) 0 0 example_validated.1.

Definition example_daily : DailyFrame :=
  mkDailyFrame daily_columns (daily_of (ar := exact_arith) example_clean).

Definition example_stale_sink : Sink := mkSink ∅ ∅ (Some []) None.

(** The files as read into str columns, where a missing field stays
    missing: two approved transactions of one merchant and one day, the
    second without its identifier; and that second transaction alone. *)
Definition example_merchants_str : DataFrame :=
  mkFrame str_dtype ["merchant_id"; "merchant_name"; "city"]
    [ [Some "m1"; Some "Sunrise Coffee"; None] ].


Definition example_only_missing_id : DataFrame :=
  mkFrame str_dtype
    ["transaction_id"; "merchant_id"; "txn_ts_utc"; "amount"; "status"]
    [ [None; Some "m1"; Some "2026-01-01T11:00:00Z"; Some "20.00";
       Some "APPROVED"] ].




(** A run with the sample parsers, the exact arithmetic and the sample
    server. *)
Definition sample_run (files : Files) (now : Z) (s : Sink) : Sink * result RunStats :=
  run (ar := exact_arith) (sv := sample_server)
    sample_to_numeric sample_to_datetime files now s.

(** The files of the transaction without an identifier. *)
Definition example_files_only_missing_id : Files :=
  mkFiles example_merchants_str example_only_missing_id.


(** ** The definitions at work *)

Example strip_both_ends : strip (String "009" "  Sunrise Coffee  ") = "Sunrise Coffee".
Proof. reflexivity. Qed.

Example strip_keeps_inner_space : strip " a b " = "a b".
Proof. reflexivity. Qed.

(** U+00A0 before and U+2003 after the text: both are removed. *)
Example strip_no_break_space :
  strip (String "194" (String "160"
           ("m1" +:+ String "226" (String "128" (String "131" EmptyString)))))
  = "m1".
Proof. reflexivity. Qed.

(** The euro sign U+20AC shares its first byte with the spaces of
    U+2000..U+205F and stays. *)
Example strip_keeps_euro :
  strip (String "226" (String "130" (String "172" " ")))
  = String "226" (String "130" (String "172" EmptyString)).
Proof. reflexivity. Qed.

Example str_strip_nan : str_strip object_dtype None = Some "nan".
Proof. reflexivity. Qed.

Example str_strip_missing : str_strip str_dtype None = None.
Proof. reflexivity. Qed.

Example str_strip_text d : str_strip d (Some " m1 ") = Some "m1".
Proof. reflexivity. Qed.

Example rint_half_to_even_down : rint (Q2Qc (5 # 2)) = 2%Z.
Proof. reflexivity. Qed.

Example rint_half_to_even_up : rint (Q2Qc (7 # 2)) = 4%Z.
Proof. reflexivity. Qed.

Example round_one_eighth : round 2 (Q2Qc (1 # 8)) = Q2Qc (12 # 100).
Proof. apply Qc_is_canon. reflexivity. Qed.

Example round_one_third : round 4 (Q2Qc (1 # 3)) = Q2Qc (3333 # 10000).
Proof. apply Qc_is_canon. reflexivity. Qed.

Example drop_duplicates_keeps_first :
  drop_duplicates 0 [[Some "a"; Some "1"]; [Some "b"; Some "2"]; [Some "a"; Some "3"]]
  = [[Some "a"; Some "1"]; [Some "b"; Some "2"]].
Proof. reflexivity. Qed.

Example first_occurrences_keeps_first :
  first_occurrences 0 [[Some "a"; Some "1"]; [Some "b"; Some "2"]; [Some "a"; Some "3"]]
  = [[Some "a"; Some "1"]; [Some "b"; Some "2"]].
Proof. reflexivity. Qed.

Example groupby_sorts_by_date_then_merchant :
  groupby Some
    [ (mkDate 2026 1 2, "m1"); (mkDate 2026 1 1, "m2"); (mkDate 2026 1 1, "m1");
      (mkDate 2026 1 1, "m2") ]
  = [ ((mkDate 2026 1 1, "m1"), [(mkDate 2026 1 1, "m1")]);
      ((mkDate 2026 1 1, "m2"), [(mkDate 2026 1 1, "m2"); (mkDate 2026 1 1, "m2")]);
      ((mkDate 2026 1 2, "m1"), [(mkDate 2026 1 2, "m1")]) ].
Proof. vm_compute. reflexivity. Qed.

Example sample_to_numeric_negative :
  this <$> sample_to_numeric "-5.00" = Some (-5 # 1)%Q.
Proof. reflexivity. Qed.

Example sample_to_numeric_text : sample_to_numeric "abc" = None.
Proof. reflexivity. Qed.

Example sample_to_datetime_other_format : sample_to_datetime "01/02/2026" = None.
Proof. reflexivity. Qed.

Example example_clean_cells :
  cells <$> trows example_clean
  = [ [Some "t1"; Some "m1"; Some "2026-01-01T10:00:00Z"; Some "10.00";
       Some "APPROVED"; Some "CARD"];
      [Some "t2"; Some "m1"; Some "2026-01-01T11:00:00Z"; Some "20.00";
       Some "DECLINED"; Some "WALLET"];
      [Some "t5"; Some "m2"; Some "2026-01-02T08:00:00Z"; Some "7.50";
       Some "APPROVED"; Some "nan"] ].
Proof. vm_compute. reflexivity. Qed.

Example example_stats_value : example_stats = mkRunStats 6 5 3 2 0 0 0.
Proof. vm_compute. reflexivity. Qed.

Example example_run_stats_value : example_run_stats = mkRunStats 6 5 3 2 2 2 2.
Proof. vm_compute. reflexivity. Qed.

Example example_run_merchants :
  dm_merchant_name <$> dim_merchants example_run.1
  = {[ "m1" := "Sunrise Coffee"; "m2" := "Taco Town" ]}.
Proof. vm_compute. reflexivity. Qed.

Example quote_plus_reserved :
  quote_plus "p@ss w=rd;{1}~" = "p%40ss+w%3Drd%3B%7B1%7D~".
Proof. vm_compute. reflexivity. Qed.

Example unquote_plus_malformed : unquote_plus "100%+%zz%41" = "100% %zzA".
Proof. vm_compute. reflexivity. Qed.

Example get_engine_empty_password :
  get_engine (<["AZURE_SQL_PASSWORD" := ""]> example_environ)
  = ConfigValueError "Missing one or more required env vars. Check your .env file.".
Proof. vm_compute. reflexivity. Qed.

(** ** The run monad *)

Lemma bind_ok {A B} (m : M A) (k : A → M B) w w' a :
  m w = (w', Ok a) → bind m k w = k a w'.
Proof. unfold bind. by intros ->. Qed.

Lemma bind_raise {A B} (m : M A) (k : A → M B) w w' e :
  m w = (w', Raise e) → bind m k w = (w', Raise e).
Proof. unfold bind. by intros ->. Qed.

Lemma bind_inv {A B} (m : M A) (k : A → M B) w w' b :
  bind m k w = (w', Ok b) → ∃ w1 a, m w = (w1, Ok a) ∧ k a w1 = (w', Ok b).
Proof.
  unfold bind. destruct (m w) as [w1 [a|e]]; [eauto|discriminate].
Qed.

Lemma deref_ok l w df : store w !! l = Some df → deref l w = (w, Ok df).
Proof. unfold deref. by intros ->. Qed.

Lemma deref_inv l w w' df :
  deref l w = (w', Ok df) → w' = w ∧ store w !! l = Some df.
Proof. unfold deref. destruct (store w !! l); naive_solver. Qed.

Lemma update_ok l f w df :
  store w !! l = Some df →
  update l f w = (mkWorld (<[l := f df]> (store w)) (db w), Ok tt).
Proof. unfold update. by intros ->. Qed.

Lemma update_inv l f w w' u :
  update l f w = (w', Ok u) →
  ∃ df, store w !! l = Some df ∧ w' = mkWorld (<[l := f df]> (store w)) (db w).
Proof. unfold update. destruct (store w !! l); naive_solver. Qed.

Lemma unless_ok (P : Prop) `{Decision P} e w : P → unless P e w = (w, Ok tt).
Proof. unfold unless. intros. by rewrite decide_True. Qed.

Lemma unless_raise (P : Prop) `{Decision P} e w :
  ¬ P → unless P e w = (w, Raise e).
Proof. unfold unless. intros. by rewrite decide_False. Qed.

Lemma unless_inv (P : Prop) `{Decision P} e w w' u :
  unless P e w = (w', Ok u) → w' = w ∧ P.
Proof. unfold unless, ret, raise. case_decide; naive_solver. Qed.

(** ** Labels and positions *)

Lemma get_loc_Some c cols i : get_loc c cols = Some i → cols !! i = Some c.
Proof.
  revert i. induction cols as [|c' cols IH]; intros i; simpl; [done|].
  case_decide as Hc; [naive_solver|].
  destruct (get_loc c cols) as [j|]; simpl; [|done].
  intros [= <-]. by apply IH.
Qed.

Lemma get_loc_elem c cols : c ∈ cols → get_loc c cols = Some (pos c cols).
Proof.
  unfold pos. induction cols as [|c' cols IH]; simpl.
  - by intros ?%not_elem_of_nil.
  - intros [->|Hin]%elem_of_cons; [by rewrite decide_True|].
    case_decide; [done|]. specialize (IH Hin).
    destruct (get_loc c cols); [done|discriminate].
Qed.

Lemma get_loc_pos c cols i : get_loc c cols = Some i → pos c cols = i.
Proof. unfold pos. by intros ->. Qed.

Lemma getitem_ok cols c w : c ∈ cols → getitem cols c w = (w, Ok (pos c cols)).
Proof. intros H. unfold getitem. by rewrite (get_loc_elem _ _ H). Qed.

Lemma getitem_inv cols c w w' i :
  getitem cols c w = (w', Ok i) → w' = w ∧ c ∈ cols ∧ i = pos c cols.
Proof.
  unfold getitem. destruct (get_loc c cols) as [j|] eqn:Hj; [|discriminate].
  intros [= <- <-]. split_and!; [done| |by rewrite (get_loc_pos _ _ _ Hj)].
  apply get_loc_Some in Hj. by eapply list_elem_of_lookup_2.
Qed.

Lemma required_merch_elem cols c :
  required_merch_cols ⊆ list_to_set cols →
  c ∈ ["merchant_id"; "merchant_name"] → c ∈ cols.
Proof.
  intros Hsub Hc. apply (elem_of_list_to_set (C:=gset string)), Hsub.
  unfold required_merch_cols. set_solver.
Qed.

Lemma required_txn_elem cols c :
  required_txn_cols ⊆ list_to_set cols →
  c ∈ ["transaction_id"; "merchant_id"; "txn_ts_utc"; "amount"; "status"] →
  c ∈ cols.
Proof.
  intros Hsub Hc. apply (elem_of_list_to_set (C:=gset string)), Hsub.
  unfold required_txn_cols. set_solver.
Qed.

Lemma store_normalised (h : gmap loc DataFrame) lm lt m t :
  lm ≠ lt →
  <[lt := strip_cells (strip_columns t)]>
    (<[lm := strip_cells (strip_columns m)]>
       (<[lt := strip_columns t]> (<[lm := strip_columns m]> h)))
  = <[lt := normalised t]> (<[lm := normalised m]> h).
Proof.
  intros Hne. unfold normalised. apply map_eq. intros l.
  destruct (decide (l = lt)) as [->|]; [by rewrite !lookup_insert_eq|].
  rewrite !(lookup_insert_ne _ lt) by done.
  destruct (decide (l = lm)) as [->|]; [by rewrite !lookup_insert_eq|].
  by rewrite !lookup_insert_ne by done.
Qed.

(** Stepping through a computation: the next statement is a read or an
    update of the store, a passed check, or a label lookup. *)
Ltac store_lookup :=
  cbn [store];
  repeat first [rewrite lookup_insert_eq | rewrite lookup_insert_ne by done];
  done.

Ltac run_deref := erewrite bind_ok; [|apply deref_ok; store_lookup].
Ltac run_update := erewrite bind_ok; [|apply update_ok; store_lookup].
Ltac run_check := erewrite bind_ok; [|by apply unless_ok].
Ltac run_getitem H := erewrite bind_ok; [|apply getitem_ok, H; set_solver].

(** ** Validate / Clean, step by step *)

Section ValidateFacts.

Context {ar : Arith} {sv : Server}.
Context (to_numeric : string → option Qc).
Context (to_datetime : string → option Timestamp).

Local Abbreviation validate_and_clean :=
  (validate_and_clean to_numeric to_datetime).
Local Abbreviation clean_rows := (clean_rows to_numeric to_datetime).
Local Abbreviation clean_stats := (clean_stats to_numeric to_datetime).

Lemma validate_and_clean_ok w lm lt m t :
  lm ≠ lt → store w !! lm = Some m → store w !! lt = Some t →
  required_merch_cols ⊆ list_to_set (strip <$> columns m) →
  required_txn_cols ⊆ list_to_set (strip <$> columns t) →
  validate_and_clean lm lt w =
    (mkWorld (<[lt := normalised t]> (<[lm := normalised m]> (store w))) (db w),
     Ok (mkTxnFrame (columns (normalised t))
           (clean_rows (normalised m) (normalised t)),
         clean_stats (len t) (normalised m) (normalised t))).
Proof.
  intros Hne Hm Ht Hrm Hrt. unfold validate_and_clean.
  run_deref. run_update. run_update. run_deref. run_check. run_deref. run_check.
  run_update. run_update.
  cbn [store]. rewrite store_normalised by done.
  run_deref.
  assert (∀ c, c ∈ ["transaction_id"; "merchant_id"; "txn_ts_utc"; "amount"; "status"] →
               c ∈ columns (normalised t)) as Hct
    by (intros c; by apply required_txn_elem).
  assert (∀ c, c ∈ ["merchant_id"; "merchant_name"] →
               c ∈ columns (normalised m)) as Hcm
    by (intros c; by apply required_merch_elem).
  run_getitem Hct. run_getitem Hct. run_getitem Hct. run_getitem Hct.
  run_deref. run_getitem Hcm. run_getitem Hct.
  reflexivity.
Qed.

End ValidateFacts.

Lemma filter_all {A} (P : A → Prop) `{∀ x, Decision (P x)} (l : list A) :
  Forall P l → filter P l = l.
Proof.
  induction 1 as [|x l Hx _ IH]; [done|].
  rewrite filter_cons_True by done. by rewrite IH.
Qed.

Lemma filter_fmap_iff {A B} (f : A → B) (P : B → Prop) (Q : A → Prop)
    `{∀ y, Decision (P y)} `{∀ x, Decision (Q x)} (l : list A) :
  (∀ x, P (f x) ↔ Q x) → filter P (f <$> l) = f <$> filter Q l.
Proof.
  intros HPQ. induction l as [|x l IH]; [done|].
  rewrite fmap_cons, !filter_cons, IH.
  destruct (decide (P (f x))) as [HP|HP], (decide (Q x)) as [HQ|HQ];
    [done| | |done]; exfalso; by apply HPQ in HP || apply HPQ in HQ.
Qed.

Section ValidateSpec.

Context {ar : Arith} {sv : Server}.
Context (to_numeric : string → option Qc).
Context (to_datetime : string → option Timestamp).

Lemma is_valid_accepted cols ids row :
  is_valid (pos "status" cols) (pos "merchant_id" cols) ids
    (typed to_numeric to_datetime cols row)
  ↔ accepted to_numeric to_datetime cols ids row.
Proof.
  unfold is_valid, accepted, typed, field_of; simpl.
  rewrite !andb_True. unfold valid_status, valid_amount, valid_ts, valid_merchant.
  rewrite bool_decide_spec, !elem_of_cons, elem_of_nil.
  split.
  - intros [[[Hst Ham] Hts] Hmid]. split_and!.
    + naive_solver.
    + destruct (iat row (pos "amount" cols)) as [a|]; simpl in *; [|done].
      destruct (to_numeric a) as [q|] eqn:Hq; [|done].
      exists a, q. by apply bool_decide_spec in Ham.
    + destruct (iat row (pos "txn_ts_utc" cols)) as [a|]; simpl in *; [|done].
      destruct (to_datetime a) as [q|] eqn:Hq; [eauto|done].
    + destruct (iat row (pos "merchant_id" cols)) as [a|]; [|done].
      exists a. by apply bool_decide_spec in Hmid.
  - intros (Hst & (a & q & -> & Hq & Hpos) & (s & ts & -> & Hts) & (mid & -> & Hmid)).
    simpl. rewrite Hq, Hts. split_and!; [naive_solver| |done|].
    + by apply bool_decide_spec.
    + by apply bool_decide_spec.
Qed.

Lemma clean_rows_accepted m t :
  clean_rows to_numeric to_datetime m t
  = typed to_numeric to_datetime (columns t)
      <$> filter (accepted to_numeric to_datetime (columns t)
                    (id_set (column "merchant_id" m)))
            (drop_duplicates (pos "transaction_id" (columns t)) (data t)).
Proof.
  unfold clean_rows.
  apply (filter_fmap_iff (typed to_numeric to_datetime (columns t))).
  intros row. apply is_valid_accepted.
Qed.


End ValidateSpec.

(** ** Grouping *)

Section Groups.

Context {K A : Type} `{EqDecision K} (key : A → option K).

Lemma group_insert_new k x (gs : list (K * list A)) :
  k ∉ gs.*1 → group_insert k x gs = gs ++ [(k, [x])].
Proof.
  induction gs as [|[k' xs] gs IH]; csimpl; [done|].
  rewrite not_elem_of_cons. intros [Hne Hnin].
  rewrite decide_False by done. by rewrite IH.
Qed.

Lemma group_insert_keys k x (gs : list (K * list A)) :
  k ∈ gs.*1 → (group_insert k x gs).*1 = gs.*1.
Proof.
  induction gs as [|[k' xs] gs IH]; csimpl; [by intros ?%not_elem_of_nil|].
  case_decide as Hk; [done|]. rewrite elem_of_cons.
  intros [?|Hin]; [done|]. csimpl. by rewrite IH.
Qed.

Lemma group_insert_old k x xs (gs : list (K * list A)) :
  NoDup gs.*1 → (k, xs) ∈ gs →
  ∀ k' xs', (k', xs') ∈ group_insert k x gs
            ↔ (k' = k ∧ xs' = xs ++ [x]) ∨ (k' ≠ k ∧ (k', xs') ∈ gs).
Proof.
  induction gs as [|[k0 xs0] gs IH]; csimpl; [by intros _ ?%not_elem_of_nil|].
  rewrite NoDup_cons. intros [Hnin Hnd] Hin k' xs'.
  apply elem_of_cons in Hin as [[= <- <-]|Hin].
  - rewrite decide_True by done. rewrite !elem_of_cons. split.
    + intros [[= -> ->]|Hin']; [by left|]. right. split; [|by right].
      intros ->. apply Hnin. by apply (list_elem_of_fmap_2 fst) in Hin'.
    + intros [[-> ->]|[Hne [[= ? ?]|?]]]; [by left|done|by right].
  - assert (k ≠ k0) as Hne.
    { intros ->. apply Hnin. by apply (list_elem_of_fmap_2 fst) in Hin. }
    rewrite decide_False by done. rewrite !elem_of_cons, (IH Hnd Hin).
    split; [|naive_solver].
    intros [[= -> ->]|[?|?]]; [right; split; [done|by left]|by left|naive_solver].
Qed.

Lemma filter_key_snoc (l : list A) x k :
  filter (λ r, key r = Some k) (l ++ [x])
  = filter (λ r, key r = Some k) l ++ (if decide (key x = Some k) then [x] else []).
Proof. rewrite filter_app. f_equal. Qed.

(** The groups built in one pass: one entry per key that occurs, holding
    the rows of that key in their order. *)
Lemma groups_spec (l : list A) :
  NoDup (groups key l).*1
  ∧ ∀ k xs, (k, xs) ∈ groups key l
            ↔ xs = filter (λ r, key r = Some k) l ∧ xs ≠ [].
Proof.
  unfold groups. induction l as [|x l IH] using rev_ind.
  { simpl. split; [constructor|]. intros k xs. rewrite elem_of_nil.
    split; [done|]. by intros [-> ?]. }
  rewrite foldl_snoc.
  set (gs := foldl _ [] l) in *. destruct IH as [Hnd IH].
  cbv beta. destruct (key x) as [k0|] eqn:Hx.
  - destruct (decide (k0 ∈ gs.*1)) as [Hin|Hnin].
    + split; [by rewrite group_insert_keys|].
      apply list_elem_of_fmap in Hin as ([k1 xs0] & -> & Hin). simpl in *.
      intros k xs. rewrite (group_insert_old _ _ _ _ Hnd Hin), filter_key_snoc.
      pose proof (proj1 (IH _ _) Hin) as [Hxs0 _].
      destruct (decide (k = k1)) as [->|Hne].
      * rewrite decide_True by done. rewrite <-Hxs0. split.
        -- intros [[_ ->]|[? _]]; [|done]. split; [done|].
           by intros [? ?]%app_eq_nil.
        -- intros [-> _]. by left.
      * rewrite decide_False by congruence. rewrite app_nil_r, <-IH.
        naive_solver.
    + rewrite group_insert_new by done. split.
      { rewrite fmap_app. simpl. apply NoDup_app. split_and!; [done| |].
        - intros k Hk ->%list_elem_of_singleton. done.
        - apply NoDup_singleton. }
      intros k xs. rewrite elem_of_app, list_elem_of_singleton, filter_key_snoc.
      destruct (decide (k = k0)) as [->|Hne].
      * rewrite decide_True by done.
        assert (filter (λ r, key r = Some k0) l = []) as Hnil.
        { destruct (filter (λ r, key r = Some k0) l) as [|y ys] eqn:Hf; [done|].
          exfalso. apply Hnin.
          apply (list_elem_of_fmap_2' fst _ (k0, y :: ys)); [|done].
          apply IH. by rewrite Hf. }
        rewrite Hnil. simpl. split.
        -- intros [Hin|[= ->]]; [|done].
           exfalso. apply Hnin. by apply (list_elem_of_fmap_2 fst) in Hin.
        -- intros [-> _]. by right.
      * rewrite decide_False by congruence. rewrite app_nil_r, <-IH.
        naive_solver.
  - split; [done|]. intros k xs. rewrite filter_key_snoc.
    rewrite decide_False by congruence. by rewrite app_nil_r.
Qed.

End Groups.

(** Sorting the groups permutes them. *)
Lemma groupby_groups {A} (key : A → option (Date * string)) (l : list A) :
  groupby key l ≡ₚ groups key l.
Proof. unfold groupby. apply merge_sort_Permutation. Qed.

Lemma groupby_spec {A} (key : A → option (Date * string)) (l : list A) :
  NoDup (groupby key l).*1
  ∧ ∀ k xs, (k, xs) ∈ groupby key l
            ↔ xs = filter (λ r, key r = Some k) l ∧ xs ≠ [].
Proof.
  destruct (groups_spec key l) as [Hnd Hin]. split.
  - by rewrite groupby_groups.
  - intros k xs. by rewrite groupby_groups.
Qed.

(** ** Transform on a cleaned table *)

Lemma group_key_enrich f x d m :
  group_key (pos "merchant_id" (tcolumns f)) (enrich (pos "status" (tcolumns f)) x)
    = Some (d, m)
  ↔ in_group f d m x.
Proof.
  unfold group_key, enrich, in_group, field_of. simpl.
  destruct (date <$> txn_ts x) as [d'|]; [|naive_solver].
  destruct (iat (cells x) _) as [m'|]; naive_solver.
Qed.

Lemma sum_eq_int_length f (g : list Txn) s :
  sum_list ((λ x, eq_int (status_of f x) s) <$> g)
  = length (filter (λ x, status_of f x = Some s) g).
Proof.
  induction g as [|x g IH]; [done|].
  rewrite fmap_cons, filter_cons. cbn [sum_list sum_list_with]. unfold eq_int at 1.
  case_decide; cbn [length]; rewrite IH; unfold id; lia.
Qed.

Lemma count_has_id f (g : list Txn) :
  count ((λ x, field_of (tcolumns f) "transaction_id" (cells x)) <$> g)
  = length (filter (has_id f) g).
Proof.
  unfold count. induction g as [|x g IH]; [done|].
  rewrite fmap_cons, (filter_cons (has_id f)), filter_cons.
  unfold has_id at 1.
  repeat case_decide; cbn [length]; first [done | by f_equal].
Qed.

Section Aggregate.

Context {ar : Arith}.

(** The aggregate of a group is the row the specification describes. *)
Lemma aggregate_spec f d m :
  aggregate (pos "transaction_id" (tcolumns f))
    ((d, m), enrich (pos "status" (tcolumns f)) <$> group_of f d m)
  = spec_daily_row f d m.
Proof.
  unfold aggregate, spec_daily_row. cbn [fst snd].
  set (g := group_of f d m) in *.
  rewrite <-!list_fmap_compose.
  set (E := enrich (pos "status" (tcolumns f))).
  assert ((λ e, iat (cells (e_txn e)) (pos "transaction_id" (tcolumns f))) ∘ E <$> g
          = (λ x, field_of (tcolumns f) "transaction_id" (cells x)) <$> g) as ->
    by reflexivity.
  assert (e_is_approved ∘ E <$> g
          = (λ x, eq_int (status_of f x) "APPROVED") <$> g) as -> by reflexivity.
  assert (e_is_declined ∘ E <$> g
          = (λ x, eq_int (status_of f x) "DECLINED") <$> g) as -> by reflexivity.
  assert ((λ e, amount_num (e_txn e)) ∘ E <$> g = amount_num <$> g) as ->
    by reflexivity.
  assert (e_approved_amount ∘ E <$> g
          = (λ x, if decide (status_of f x = Some "APPROVED")
                  then amount_num x else Some 0%Qc) <$> g) as ->
    by reflexivity.
  by rewrite count_has_id, !sum_eq_int_length.
Qed.

Lemma transform_daily_metrics_run f w :
  (∀ c, c ∈ ["transaction_id"; "merchant_id"; "status"] → c ∈ tcolumns f) →
  transform_daily_metrics f w = (w, Ok (mkDailyFrame daily_columns (daily_of f))).
Proof.
  intros Hcols. unfold transform_daily_metrics.
  run_getitem Hcols. run_getitem Hcols. run_getitem Hcols.
  reflexivity.
Qed.

Lemma transform_daily_metrics_ok f w :
  cleaned f →
  transform_daily_metrics f w = (w, Ok (mkDailyFrame daily_columns (daily_of f))).
Proof. intros [Hcols _]. by apply transform_daily_metrics_run. Qed.

Lemma enriched_group f d m :
  filter (λ e, group_key (pos "merchant_id" (tcolumns f)) e = Some (d, m))
         (enrich (pos "status" (tcolumns f)) <$> trows f)
  = enrich (pos "status" (tcolumns f)) <$> group_of f d m.
Proof. apply filter_fmap_iff. intros x. apply group_key_enrich. Qed.

Lemma aggregate_key i (g : (Date * string) * list Enriched) :
  (metric_date (aggregate i g), merchant_id (aggregate i g)) = g.1.
Proof. by destruct g as [[d m] xs]. Qed.

(** The rows the transform emits: one per pair that has a row, each the
    row of the specification. *)
Lemma daily_rows_spec f :
  NoDup ((λ r, (metric_date r, merchant_id r)) <$> daily_of f)
  ∧ ∀ r, r ∈ daily_of f ↔ ∃ d m, group_of f d m ≠ [] ∧ r = spec_daily_row f d m.
Proof.
  unfold daily_of.
  destruct (groupby_spec (group_key (pos "merchant_id" (tcolumns f)))
              (enrich (pos "status" (tcolumns f)) <$> trows f)) as [Hnd Hin].
  split.
  - rewrite <-list_fmap_compose.
    rewrite (list_fmap_ext _ fst); [done|]. intros _ g _. apply aggregate_key.
  - intros r. rewrite list_elem_of_fmap. split.
    + intros ([[d m] xs] & -> & Hg). apply Hin in Hg as [-> Hne].
      rewrite enriched_group in Hne |- *. exists d, m. split.
      * intros Hnil. by rewrite Hnil in Hne.
      * apply aggregate_spec.
    + intros (d & m & Hne & ->).
      exists ((d, m), enrich (pos "status" (tcolumns f)) <$> group_of f d m).
      split; [by rewrite aggregate_spec|].
      apply Hin. rewrite enriched_group. split; [done|].
      by intros ?%fmap_nil_inv.
Qed.

End Aggregate.


(** ** What the validator guarantees *)

Lemma drop_duplicates_from_elem seen i rows r :
  r ∈ drop_duplicates_from seen i rows → r ∈ rows.
Proof.
  revert seen. induction rows as [|r' rows IH]; intros seen; simpl; [done|].
  case_decide.
  - intros ?%IH. by right.
  - rewrite !elem_of_cons. intros [->|?%IH]; [by left|by right].
Qed.

Lemma iat_str_strip row i :
  i < length row → is_Some (iat (map (str_strip object_dtype) row) i).
Proof.
  intros Hi. unfold iat.
  change (map (str_strip object_dtype) row) with (str_strip object_dtype <$> row).
  rewrite list_lookup_fmap.
  destruct (row !! i) as [[c|]|] eqn:Hc; [by eexists|by eexists|].
  apply lookup_ge_None in Hc. lia.
Qed.

Lemma pos_lt c cols : c ∈ cols → pos c cols < length cols.
Proof.
  intros Hc. apply get_loc_elem, get_loc_Some in Hc.
  by eapply lookup_lt_Some.
Qed.

Section Cleaned.

Context {ar : Arith} {sv : Server}.
Context (to_numeric : string → option Qc).
Context (to_datetime : string → option Timestamp).

Lemma clean_rows_cleaned m t :
  required_txn_cols ⊆ list_to_set (strip <$> columns t) →
  cleaned (mkTxnFrame (columns (normalised t))
             (clean_rows to_numeric to_datetime m (normalised t))).
Proof.
  intros Hreq. split.
  { intros c Hc. simpl. apply required_txn_elem; [done|]. set_solver. }
  apply Forall_forall. intros x. rewrite clean_rows_accepted.
  intros (row & -> & Hrow)%list_elem_of_fmap.
  apply list_elem_of_filter in Hrow as [Hacc Hrow].
  destruct Hacc as (Hst & (a & q & Ha & Hq & Hpos) & (s & ts & Hs & Hts) & (mid & Hmid & _)).
  unfold status_of. cbn [tcolumns cells typed amount_num txn_ts].
  rewrite Ha, Hs, Hmid. simpl. rewrite Hq, Hts.
  split_and!; [done|by exists q|done|done].
Qed.

(** On object columns no cell is missing once trimmed, so every row of
    the cleaned table carries an identifier. *)
Lemma clean_rows_identified m t :
  dtype t = object_dtype → rectangular t →
  required_txn_cols ⊆ list_to_set (strip <$> columns t) →
  identified (mkTxnFrame (columns (normalised t))
                (clean_rows to_numeric to_datetime m (normalised t))).
Proof.
  intros Hd Hrect Hreq.
  apply Forall_forall. intros x. rewrite clean_rows_accepted.
  intros (row & -> & Hrow)%list_elem_of_fmap.
  apply list_elem_of_filter in Hrow as [_ Hrow].
  apply drop_duplicates_from_elem in Hrow.
  unfold has_id. cbn [tcolumns cells typed].
  simpl in Hrow. rewrite Hd in Hrow.
  change (map (map (str_strip object_dtype)) (data t))
    with (map (str_strip object_dtype) <$> data t) in Hrow.
  apply list_elem_of_fmap in Hrow as (row0 & -> & Hrow0).
  apply iat_str_strip.
  unfold rectangular in Hrect. rewrite Forall_forall in Hrect.
  rewrite (Hrect _ Hrow0).
  rewrite <-(length_fmap strip). apply pos_lt.
  apply required_txn_elem; [done|]. set_solver.
Qed.

(** A returned table comes from two allocated frames that passed the
    required-column check. *)
Lemma validate_and_clean_inv w lm lt t w' r :
  lm ≠ lt → store w !! lt = Some t →
  validate_and_clean to_numeric to_datetime lm lt w = (w', Ok r) →
  ∃ m, store w !! lm = Some m
       ∧ required_merch_cols ⊆ list_to_set (strip <$> columns m)
       ∧ required_txn_cols ⊆ list_to_set (strip <$> columns t).
Proof.
  intros Hne Ht. unfold validate_and_clean. run_deref.
  intros (w1 & [] & (m & Hm & ->)%update_inv & H)%bind_inv.
  exists m. split; [done|]. revert H. run_update. run_deref.
  intros (w2 & [] & [-> Hrm]%unless_inv & H)%bind_inv. split; [done|].
  revert H. run_deref.
  by intros (w3 & [] & [-> Hrt]%unless_inv & H)%bind_inv.
Qed.

Lemma validate_and_clean_cleaned w lm lt t w' clean stats :
  lm ≠ lt → store w !! lt = Some t →
  validate_and_clean to_numeric to_datetime lm lt w = (w', Ok (clean, stats)) →
  cleaned clean.
Proof.
  intros Hne Ht Hrun.
  destruct (validate_and_clean_inv _ _ _ _ _ _ Hne Ht Hrun) as (m & Hm & Hrm & Hrt).
  rewrite (validate_and_clean_ok _ _ _ _ _ _ _ Hne Hm Ht Hrm Hrt) in Hrun.
  injection Hrun as _ <- _. by apply clean_rows_cleaned.
Qed.

Lemma validate_and_clean_identified w lm lt t w' clean stats :
  lm ≠ lt → store w !! lt = Some t → dtype t = object_dtype → rectangular t →
  validate_and_clean to_numeric to_datetime lm lt w = (w', Ok (clean, stats)) →
  identified clean.
Proof.
  intros Hne Ht Hd Hrect Hrun.
  destruct (validate_and_clean_inv _ _ _ _ _ _ Hne Ht Hrun) as (m & Hm & Hrm & Hrt).
  rewrite (validate_and_clean_ok _ _ _ _ _ _ _ Hne Hm Ht Hrm Hrt) in Hrun.
  injection Hrun as _ <- _. by apply clean_rows_identified.
Qed.

End Cleaned.

(** ** Rounding *)





Lemma status_partition f (g : list Txn) :
  Forall (λ x, status_of f x = Some "APPROVED" ∨ status_of f x = Some "DECLINED") g →
  length (filter (λ x, status_of f x = Some "APPROVED") g)
  + length (filter (λ x, status_of f x = Some "DECLINED") g) = length g.
Proof.
  induction 1 as [|x g Hx _ IH]; [done|].
  rewrite !filter_cons. destruct Hx as [Hx|Hx].
  - rewrite decide_True, decide_False by (done || by rewrite Hx).
    cbn [length]. lia.
  - rewrite decide_False, decide_True by (done || by rewrite Hx).
    cbn [length]. lia.
Qed.

(** ** The transform on the validator's output *)

Lemma group_of_identified f d m :
  identified f → filter (has_id f) (group_of f d m) = group_of f d m.
Proof.
  intros Hid. apply filter_all, Forall_forall.
  intros x [_ Hx]%list_elem_of_filter.
  unfold identified in Hid. rewrite Forall_forall in Hid. by apply Hid.
Qed.

Lemma group_of_statuses f d m :
  cleaned f →
  length (filter (λ x, status_of f x = Some "APPROVED") (group_of f d m))
  + length (filter (λ x, status_of f x = Some "DECLINED") (group_of f d m))
  = length (group_of f d m).
Proof.
  intros [_ Hall]. rewrite Forall_forall in Hall.
  apply status_partition, Forall_forall.
  intros x [_ Hx]%list_elem_of_filter. by destruct (Hall x Hx) as (? & _).
Qed.

Section TransformSpec.

Context {ar : Arith} {sv : Server}.
Context (to_numeric : string → option Qc).
Context (to_datetime : string → option Timestamp).




End TransformSpec.

(** ** Deduplication *)



Lemma drop_duplicates_from_unseen seen i rows r :
  r ∈ drop_duplicates_from seen i rows → iat r i ∉ seen.
Proof.
  revert seen. induction rows as [|r0 rows IH]; intros seen; cbn [drop_duplicates_from].
  { by intros ?%not_elem_of_nil. }
  case_decide as Hseen; [apply IH|].
  intros [->|Hin]%elem_of_cons; [done|].
  apply IH in Hin. rewrite not_elem_of_cons in Hin. by destruct Hin.
Qed.

Lemma drop_duplicates_from_NoDup seen i rows :
  NoDup ((λ r, iat r i) <$> drop_duplicates_from seen i rows).
Proof.
  revert seen. induction rows as [|r rows IH]; intros seen;
    cbn [drop_duplicates_from]; [constructor|].
  case_decide as Hseen; [apply IH|].
  rewrite fmap_cons. apply NoDup_cons. split; [|apply IH].
  intros (r' & Hk & Hin)%list_elem_of_fmap.
  apply drop_duplicates_from_unseen in Hin. apply Hin. rewrite <-Hk. by left.
Qed.

Lemma drop_duplicates_from_first_elem seen i (pre : list (list cell)) r0 post :
  iat r0 i ∉ seen → iat r0 i ∉ (λ r, iat r i) <$> pre →
  r0 ∈ drop_duplicates_from seen i (pre ++ r0 :: post).
Proof.
  revert seen. induction pre as [|p pre IH]; intros seen Hseen Hpre;
    cbn [app drop_duplicates_from].
  - rewrite decide_False by done. by left.
  - rewrite fmap_cons, not_elem_of_cons in Hpre. destruct Hpre as [Hne Hpre].
    case_decide; [by apply IH|]. right. apply IH; [|done].
    rewrite not_elem_of_cons. by split.
Qed.

Lemma NoDup_fmap_elem_inj {A B} (f : A → B) (l : list A) x y :
  NoDup (f <$> l) → x ∈ l → y ∈ l → f x = f y → x = y.
Proof.
  induction l as [|z l IH]; [by intros _ ?%not_elem_of_nil|].
  rewrite fmap_cons, NoDup_cons. intros [Hz Hnd].
  intros [->|Hx]%elem_of_cons [->|Hy]%elem_of_cons Heq; [done| | |by apply IH].
  - exfalso. apply Hz. rewrite Heq. by apply list_elem_of_fmap_2.
  - exfalso. apply Hz. rewrite <-Heq. by apply list_elem_of_fmap_2.
Qed.

(** ** Extract, and the failing paths of the validator *)

Lemma extract_ok files s :
  ∃ lm lt, lm ≠ lt
    ∧ extract files (mkWorld ∅ s)
      = (mkWorld (<[lt := transactions_csv files]> (<[lm := merchants_csv files]> ∅)) s,
         Ok (lm, lt)).
Proof.
  unfold extract, bind, alloc, ret. cbn [store db].
  eexists _, _. split; [|reflexivity].
  intros Heq.
  pose proof (is_fresh (dom (<[fresh (dom (∅ : gmap loc DataFrame)) := merchants_csv files]>
                               (∅ : gmap loc DataFrame)))) as Hfresh.
  apply Hfresh. rewrite <-Heq, dom_insert. set_solver.
Qed.

Section ValidateRaise.

Context {ar : Arith} {sv : Server}.
Context (to_numeric : string → option Qc).
Context (to_datetime : string → option Timestamp).

Lemma validate_and_clean_missing_merchant_columns w lm lt m t :
  lm ≠ lt → store w !! lm = Some m → store w !! lt = Some t →
  ¬ required_merch_cols ⊆ list_to_set (strip <$> columns m) →
  validate_and_clean to_numeric to_datetime lm lt w =
    (mkWorld (<[lt := strip_columns t]> (<[lm := strip_columns m]> (store w))) (db w),
     Raise (ValueError "merchants.csv"
              (required_merch_cols ∖ list_to_set (strip <$> columns m)))).
Proof.
  intros Hne Hm Ht Hrm. unfold validate_and_clean.
  run_deref. run_update. run_update. run_deref.
  erewrite bind_raise; [|by apply unless_raise]. reflexivity.
Qed.

Lemma validate_and_clean_missing_txn_columns w lm lt m t :
  lm ≠ lt → store w !! lm = Some m → store w !! lt = Some t →
  required_merch_cols ⊆ list_to_set (strip <$> columns m) →
  ¬ required_txn_cols ⊆ list_to_set (strip <$> columns t) →
  validate_and_clean to_numeric to_datetime lm lt w =
    (mkWorld (<[lt := strip_columns t]> (<[lm := strip_columns m]> (store w))) (db w),
     Raise (ValueError "transactions.csv"
              (required_txn_cols ∖ list_to_set (strip <$> columns t)))).
Proof.
  intros Hne Hm Ht Hrm Hrt. unfold validate_and_clean.
  run_deref. run_update. run_update. run_deref. run_check. run_deref.
  erewrite bind_raise; [|by apply unless_raise]. reflexivity.
Qed.

(** The daily rows of a fresh process, by cases on the column check. *)
Lemma metrics_unfold files :
  let m := merchants_csv files in
  let t := transactions_csv files in
  metrics to_numeric to_datetime files =
    if decide (required_merch_cols ⊆ list_to_set (strip <$> columns m)) then
      if decide (required_txn_cols ⊆ list_to_set (strip <$> columns t)) then
        Ok (daily_of (mkTxnFrame (columns (normalised t))
              (clean_rows to_numeric to_datetime (normalised m) (normalised t))))
      else Raise (ValueError "transactions.csv"
                    (required_txn_cols ∖ list_to_set (strip <$> columns t)))
    else Raise (ValueError "merchants.csv"
                  (required_merch_cols ∖ list_to_set (strip <$> columns m))).
Proof.
  intros m t. unfold metrics.
  destruct (extract_ok files (mkSink ∅ ∅ None None)) as (lm & lt & Hne & Hex).
  rewrite (bind_ok _ _ _ _ _ Hex). cbn [fst snd].
  assert (<[lt := t]> (<[lm := m]> (∅ : gmap loc DataFrame)) !! lm = Some m) as Hm
    by (by rewrite lookup_insert_ne, lookup_insert_eq).
  assert (<[lt := t]> (<[lm := m]> (∅ : gmap loc DataFrame)) !! lt = Some t) as Ht
    by (by rewrite lookup_insert_eq).
  destruct (decide (required_merch_cols ⊆ _)) as [Hrm|Hrm].
  - destruct (decide (required_txn_cols ⊆ _)) as [Hrt|Hrt].
    + erewrite bind_ok; [|by apply validate_and_clean_ok]. cbn [fst].
      rewrite transform_daily_metrics_run; [done|].
      intros c Hc. simpl. apply required_txn_elem; [done|set_solver].
    + erewrite bind_raise; [done|].
      by apply validate_and_clean_missing_txn_columns.
  - erewrite bind_raise; [done|].
    by apply validate_and_clean_missing_merchant_columns.
Qed.

End ValidateRaise.

Lemma difference_nonempty (X Y : gset string) : ¬ X ⊆ Y → X ∖ Y ≠ ∅.
Proof.
  intros Hsub Hempty. apply Hsub. intros x Hx.
  destruct (decide (x ∈ Y)) as [|Hy]; [done|].
  assert (x ∈ X ∖ Y) as Hd by (by apply elem_of_difference).
  rewrite Hempty in Hd. by apply not_elem_of_empty in Hd.
Qed.

Section DedupeAndSchema.

Context {ar : Arith} {sv : Server}.
Context (to_numeric : string → option Qc).
Context (to_datetime : string → option Timestamp).



Lemma run_validate_raise files now s w' e lm lt w0 :
  extract files (mkWorld ∅ s) = (w0, Ok (lm, lt)) →
  validate_and_clean to_numeric to_datetime lm lt w0 = (w', Raise e) →
  run to_numeric to_datetime files now s = (db w', Raise e).
Proof.
  intros Hex Hval. unfold run, main.
  rewrite (bind_ok _ _ _ _ _ Hex). cbn [fst snd].
  by rewrite (bind_raise _ _ _ _ _ Hval).
Qed.

(** C6.  When a required column is missing from either table the stage
    raises the error that carries exactly the missing labels, leaves
    every row of both frames and the sink as they were, and the run
    ends with that error and an untouched sink. *)
Theorem validate_and_clean_missing_columns :
  (∀ w lm lt m t,
     lm ≠ lt → store w !! lm = Some m → store w !! lt = Some t →
     ¬ (required_merch_cols ⊆ list_to_set (strip <$> columns m)
        ∧ required_txn_cols ⊆ list_to_set (strip <$> columns t)) →
     ∃ w' file missing,
       validate_and_clean to_numeric to_datetime lm lt w
         = (w', Raise (ValueError file missing))
       ∧ missing ≠ ∅
       ∧ ((file = "merchants.csv"
           ∧ ∀ c, c ∈ missing ↔
                  c ∈ required_merch_cols ∧ c ∉ strip <$> columns m)
          ∨ (file = "transactions.csv"
             ∧ ∀ c, c ∈ missing ↔
                    c ∈ required_txn_cols ∧ c ∉ strip <$> columns t))
       ∧ db w' = db w
       ∧ data <$> store w' = data <$> store w)
  ∧ (∀ files now s,
       ¬ (required_merch_cols ⊆ list_to_set (strip <$> columns (merchants_csv files))
          ∧ required_txn_cols
              ⊆ list_to_set (strip <$> columns (transactions_csv files))) →
       ∃ file missing,
         run to_numeric to_datetime files now s
           = (s, Raise (ValueError file missing))
         ∧ missing ≠ ∅).
Proof.
  assert (∀ w lm lt m t,
     lm ≠ lt → store w !! lm = Some m → store w !! lt = Some t →
     ¬ (required_merch_cols ⊆ list_to_set (strip <$> columns m)
        ∧ required_txn_cols ⊆ list_to_set (strip <$> columns t)) →
     ∃ w' file missing,
       validate_and_clean to_numeric to_datetime lm lt w
         = (w', Raise (ValueError file missing))
       ∧ missing ≠ ∅
       ∧ ((file = "merchants.csv"
           ∧ ∀ c, c ∈ missing ↔
                  c ∈ required_merch_cols ∧ c ∉ strip <$> columns m)
          ∨ (file = "transactions.csv"
             ∧ ∀ c, c ∈ missing ↔
                    c ∈ required_txn_cols ∧ c ∉ strip <$> columns t))
       ∧ db w' = db w
       ∧ data <$> store w' = data <$> store w) as Hstage.
  { intros w lm lt m t Hne Hm Ht Hmiss.
    assert (data <$> <[lt := strip_columns t]> (<[lm := strip_columns m]> (store w))
            = data <$> store w) as Hdata.
    { rewrite !fmap_insert. cbn [data strip_columns].
      rewrite (insert_id (data <$> store w) lm) by (by rewrite lookup_fmap, Hm).
      by rewrite insert_id by (by rewrite lookup_fmap, Ht). }
    destruct (decide (required_merch_cols ⊆ list_to_set (strip <$> columns m)))
      as [Hrm|Hrm].
    - assert (¬ required_txn_cols ⊆ list_to_set (strip <$> columns t)) as Hrt
        by tauto.
      eexists _, _, _. split;
        [by apply validate_and_clean_missing_txn_columns|].
      split_and!; [by apply difference_nonempty| |done|done].
      right. split; [done|]. intros c.
      by rewrite elem_of_difference, elem_of_list_to_set.
    - eexists _, _, _. split;
        [by apply validate_and_clean_missing_merchant_columns|].
      split_and!; [by apply difference_nonempty| |done|done].
      left. split; [done|]. intros c.
      by rewrite elem_of_difference, elem_of_list_to_set. }
  split; [exact Hstage|].
  intros files now s Hmiss.
  destruct (extract_ok files s) as (lm & lt & Hne & Hex).
  destruct (Hstage (mkWorld (<[lt := transactions_csv files]>
                               (<[lm := merchants_csv files]> ∅)) s)
              lm lt (merchants_csv files) (transactions_csv files) Hne)
    as (w' & file & missing & Hval & Hnonempty & _ & Hdb & _).
  { cbn [store]. by rewrite lookup_insert_ne, lookup_insert_eq. }
  { cbn [store]. by rewrite lookup_insert_eq. }
  { done. }
  exists file, missing. split; [|done].
  rewrite (run_validate_raise _ _ _ _ _ _ _ _ Hex Hval). by rewrite Hdb.
Qed.


End DedupeAndSchema.

(** ** The loaders *)

Lemma begin_ok body w s' :
  body (db w) = Ok s' → begin body w = (mkWorld (store w) s', Ok tt).
Proof. unfold begin. by intros ->. Qed.

Lemma begin_raise body w e :
  body (db w) = Raise e → begin body w = (w, Raise e).
Proof. unfold begin. by intros ->. Qed.

Lemma length_select_columns labels df :
  length (select_columns labels df) = len df.
Proof. unfold select_columns, len. by rewrite length_fmap. Qed.

Section Loaders.

Context {sv : Server}.

Lemma load_merchants_run now l w df :
  store w !! l = Some df →
  load_merchants now l w =
    (mkWorld (store w) (load_merchants_db now df (db w)).1,
     (load_merchants_db now df (db w)).2).
Proof.
  intros Hl. unfold load_merchants, load_merchants_db, staged_merchants.
  erewrite bind_ok; [|by apply begin_ok].
  erewrite bind_ok; [|by apply deref_ok].
  unfold to_sql_stg_merchants.
  destruct (mapM stg_merchant_of _) as [staged|] eqn:Hstaged.
  - erewrite bind_ok; [|apply begin_ok; reflexivity].
    cbn [db store dim_merchants fact_daily_merchant_metrics stg_merchants
         stg_daily_metrics default app].
    unfold merge_dim_merchants.
    destruct (decide (NoDup (sm_merchant_id <$> staged))) as [Hnd|Hnd].
    + erewrite bind_ok; [|apply begin_ok; cbn; by rewrite decide_True].
      cbn. by rewrite length_select_columns.
    + erewrite bind_raise; [done|apply begin_raise; cbn; by rewrite decide_False].
  - erewrite bind_raise; [done|apply begin_raise; reflexivity].
Qed.

Lemma upsert_facts_run now daily w :
  upsert_facts now daily w =
    (mkWorld (store w) (upsert_facts_db now (drows daily) (db w)).1,
     (upsert_facts_db now (drows daily) (db w)).2).
Proof.
  unfold upsert_facts, upsert_facts_db.
  erewrite bind_ok; [|by apply begin_ok].
  unfold to_sql_stg_daily_metrics.
  destruct (mapM stg_daily_of _) as [staged|] eqn:Hstaged.
  - erewrite bind_ok; [|apply begin_ok; reflexivity].
    cbn [db store dim_merchants fact_daily_merchant_metrics stg_merchants
         stg_daily_metrics default app].
    unfold merge_fact_daily.
    destruct (decide (NoDup _ ∧ Forall _ staged)) as [Hok|Hbad].
    + erewrite bind_ok; [|apply begin_ok; cbn; by rewrite decide_True].
      done.
    + erewrite bind_raise; [done|apply begin_raise; cbn; by rewrite decide_False].
  - erewrite bind_raise; [done|apply begin_raise; reflexivity].
Qed.

End Loaders.

(** ** MERGE, twice *)

Section Upsert.

Context {K V R : Type} `{Countable K}.
Context (key : R → K) (mk1 mk2 : R → option V → V).
Context (merge1 merge2 : gmap K V → R → gmap K V).
Hypothesis merge1_eq : ∀ m r, merge1 m r = <[key r := mk1 r (m !! key r)]> m.
Hypothesis merge2_eq : ∀ m r, merge2 m r = <[key r := mk2 r (m !! key r)]> m.
(** A row written by the first MERGE is rewritten as itself by the second. *)
Hypothesis mk_again : ∀ r o, mk2 r (Some (mk1 r o)) = mk1 r o.

Lemma foldl_merge_other (m : gmap K V) rs k :
  k ∉ key <$> rs → foldl merge1 m rs !! k = m !! k.
Proof.
  revert m. induction rs as [|r rs IH]; intros m; [done|].
  rewrite fmap_cons, not_elem_of_cons. intros [Hne Hnin]. simpl.
  rewrite IH by done. rewrite merge1_eq. by rewrite lookup_insert_ne.
Qed.

Lemma foldl_merge_written (m : gmap K V) rs r :
  NoDup (key <$> rs) → r ∈ rs →
  ∃ o, foldl merge1 m rs !! key r = Some (mk1 r o).
Proof.
  revert m. induction rs as [|r0 rs IH]; intros m; [by intros _ ?%not_elem_of_nil|].
  rewrite fmap_cons, NoDup_cons. intros [Hnin Hnd] [->|Hin]%elem_of_cons; simpl.
  - rewrite foldl_merge_other by done. rewrite merge1_eq, lookup_insert_eq.
    by eexists.
  - by apply IH.
Qed.

Lemma foldl_merge_fixed (m : gmap K V) rs :
  (∀ r, r ∈ rs → ∃ o, m !! key r = Some (mk1 r o)) →
  foldl merge2 m rs = m.
Proof.
  induction rs as [|r rs IH]; intros Hall; [done|]. simpl.
  assert (merge2 m r = m) as ->.
  { destruct (Hall r) as [o Ho]; [by left|].
    rewrite merge2_eq, Ho, mk_again. by apply insert_id. }
  apply IH. intros r' Hr'. apply Hall. by right.
Qed.

Lemma foldl_merge_dom (m : gmap K V) rs r :
  NoDup (key <$> rs) → r ∈ rs → key r ∈ dom (foldl merge1 m rs).
Proof.
  intros Hnd Hr. apply elem_of_dom.
  destruct (foldl_merge_written m rs r Hnd Hr) as [o Ho]. by eexists.
Qed.

(** Merging the same rows a second time changes nothing. *)
Lemma foldl_merge_twice (m : gmap K V) rs :
  NoDup (key <$> rs) →
  foldl merge2 (foldl merge1 m rs) rs = foldl merge1 m rs.
Proof.
  intros Hnd. apply foldl_merge_fixed. intros r Hr.
  by apply foldl_merge_written.
Qed.

End Upsert.

Lemma merge_merchant_twice now1 now2 dim staged :
  NoDup (sm_merchant_id <$> staged) →
  foldl (merge_merchant now2) (foldl (merge_merchant now1) dim staged) staged
  = foldl (merge_merchant now1) dim staged.
Proof.
  apply (foldl_merge_twice sm_merchant_id
           (λ r o, mkDimMerchant (sm_merchant_name r) (sm_category r) (sm_city r)
                     (sm_state r)
                     (match o with Some old => created_at_utc old | None => now1 end))
           (λ r o, mkDimMerchant (sm_merchant_name r) (sm_category r) (sm_city r)
                     (sm_state r)
                     (match o with Some old => created_at_utc old | None => now2 end)));
    done.
Qed.

Lemma merge_daily_twice now1 now2 fact staged :
  NoDup ((λ r, (sd_metric_date r, sd_merchant_id r)) <$> staged) →
  foldl (merge_daily now2) (foldl (merge_daily now1) fact staged) staged
  = foldl (merge_daily now1) fact staged.
Proof.
  apply (foldl_merge_twice (λ r, (sd_metric_date r, sd_merchant_id r))
           (λ r o, mkFactDaily (sd_txn_count r) (sd_approved_txn_count r)
                     (sd_declined_txn_count r) (sd_gross_amount r)
                     (sd_approved_amount r) (sd_approval_rate r) (sd_avg_ticket r)
                     (match o with Some old => loaded_at_utc old | None => now1 end))
           (λ r o, mkFactDaily (sd_txn_count r) (sd_approved_txn_count r)
                     (sd_declined_txn_count r) (sd_gross_amount r)
                     (sd_approved_amount r) (sd_approval_rate r) (sd_avg_ticket r)
                     (match o with Some old => loaded_at_utc old | None => now2 end)));
    done.
Qed.

Section LoadersAgain.

Context {sv : Server}.

(** A second load of the same frame, on a sink whose merchant tables are
    as the first load left them, changes nothing and ends the same way. *)
Lemma load_merchants_db_again now1 now2 df s s' :
  dim_merchants s' = dim_merchants (load_merchants_db now1 df s).1 →
  stg_merchants s' = stg_merchants (load_merchants_db now1 df s).1 →
  (load_merchants_db now2 df s').1 = s'
  ∧ (load_merchants_db now2 df s').2 = (load_merchants_db now1 df s).2.
Proof.
  unfold load_merchants_db. destruct s' as [dim' fact' sm' sd'].
  destruct (staged_merchants df) as [staged|]; [|by intros; simplify_eq/=].
  destruct (decide (NoDup (sm_merchant_id <$> staged))) as [Hnd|Hnd];
    cbn; intros -> ->; [|done].
  by rewrite merge_merchant_twice.
Qed.

(** The same for the facts, on a sink that also has the same merchants. *)
Lemma upsert_facts_db_again now1 now2 rows s s' :
  dim_merchants s' = dim_merchants s →
  fact_daily_merchant_metrics s'
    = fact_daily_merchant_metrics (upsert_facts_db now1 rows s).1 →
  stg_daily_metrics s' = stg_daily_metrics (upsert_facts_db now1 rows s).1 →
  (upsert_facts_db now2 rows s').1 = s'
  ∧ (upsert_facts_db now2 rows s').2 = (upsert_facts_db now1 rows s).2.
Proof.
  unfold upsert_facts_db. destruct s' as [dim' fact' sm' sd'].
  destruct (mapM stg_daily_of rows) as [staged|]; [|by intros; simplify_eq/=].
  cbn [dim_merchants]. intros ->.
  destruct (decide (NoDup _ ∧ Forall (fk_merchant s) staged)) as [[Hnd Hfk]|Hbad];
    cbn [fst snd fact_daily_merchant_metrics stg_daily_metrics]; intros -> ->.
  - rewrite decide_True; [cbn; by rewrite merge_daily_twice|].
    split; [done|]. apply Forall_forall. intros r Hr. left. cbn.
    by apply (foldl_merge_dom (λ r, (sd_metric_date r, sd_merchant_id r))
                (λ r o, mkFactDaily (sd_txn_count r) (sd_approved_txn_count r)
                          (sd_declined_txn_count r) (sd_gross_amount r)
                          (sd_approved_amount r) (sd_approval_rate r)
                          (sd_avg_ticket r)
                          (match o with
                           | Some old => loaded_at_utc old
                           | None => now1
                           end))
                (merge_daily now1) (λ _ _, eq_refl)).
  - by rewrite decide_False.
Qed.

End LoadersAgain.

(** ** The whole run *)

Section Run.

Context {ar : Arith} {sv : Server}.
Context (to_numeric : string → option Qc).
Context (to_datetime : string → option Timestamp).

Lemma run_unfold files now s :
  run to_numeric to_datetime files now s
  = run_db to_numeric to_datetime files now s.
Proof.
  unfold run, run_db, main.
  destruct (extract_ok files s) as (lm & lt & Hne & Hex).
  rewrite (bind_ok _ _ _ _ _ Hex). cbn [fst snd].
  set (m := merchants_csv files). set (t := transactions_csv files).
  assert (<[lt := t]> (<[lm := m]> (∅ : gmap loc DataFrame)) !! lm = Some m) as Hm
    by (by rewrite lookup_insert_ne, lookup_insert_eq).
  assert (<[lt := t]> (<[lm := m]> (∅ : gmap loc DataFrame)) !! lt = Some t) as Ht
    by (by rewrite lookup_insert_eq).
  destruct (decide (required_merch_cols ⊆ _)) as [Hrm|Hrm].
  - destruct (decide (required_txn_cols ⊆ _)) as [Hrt|Hrt].
    + erewrite bind_ok; [|by apply validate_and_clean_ok]. cbn [fst snd].
      erewrite bind_ok;
        [|apply transform_daily_metrics_run; intros c Hc; simpl;
          apply required_txn_elem; [done|set_solver]].
      cbn [store db].
      set (h := <[lt := normalised t]> (<[lm := normalised m]> _)).
      pose proof (load_merchants_run now lm (mkWorld h s) (normalised m)) as Hl.
      cbn [store db] in Hl.
      destruct (load_merchants_db now (normalised m) s) as [s1 [n|e]];
        cbn [fst snd] in *.
      * rewrite (bind_ok _ _ _ _ _
                   (Hl ltac:(unfold h; by rewrite lookup_insert_ne, lookup_insert_eq))).
        pose proof (upsert_facts_run now
                      (mkDailyFrame daily_columns
                         (daily_of (mkTxnFrame (columns (normalised t))
                            (clean_rows to_numeric to_datetime (normalised m)
                               (normalised t)))))
                      (mkWorld h s1)) as Hu.
        cbn [store db drows] in Hu.
        destruct (upsert_facts_db now _ s1) as [s2 [k|e]]; cbn [fst snd] in *.
        -- rewrite (bind_ok _ _ _ _ _ Hu). reflexivity.
        -- rewrite (bind_raise _ _ _ _ _ Hu). reflexivity.
      * rewrite (bind_raise _ _ _ _ _
                   (Hl ltac:(unfold h; by rewrite lookup_insert_ne, lookup_insert_eq))).
        reflexivity.
    + erewrite bind_raise;
        [|by apply validate_and_clean_missing_txn_columns].
      reflexivity.
  - erewrite bind_raise;
      [|by apply validate_and_clean_missing_merchant_columns].
    reflexivity.
Qed.

(** C7.  A second run on the same files, started on the sink the first
    run left and at any later clock, leaves that sink as it is and ends
    as the first run did. *)
Theorem run_twice_leaves_sink_unchanged files now1 now2 s :
  (run to_numeric to_datetime files now2
     (run to_numeric to_datetime files now1 s).1).1
  = (run to_numeric to_datetime files now1 s).1
  ∧ (run to_numeric to_datetime files now2
       (run to_numeric to_datetime files now1 s).1).2
    = (run to_numeric to_datetime files now1 s).2.
Proof.
  rewrite !run_unfold. unfold run_db.
  destruct (decide (required_merch_cols ⊆ _)) as [Hrm|Hrm]; [|done].
  destruct (decide (required_txn_cols ⊆ _)) as [Hrt|Hrt]; [|done].
  set (M := normalised (merchants_csv files)).
  set (daily := daily_of _). cbv zeta.
  destruct (load_merchants_db now1 M s) as [s1 r1] eqn:Hload. cbn [fst snd].
  destruct r1 as [n1|e1]; cbn [fst snd].
  - destruct (upsert_facts_db now1 daily s1) as [s2 r2] eqn:Hups.
    assert (dim_merchants s2 = dim_merchants s1 ∧ stg_merchants s2 = stg_merchants s1)
      as [Hdim Hstg].
    { revert Hups. unfold upsert_facts_db.
      destruct (mapM stg_daily_of daily); [case_decide|]; by intros [= <- _]. }
    destruct (load_merchants_db_again now1 now2 M s s2) as [Hs2 Hr2];
      [by rewrite Hload|by rewrite Hload|].
    rewrite Hload in Hr2. cbn [snd] in Hr2.
    destruct (upsert_facts_db_again now1 now2 daily s1 s2) as [Hs3 Hr3];
      [done|by rewrite Hups|by rewrite Hups|].
    rewrite Hups in Hr3. cbn [snd] in Hr3.
    destruct r2 as [n2|e2]; cbn [fst snd].
    + rewrite Hr2, Hs2. cbn [fst snd]. by rewrite Hr3, Hs3.
    + rewrite Hr2, Hs2. cbn [fst snd]. by rewrite Hr3, Hs3.
  - destruct (load_merchants_db_again now1 now2 M s s1) as [Hs2 Hr2];
      [by rewrite Hload|by rewrite Hload|].
    rewrite Hload in Hr2. cbn [snd] in Hr2.
    by rewrite Hr2, Hs2.
Qed.

End Run.

(** ** The end-to-end scenario *)

Section Scenario.

Context {ar : Arith} {sv : Server}.
Context (to_numeric : string → option Qc).
Context (to_datetime : string → option Timestamp).

(** C8.  One merchant m1 and the two transactions t1 (10.00, APPROVED)
    and t2 (20.00, DECLINED) of 2026-01-01 give exactly one daily row:
    2 transactions, 1 approved, 1 declined, gross 30.00, approved 10.00,
    approval rate 0.5, average ticket 15.00.  The parsers read the four
    literals as these amounts and instants, and on these values the
    library's arithmetic is exact: 10 + 20 = 30, 10 + 0 = 10, 1 / 2
    rounds to 0.5 and 30 / 2 rounds to 15. *)
Theorem end_to_end_scenario dm dt name ts1 ts2 :
  to_numeric "10.00" = Some (Qc_of_Z 10) →
  to_numeric "20.00" = Some (Qc_of_Z 20) →
  to_datetime "2026-01-01T10:00:00Z" = Some ts1 → date ts1 = mkDate 2026 1 1 →
  to_datetime "2026-01-01T11:00:00Z" = Some ts2 → date ts2 = mkDate 2026 1 1 →
  column_sum [Some (Qc_of_Z 10); Some (Qc_of_Z 20)] = Finite (Qc_of_Z 30) →
  column_sum [Some (Qc_of_Z 10); Some 0%Qc] = Finite (Qc_of_Z 10) →
  series_round 4 (true_divide (of_int 1) (of_int 2)) = Finite (Q2Qc (1 # 2)) →
  series_round 2 (true_divide (Finite (Qc_of_Z 30)) (of_int 2))
    = Finite (Qc_of_Z 15) →
  metrics to_numeric to_datetime
    (mkFiles
       (mkFrame dm ["merchant_id"; "merchant_name"] [[Some "m1"; Some name]])
       (mkFrame dt ["transaction_id"; "merchant_id"; "txn_ts_utc"; "amount"; "status"]
          [ [Some "t1"; Some "m1"; Some "2026-01-01T10:00:00Z"; Some "10.00";
             Some "APPROVED"];
            [Some "t2"; Some "m1"; Some "2026-01-01T11:00:00Z"; Some "20.00";
             Some "DECLINED"] ]))
  = Ok [ mkDailyRow (mkDate 2026 1 1) "m1" 2 1 1
           (Finite (Qc_of_Z 30)) (Finite (Qc_of_Z 10))
           (Finite (Q2Qc (1 # 2))) (Finite (Qc_of_Z 15)) ].
Proof.
  intros H10 H20 Hts1 Hd1 Hts2 Hd2 Hgross Happroved Hrate Havg.
  destruct ts1 as [d1 h1 mi1 s1 n1], ts2 as [d2 h2 mi2 s2 n2].
  cbn [date] in Hd1, Hd2. subst d1 d2.
  rewrite metrics_unfold. cbn [merchants_csv transactions_csv columns].
  rewrite decide_True by (by vm_compute).
  rewrite decide_True by (by vm_compute).
  f_equal.
  set (cols := ["transaction_id"; "merchant_id"; "txn_ts_utc"; "amount"; "status"]).
  set (r1 := [Some "t1"; Some "m1"; Some "2026-01-01T10:00:00Z"; Some "10.00";
              Some "APPROVED"]).
  set (r2 := [Some "t2"; Some "m1"; Some "2026-01-01T11:00:00Z"; Some "20.00";
              Some "DECLINED"]).
  assert (columns (normalised (mkFrame dt cols [r1; r2])) = cols) as -> by reflexivity.
  rewrite clean_rows_accepted.
  assert (columns (normalised (mkFrame dt cols [r1; r2])) = cols) as -> by reflexivity.
  assert (drop_duplicates (pos "transaction_id" cols)
            (data (normalised (mkFrame dt cols [r1; r2]))) = [r1; r2]) as ->
    by (by destruct dt; vm_compute).
  rewrite !filter_cons_True, filter_nil.
  - cbn [fmap list_fmap]. unfold typed.
    change (field_of cols "amount" r1) with (Some "10.00").
    change (field_of cols "amount" r2) with (Some "20.00").
    change (field_of cols "txn_ts_utc" r1) with (Some "2026-01-01T10:00:00Z").
    change (field_of cols "txn_ts_utc" r2) with (Some "2026-01-01T11:00:00Z").
    cbn [mbind option_bind]. rewrite H10, H20, Hts1, Hts2.
    unfold daily_of. cbn [trows tcolumns fmap list_fmap].
    set (x1 := mkTxn r1 _ _). set (x2 := mkTxn r2 _ _).
    set (E := enrich _).
    assert (groupby (group_key (pos "merchant_id" cols)) [E x1; E x2]
            = [((mkDate 2026 1 1, "m1"), [E x1; E x2])]) as ->.
    { by vm_compute. }
    cbn [fmap list_fmap]. f_equal.
    unfold aggregate. cbn [fst snd fmap list_fmap].
    change (count _) with 2%nat.
    change (sum_list [e_is_approved (E x1); e_is_approved (E x2)]) with 1%nat.
    change (sum_list [e_is_declined (E x1); e_is_declined (E x2)]) with 1%nat.
    change [amount_num (e_txn (E x1)); amount_num (e_txn (E x2))]
      with [Some (Qc_of_Z 10); Some (Qc_of_Z 20)].
    change [e_approved_amount (E x1); e_approved_amount (E x2)]
      with [Some (Qc_of_Z 10); Some 0%Qc].
    by rewrite Hgross, Happroved, Hrate, Havg.
  - split_and!.
    + by right.
    + exists "20.00", (Qc_of_Z 20). by split_and!.
    + by eexists _, _.
    + exists "m1". split; [done|]. by destruct dm; vm_compute.
  - split_and!.
    + by left.
    + exists "10.00", (Qc_of_Z 10). by split_and!.
    + by eexists _, _.
    + exists "m1". split; [done|]. by destruct dm; vm_compute.
Qed.

End Scenario.

(** ** Trimmed text *)

Lemma space_prefix_length s s' :
  space_prefix s = Some s' → (String.length s' < String.length s)%nat.
Proof.
  destruct s as [|c [|d [|e s3]]]; cbn; repeat case_match; intros; simplify_eq; cbn; lia.
Qed.

Lemma lstrip_from_stop n s : space_prefix s = None → lstrip_from n s = s.
Proof. intros Hs. destruct n; cbn; [done|]. by rewrite Hs. Qed.

Lemma lstrip_from_done n s :
  (String.length s ≤ n)%nat → space_prefix (lstrip_from n s) = None.
Proof.
  revert s. induction n as [|n IH]; intros s Hn; cbn.
  - destruct s; [done|cbn in Hn; lia].
  - destruct (space_prefix s) as [s'|] eqn:Hs; [|done].
    apply IH. apply space_prefix_length in Hs. lia.
Qed.

Lemma lstrip_from_fuel n m s :
  (String.length s ≤ n)%nat → (String.length s ≤ m)%nat →
  lstrip_from n s = lstrip_from m s.
Proof.
  revert m s. induction n as [|n IH]; intros m s Hn Hm.
  - destruct s; [by destruct m|cbn in Hn; lia].
  - destruct m as [|m]; [destruct s; [done|cbn in Hm; lia]|].
    cbn [lstrip_from]. destruct (space_prefix s) as [s'|] eqn:Hs; [|done].
    apply space_prefix_length in Hs. apply IH; lia.
Qed.

Lemma lstrip_from_enough n s :
  (String.length s ≤ n)%nat → lstrip_from n s = lstrip s.
Proof. intros Hn. by apply lstrip_from_fuel. Qed.

Lemma lstrip_step s s' : space_prefix s = Some s' → lstrip s = lstrip s'.
Proof.
  intros Hs. pose proof (space_prefix_length _ _ Hs) as Hlen. unfold lstrip at 1.
  destruct (String.length s) as [|k] eqn:Hk; [lia|]. cbn [lstrip_from].
  rewrite Hs. apply lstrip_from_enough. lia.
Qed.

Lemma lstrip_stop s : space_prefix s = None → lstrip s = s.
Proof. apply lstrip_from_stop. Qed.

Lemma lstrip_idem s : lstrip (lstrip s) = lstrip s.
Proof. apply lstrip_stop. unfold lstrip. by apply lstrip_from_done. Qed.

Lemma lstrip_blank s : lstrip s = EmptyString ↔ blank s.
Proof.
  remember (String.length s) as n eqn:Hn. revert s Hn.
  induction (lt_wf n) as [n _ IH]. intros s ->.
  destruct (space_prefix s) as [s'|] eqn:Hs.
  - rewrite (lstrip_step _ _ Hs).
    rewrite (IH _ (space_prefix_length _ _ Hs) s' eq_refl). split.
    + by apply blank_cons.
    + intros Hb. inversion Hb as [|? ? Hs2 Hb']; subst; [done|]. congruence.
  - rewrite (lstrip_stop _ Hs). split; [intros ->; constructor|].
    intros Hb. inversion Hb; subst; [done|congruence].
Qed.

Lemma space_prefix_app s s' w :
  space_prefix s = Some s' → space_prefix (s +:+ w) = Some (s' +:+ w).
Proof.
  destruct s as [|c s1]; [discriminate|].
  change (String c s1 +:+ w) with (String c (s1 +:+ w)). cbn [space_prefix].
  destruct (isspace c); [intros; by simplify_eq|].
  destruct s1 as [|d s2]; [discriminate|].
  change (String d s2 +:+ w) with (String d (s2 +:+ w)). cbv beta iota.
  destruct (space2 c d); [intros; by simplify_eq|].
  destruct s2 as [|e s3]; [discriminate|].
  change (String e s3 +:+ w) with (String e (s3 +:+ w)). cbv beta iota.
  destruct (space3 c d e); [intros; by simplify_eq|discriminate].
Qed.

Lemma blank_app s w : blank s → blank w → blank (s +:+ w).
Proof.
  induction 1 as [|s s' Hs _ IH]; intros Hw; [done|].
  eapply blank_cons; [by apply space_prefix_app|by apply IH].
Qed.

(** What rstrip removes is white space. *)
Lemma rstrip_blank s : ∃ w, s = rstrip s +:+ w ∧ blank w.
Proof.
  induction s as [|c s (w & Hs & Hw)]; [exists EmptyString; split; [done|constructor]|].
  cbn [rstrip]. case_decide as Hb.
  - exists (String c s). split; [done|]. by apply lstrip_blank.
  - exists w. split; [|done].
    change (String c (rstrip s) +:+ w) with (String c (rstrip s +:+ w)).
    by rewrite <-Hs.
Qed.

Lemma rstrip_clean_end s : clean_end (rstrip s).
Proof.
  induction s as [|c s IH]; [done|]. cbn [rstrip].
  case_decide as Hb; [done|]. cbn [clean_end]. split; [|done].
  intros Hb'. apply Hb. apply lstrip_blank.
  destruct (rstrip_blank s) as (w & Hs & Hw). rewrite Hs.
  change (String c (rstrip s +:+ w)) with (String c (rstrip s) +:+ w).
  apply blank_app; [by apply lstrip_blank|done].
Qed.

Lemma clean_end_rstrip s : clean_end s → rstrip s = s.
Proof.
  induction s as [|c s IH]; [done|]. cbn [clean_end rstrip]. intros [Hb Hs].
  rewrite decide_False by done. by rewrite IH.
Qed.

Lemma clean_end_space_prefix s s' :
  space_prefix s = Some s' → clean_end s → clean_end s'.
Proof.
  destruct s as [|c s1]; [done|]. cbn [space_prefix].
  destruct (isspace c); [intros ? [_ ?]; by simplify_eq|].
  destruct s1 as [|d s2]; [done|].
  destruct (space2 c d); [intros ? (_ & _ & ?); by simplify_eq|].
  destruct s2 as [|e s3]; [done|].
  destruct (space3 c d e); [intros ? (_ & _ & _ & ?); by simplify_eq|done].
Qed.

Lemma clean_end_lstrip s : clean_end s → clean_end (lstrip s).
Proof.
  unfold lstrip. generalize (String.length s) as n. intros n. revert s.
  induction n as [|n IH]; intros s Hs; cbn [lstrip_from]; [done|].
  destruct (space_prefix s) as [s'|] eqn:Hp; [|done].
  apply IH. by eapply clean_end_space_prefix.
Qed.

Lemma strip_idem s : strip (strip s) = strip s.
Proof.
  unfold strip.
  rewrite (clean_end_rstrip (lstrip (rstrip s)))
    by apply clean_end_lstrip, rstrip_clean_end.
  apply lstrip_idem.
Qed.

Lemma str_strip_trimmed d c s : str_strip d c = Some s → trimmed s.
Proof.
  unfold str_strip. destruct (astype_str d c) as [s'|]; [|done].
  intros [= <-]. apply strip_idem.
Qed.

Lemma iat_normalised_trimmed d (row : list cell) i s :
  iat (map (str_strip d) row) i = Some s → trimmed s.
Proof.
  unfold iat. change (map (str_strip d) row) with (str_strip d <$> row).
  rewrite list_lookup_fmap. destruct (row !! i) as [c|]; [|done].
  apply str_strip_trimmed.
Qed.

Lemma select_columns_normalised_trimmed labels df row c s :
  row ∈ select_columns labels (normalised df) → c ∈ row → c = Some s → trimmed s.
Proof.
  unfold select_columns. intros (row0 & -> & Hrow0)%list_elem_of_fmap.
  intros (label & -> & _)%list_elem_of_fmap.
  cbn [data normalised strip_cells strip_columns] in Hrow0.
  change (map (map (str_strip (dtype df))) (data df))
    with (map (str_strip (dtype df)) <$> data df) in Hrow0.
  apply list_elem_of_fmap in Hrow0 as (raw & -> & _).
  destruct (get_loc label _); [|done]. apply iat_normalised_trimmed.
Qed.

Section Staged.

Context {sv : Server}.

Lemma stg_merchant_of_trimmed row r :
  (∀ c s, c ∈ row → c = Some s → trimmed s) →
  stg_merchant_of row = Some r → trimmed_row r.
Proof.
  intros Hrow. unfold stg_merchant_of.
  destruct row as [|[mid|] [|[name|] [|cat [|city [|st [|]]]]]]; try done.
  destruct (_ && _); [|done].
  intros [= <-]. unfold trimmed_row, trimmed_opt. cbn.
  split_and!; [..|intros s ->|intros s ->|intros s ->];
    eapply Hrow; try done; set_solver.
Qed.

Lemma staged_merchants_trimmed df staged :
  staged_merchants (normalised df) = Some staged → Forall trimmed_row staged.
Proof.
  unfold staged_merchants. intros Hstaged%mapM_Some.
  eapply Forall2_Forall_r; [exact Hstaged|].
  apply Forall_forall. intros row Hrow r Hof.
  apply (stg_merchant_of_trimmed row); [|done].
  intros c s Hc. by eapply select_columns_normalised_trimmed.
Qed.

Lemma load_merchants_db_ok now df s s1 n :
  load_merchants_db now df s = (s1, Ok n) →
  ∃ staged, staged_merchants df = Some staged
            ∧ NoDup (sm_merchant_id <$> staged)
            ∧ dim_merchants s1 = foldl (merge_merchant now) (dim_merchants s) staged.
Proof.
  unfold load_merchants_db. destruct (staged_merchants df) as [staged|]; [|done].
  case_decide; [|done]. intros [= <- _]. by exists staged.
Qed.

Lemma upsert_facts_db_dim now rows s :
  dim_merchants (upsert_facts_db now rows s).1 = dim_merchants s.
Proof.
  unfold upsert_facts_db. destruct (mapM stg_daily_of rows); [case_decide|]; done.
Qed.

Lemma merge_merchant_written now dim staged r :
  NoDup (sm_merchant_id <$> staged) → r ∈ staged →
  ∃ created,
    foldl (merge_merchant now) dim staged !! sm_merchant_id r
    = Some (mkDimMerchant (sm_merchant_name r) (sm_category r) (sm_city r)
              (sm_state r) created).
Proof.
  intros Hnd Hr.
  destruct (foldl_merge_written sm_merchant_id
              (λ r o, mkDimMerchant (sm_merchant_name r) (sm_category r) (sm_city r)
                        (sm_state r)
                        (match o with Some old => created_at_utc old | None => now end))
              (merge_merchant now) (λ _ _, eq_refl) dim staged r Hnd Hr) as [o Ho].
  by eexists.
Qed.

End Staged.

Section MerchantsInPlace.

Context {ar : Arith} {sv : Server}.
Context (to_numeric : string → option Qc).
Context (to_datetime : string → option Timestamp).

(** C9.  The validator leaves the trimmed cells in the merchant frame
    its caller holds; the loader, given that same reference, stages rows
    whose every text field is trimmed; and after a successful run the
    sink holds, for every staged merchant, exactly those trimmed
    fields. *)
Theorem validate_and_clean_trims_merchants_in_place :
  (∀ w lm lt m t w' r now,
     lm ≠ lt → store w !! lm = Some m → store w !! lt = Some t →
     validate_and_clean to_numeric to_datetime lm lt w = (w', Ok r) →
     store w' !! lm = Some (normalised m)
     ∧ data (normalised m) = map (map (str_strip (dtype m))) (data m)
     ∧ load_merchants now lm w'
       = (mkWorld (store w') (load_merchants_db now (normalised m) (db w')).1,
          (load_merchants_db now (normalised m) (db w')).2)
     ∧ ∀ staged, staged_merchants (normalised m) = Some staged →
                 Forall trimmed_row staged)
  ∧ (∀ files now s s' stats,
       run to_numeric to_datetime files now s = (s', Ok stats) →
       ∃ staged,
         staged_merchants (normalised (merchants_csv files)) = Some staged
         ∧ length staged = len (merchants_csv files)
         ∧ merchants_loaded stats = len (merchants_csv files)
         ∧ Forall (λ r,
             trimmed_row r
             ∧ ∃ created,
                 dim_merchants s' !! sm_merchant_id r
                 = Some (mkDimMerchant (sm_merchant_name r) (sm_category r)
                           (sm_city r) (sm_state r) created)) staged).
Proof.
  split.
  - intros w lm lt m t w' r now Hne Hm Ht Hrun.
    destruct (validate_and_clean_inv _ _ _ _ _ _ _ _ Hne Ht Hrun)
      as (m' & Hm' & Hrm & Hrt).
    assert (m' = m) as -> by congruence.
    rewrite (validate_and_clean_ok _ _ _ _ _ _ _ Hne Hm Ht Hrm Hrt) in Hrun.
    injection Hrun as <- _.
    assert (<[lt := normalised t]> (<[lm := normalised m]> (store w)) !! lm
            = Some (normalised m)) as Hlook
      by (by rewrite lookup_insert_ne, lookup_insert_eq).
    split_and!; [done|done| |apply staged_merchants_trimmed].
    by apply load_merchants_run.
  - intros files now s s' stats. rewrite run_unfold. unfold run_db.
    destruct (decide (required_merch_cols ⊆ _)) as [Hrm|]; [|done].
    destruct (decide (required_txn_cols ⊆ _)) as [Hrt|]; [|done]. cbv zeta.
    set (M := normalised (merchants_csv files)).
    destruct (load_merchants_db now M s) as [s1 [n|e]] eqn:Hload;
      cbn [fst snd]; [|done].
    pose proof (upsert_facts_db_dim now
      (daily_of (mkTxnFrame (columns (normalised (transactions_csv files)))
         (clean_rows to_numeric to_datetime M
            (normalised (transactions_csv files))))) s1) as Hdim.
    destruct (upsert_facts_db now _ s1) as [s2 [k|e]]; cbn [fst snd] in *; [|done].
    intros [= <- <-].
    destruct (load_merchants_db_ok _ _ _ _ _ Hload) as (staged & Hstaged & Hnd & Hs1).
    exists staged. split_and!; [done| | |].
    + unfold staged_merchants in Hstaged. apply length_mapM in Hstaged.
      rewrite <-Hstaged, length_select_columns. unfold M, len. cbn.
      by rewrite length_map.
    + cbn. revert Hload. unfold load_merchants_db. rewrite Hstaged.
      rewrite decide_True by done. intros [= _ <-].
      unfold M, len. cbn. by rewrite length_map.
    + apply Forall_forall. intros r Hr. split.
      * pose proof (staged_merchants_trimmed _ _ Hstaged) as Htr.
        rewrite Forall_forall in Htr. by apply Htr.
      * rewrite Hdim, Hs1. by apply merge_merchant_written.
Qed.

End MerchantsInPlace.

(** ** The theorems at the example data *)

Lemma example_merchant_columns :
  required_merch_cols ⊆ list_to_set (strip <$> columns example_merchants).
Proof. apply (bool_decide_unpack _). vm_compute. exact I. Defined.

Lemma example_txn_columns :
  required_txn_cols ⊆ list_to_set (strip <$> columns example_transactions).
Proof. apply (bool_decide_unpack _). vm_compute. exact I. Defined.

Lemma example_rectangular : rectangular example_transactions.
Proof. repeat constructor. Defined.

Lemma example_validated_eq :
  validate_and_clean sample_to_numeric sample_to_datetime 0 1 example_world
  = (example_validated.1, Ok (example_clean, example_stats)).
Proof. vm_compute. reflexivity. Defined.


Lemma example_identified : identified example_clean.
Proof.
  exact (validate_and_clean_identified sample_to_numeric sample_to_datetime
           example_world 0 1 example_transactions example_validated.1
           example_clean example_stats ltac:(lia) eq_refl eq_refl
           example_rectangular example_validated_eq).
Defined.








Lemma example_no_status_missing :
  ¬ (required_merch_cols ⊆ list_to_set (strip <$> columns example_merchants)
     ∧ required_txn_cols ⊆ list_to_set (strip <$> columns example_no_status)).
Proof. apply (bool_decide_unpack _). vm_compute. exact I. Defined.

Lemma validate_and_clean_missing_columns_witness :
  (0 ≠ 1
   ∧ store example_world_no_status !! 0 = Some example_merchants
   ∧ store example_world_no_status !! 1 = Some example_no_status
   ∧ ¬ (required_merch_cols ⊆ list_to_set (strip <$> columns example_merchants)
        ∧ required_txn_cols ⊆ list_to_set (strip <$> columns example_no_status)))
  ∧ (∃ w' file missing,
       validate_and_clean sample_to_numeric sample_to_datetime 0 1
         example_world_no_status = (w', Raise (ValueError file missing))
       ∧ missing ≠ ∅ ∧ db w' = db example_world_no_status)
  ∧ (∃ file missing,
       run (ar := exact_arith) (sv := sample_server)
         sample_to_numeric sample_to_datetime
         (mkFiles example_merchants example_no_status) 0 empty_sink
       = (empty_sink, Raise (ValueError file missing))
       ∧ missing ≠ ∅).
Proof.
  assert (0 ≠ 1) as Hne by lia.
  assert (store example_world_no_status !! 0 = Some example_merchants) as Hm
    by reflexivity.
  assert (store example_world_no_status !! 1 = Some example_no_status) as Ht
    by reflexivity.
  split; [exact (conj Hne (conj Hm (conj Ht example_no_status_missing)))|].
  split.
  - destruct (proj1 (validate_and_clean_missing_columns (ar := exact_arith)
                       (sv := sample_server) sample_to_numeric sample_to_datetime)
                example_world_no_status 0 1 example_merchants example_no_status
                Hne Hm Ht example_no_status_missing)
      as (w' & file & missing & Hrun & Hmiss & _ & Hdb & _).
    exists w', file, missing. exact (conj Hrun (conj Hmiss Hdb)).
  - exact (proj2 (validate_and_clean_missing_columns (ar := exact_arith)
                    (sv := sample_server) sample_to_numeric sample_to_datetime)
             (mkFiles example_merchants example_no_status) 0%Z empty_sink
             example_no_status_missing).
Defined.

Lemma end_to_end_scenario_witness :
  (sample_to_numeric "10.00" = Some (Qc_of_Z 10)
   ∧ sample_to_numeric "20.00" = Some (Qc_of_Z 20)
   ∧ sample_to_datetime "2026-01-01T10:00:00Z"
     = Some (mkTimestamp (mkDate 2026 1 1) 10 0 0 0)
   ∧ sample_to_datetime "2026-01-01T11:00:00Z"
     = Some (mkTimestamp (mkDate 2026 1 1) 11 0 0 0)
   ∧ @column_sum exact_arith [Some (Qc_of_Z 10); Some (Qc_of_Z 20)]
     = Finite (Qc_of_Z 30)
   ∧ @column_sum exact_arith [Some (Qc_of_Z 10); Some 0%Qc] = Finite (Qc_of_Z 10)
   ∧ @series_round exact_arith 4 (@true_divide exact_arith (of_int 1) (of_int 2))
     = Finite (Q2Qc (1 # 2))
   ∧ @series_round exact_arith 2
       (@true_divide exact_arith (Finite (Qc_of_Z 30)) (of_int 2))
     = Finite (Qc_of_Z 15))
  ∧ metrics (ar := exact_arith) sample_to_numeric sample_to_datetime
      (mkFiles
         (mkFrame str_dtype ["merchant_id"; "merchant_name"]
            [[Some "m1"; Some "Sunrise Coffee"]])
         (mkFrame str_dtype
            ["transaction_id"; "merchant_id"; "txn_ts_utc"; "amount"; "status"]
            [ [Some "t1"; Some "m1"; Some "2026-01-01T10:00:00Z"; Some "10.00";
               Some "APPROVED"];
              [Some "t2"; Some "m1"; Some "2026-01-01T11:00:00Z"; Some "20.00";
               Some "DECLINED"] ]))
    = Ok [ mkDailyRow (mkDate 2026 1 1) "m1" 2 1 1
             (Finite (Qc_of_Z 30)) (Finite (Qc_of_Z 10))
             (Finite (Q2Qc (1 # 2))) (Finite (Qc_of_Z 15)) ].
Proof.
  assert (sample_to_numeric "10.00" = Some (Qc_of_Z 10)) as H10
    by (vm_compute; apply f_equal, Qc_is_canon; reflexivity).
  assert (sample_to_numeric "20.00" = Some (Qc_of_Z 20)) as H20
    by (vm_compute; apply f_equal, Qc_is_canon; reflexivity).
  assert (sample_to_datetime "2026-01-01T10:00:00Z"
          = Some (mkTimestamp (mkDate 2026 1 1) 10 0 0 0)) as Hts1 by reflexivity.
  assert (sample_to_datetime "2026-01-01T11:00:00Z"
          = Some (mkTimestamp (mkDate 2026 1 1) 11 0 0 0)) as Hts2 by reflexivity.
  assert (@column_sum exact_arith [Some (Qc_of_Z 10); Some (Qc_of_Z 20)]
          = Finite (Qc_of_Z 30)) as Hgross
    by (vm_compute; apply f_equal, Qc_is_canon; reflexivity).
  assert (@column_sum exact_arith [Some (Qc_of_Z 10); Some 0%Qc]
          = Finite (Qc_of_Z 10)) as Happroved
    by (vm_compute; apply f_equal, Qc_is_canon; reflexivity).
  assert (@series_round exact_arith 4
            (@true_divide exact_arith (of_int 1) (of_int 2))
          = Finite (Q2Qc (1 # 2))) as Hrate
    by (vm_compute; apply f_equal, Qc_is_canon; reflexivity).
  assert (@series_round exact_arith 2
            (@true_divide exact_arith (Finite (Qc_of_Z 30)) (of_int 2))
          = Finite (Qc_of_Z 15)) as Havg
    by (vm_compute; apply f_equal, Qc_is_canon; reflexivity).
  split.
  { exact (conj H10 (conj H20 (conj Hts1 (conj Hts2 (conj Hgross
             (conj Happroved (conj Hrate Havg))))))). }
  exact (end_to_end_scenario (ar := exact_arith) sample_to_numeric
           sample_to_datetime str_dtype str_dtype
           "Sunrise Coffee" _ _ H10 H20 Hts1 eq_refl Hts2 eq_refl
           Hgross Happroved Hrate Havg).
Defined.

Lemma example_run_eq :
  run (ar := exact_arith) (sv := sample_server)
    sample_to_numeric sample_to_datetime example_files 0 empty_sink
  = (example_run.1, Ok example_run_stats).
Proof. vm_compute. reflexivity. Defined.

Lemma validate_and_clean_trims_merchants_in_place_witness :
  (0 ≠ 1
   ∧ store example_world !! 0 = Some example_merchants
   ∧ store example_world !! 1 = Some example_transactions)
  ∧ (store example_validated.1 !! 0 = Some (normalised example_merchants)
     ∧ ∀ staged,
         staged_merchants (sv := sample_server) (normalised example_merchants)
         = Some staged →
         Forall trimmed_row staged)
  ∧ (∃ staged,
       staged_merchants (sv := sample_server)
         (normalised (merchants_csv example_files)) = Some staged
       ∧ Forall (λ r,
           trimmed_row r
           ∧ ∃ created,
               dim_merchants example_run.1 !! sm_merchant_id r
               = Some (mkDimMerchant (sm_merchant_name r) (sm_category r)
                         (sm_city r) (sm_state r) created)) staged).
Proof.
  assert (0 ≠ 1) as Hne by lia.
  assert (store example_world !! 0 = Some example_merchants) as Hm by reflexivity.
  assert (store example_world !! 1 = Some example_transactions) as Ht by reflexivity.
  split; [exact (conj Hne (conj Hm Ht))|].
  split.
  - destruct (proj1 (validate_and_clean_trims_merchants_in_place
                       (ar := exact_arith) (sv := sample_server)
                       sample_to_numeric sample_to_datetime)
                example_world 0 1 example_merchants example_transactions
                example_validated.1 (example_clean, example_stats) 0%Z
                Hne Hm Ht example_validated_eq)
      as (Hstore & _ & _ & Htrim).
    exact (conj Hstore Htrim).
  - destruct (proj2 (validate_and_clean_trims_merchants_in_place
                       (ar := exact_arith) (sv := sample_server)
                       sample_to_numeric sample_to_datetime)
                example_files 0%Z empty_sink example_run.1 example_run_stats
                example_run_eq)
      as (staged & Hstaged & _ & _ & Hall).
    exists staged. exact (conj Hstaged Hall).
Defined.


(** * Further properties of the run component *)

(** ** Config / DB engine: the connection URL *)

Lemma append_assoc (s t u : string) : ((s ++ t) ++ u = s ++ (t ++ u))%string.
Proof.
  induction s as [|c s IH]; [done|].
  change (String c ((s ++ t) ++ u) = String c (s ++ (t ++ u)))%string.
  by rewrite IH.
Qed.

Lemma all_chars_app P (s t : string) :
  all_chars P (s ++ t)%string = all_chars P s && all_chars P t.
Proof.
  induction s as [|c s IH]; [done|].
  change (all_chars P (String c (s ++ t)%string)
          = all_chars P (String c s) && all_chars P t).
  cbn [all_chars]. by rewrite IH, andb_assoc.
Qed.

Lemma unquote_quote_byte c t :
  unquote_plus (quote_byte c ++ t)%string = String c (unquote_plus t).
Proof. destruct c as [[] [] [] [] [] [] [] []]; reflexivity. Qed.

Lemma quote_byte_url_char c : all_chars url_char (quote_byte c) = true.
Proof. destruct c as [[] [] [] [] [] [] [] []]; reflexivity. Qed.

Lemma unquote_plus_quote_plus_app s t :
  unquote_plus (quote_plus s ++ t)%string = (s ++ unquote_plus t)%string.
Proof.
  induction s as [|c s IH]; [done|].
  cbn [quote_plus]. rewrite append_assoc, unquote_quote_byte, IH. done.
Qed.

Lemma quote_plus_url_chars s : all_chars url_char (quote_plus s) = true.
Proof.
  induction s as [|c s IH]; [done|].
  cbn [quote_plus]. by rewrite all_chars_app, quote_byte_url_char, IH.
Qed.

Lemma append_empty_r (s : string) : (s ++ "")%string = s.
Proof.
  induction s as [|c s IH]; [done|].
  change (String c (s ++ "")%string = String c s). by rewrite IH.
Qed.

Lemma truthy_spec v : truthy v = true ↔ ∃ s, v = Some s ∧ s ≠ "".
Proof.
  destruct v as [[|c s]|]; simpl; split; try done.
  - by intros (s & [= <-] & ?).
  - intros _. by eexists.
  - by intros (s & ? & ?).
Qed.

Lemma unquote_plus_quote_plus s : unquote_plus (quote_plus s) = s.
Proof.
  rewrite <-(append_empty_r (quote_plus s)), unquote_plus_quote_plus_app.
  apply append_empty_r.
Qed.

(** X1.  quote_plus can be undone: reading [+] as a space and [%XX] as
    the byte XX gives the quoted text back, whatever bytes it holds; and
    the quoted text is made of letters, digits, [_.-~], [+] and [%]
    only. *)
Theorem quote_plus_round_trip s :
  unquote_plus (quote_plus s) = s
  ∧ all_chars url_char (quote_plus s) = true.
Proof.
  split; [apply unquote_plus_quote_plus|apply quote_plus_url_chars].
Qed.

(** X2.  get_engine makes an engine exactly when the four variables
    are all set to a non-empty text; when one of them is absent or empty
    it raises the ValueError about the .env file, whatever the others
    hold. *)
Theorem get_engine_needs_the_four_variables environ :
  let required := ["AZURE_SQL_SERVER"; "AZURE_SQL_DATABASE";
                   "AZURE_SQL_USERNAME"; "AZURE_SQL_PASSWORD"] in
  let is_set v := ∃ s, environ !! v = Some s ∧ s ≠ "" in
  ((∃ url, get_engine environ = Engine url) ↔ Forall is_set required)
  ∧ (get_engine environ
       = ConfigValueError "Missing one or more required env vars. Check your .env file."
     ↔ ∃ v, v ∈ required ∧ ¬ is_set v).
Proof.
  intros required is_set. unfold get_engine.
  assert (forallb truthy ((λ v, environ !! v) <$> required) = true
          ↔ Forall is_set required) as Hall.
  { rewrite <-Is_true_true, forallb_True, Forall_fmap. apply Forall_iff.
    intros v. cbn. rewrite Is_true_true. apply truthy_spec. }
  change [environ !! "AZURE_SQL_SERVER"; environ !! "AZURE_SQL_DATABASE";
          environ !! "AZURE_SQL_USERNAME"; environ !! "AZURE_SQL_PASSWORD"]
    with ((λ v, environ !! v) <$> required).
  destruct (forallb truthy _) eqn:Hb; cbn [negb].
  - pose proof (proj1 Hall eq_refl) as Hset. split.
    + split; [done|]. intros _. by eexists.
    + split; [done|]. intros (v & Hv & Hn). exfalso. apply Hn.
      rewrite Forall_forall in Hset. by apply Hset.
  - assert (¬ Forall is_set required) as Hn by (intros H; by apply Hall in H).
    split.
    + split; [by intros [? ?]|done].
    + split; [|done]. intros _. apply not_Forall_Exists in Hn; [|].
      * apply Exists_exists in Hn as (v & ? & ?). by exists v.
      * intros v. unfold is_set.
        destruct (environ !! v) as [s|];
          [destruct (decide (s = "")) as [->|]|].
        -- right. by intros (? & [= <-] & ?).
        -- left. by eexists.
        -- right. by intros (? & ? & ?).
Qed.

(** X3.  The URL of the engine: the fixed scheme, then a text of
    URL-safe characters that decodes to the ODBC string holding the four
    values as they are, whatever characters the password is made of. *)
Theorem get_engine_url_decodes_to_odbc_string environ url :
  get_engine environ = Engine url →
  ∃ server database username password quoted,
    environ !! "AZURE_SQL_SERVER" = Some server
    ∧ environ !! "AZURE_SQL_DATABASE" = Some database
    ∧ environ !! "AZURE_SQL_USERNAME" = Some username
    ∧ environ !! "AZURE_SQL_PASSWORD" = Some password
    ∧ url = ("mssql+pyodbc:///?odbc_connect=" ++ quoted)%string
    ∧ all_chars url_char quoted = true
    ∧ unquote_plus quoted
      = ("DRIVER={ODBC Driver 17 for SQL Server};SERVER=" ++ server
         ++ ";DATABASE=" ++ database ++ ";UID=" ++ username
         ++ ";PWD=" ++ password
         ++ ";Encrypt=yes;TrustServerCertificate=no;Connection Timeout=30;")%string.
Proof.
  unfold get_engine.
  destruct (environ !! "AZURE_SQL_SERVER") as [server|] eqn:Hs; [|done].
  destruct (environ !! "AZURE_SQL_DATABASE") as [database|] eqn:Hd;
    [|cbn; by rewrite andb_false_r].
  destruct (environ !! "AZURE_SQL_USERNAME") as [username|] eqn:Hu;
    [|cbn; by rewrite !andb_false_r].
  destruct (environ !! "AZURE_SQL_PASSWORD") as [password|] eqn:Hp;
    [|cbn; by rewrite !andb_false_r].
  destruct (negb _); [done|]. intros [= <-].
  exists server, database, username, password.
  exists (quote_plus (odbc_str (Some server) (Some database) (Some username)
                        (Some password))).
  split_and!; [done..|apply quote_plus_url_chars|].
  rewrite unquote_plus_quote_plus.
  unfold odbc_str, fstr. cbn [default].
  reflexivity.
Qed.

Lemma get_engine_url_decodes_to_odbc_string_witness :
  get_engine example_environ = Engine example_url
  ∧ ∃ quoted,
      example_url = ("mssql+pyodbc:///?odbc_connect=" ++ quoted)%string
      ∧ unquote_plus quoted
        = "DRIVER={ODBC Driver 17 for SQL Server};SERVER=tcp:etl.database.windows.net,1433;DATABASE=payments;UID=etl user;PWD=p@ss;w=rd%+;Encrypt=yes;TrustServerCertificate=no;Connection Timeout=30;".
Proof.
  assert (get_engine example_environ = Engine example_url) as Hrun
    by (vm_compute; reflexivity).
  split; [exact Hrun|].
  destruct (get_engine_url_decodes_to_odbc_string example_environ example_url Hrun)
    as (server & database & username & password & quoted
        & Hs & Hd & Hu & Hp & Hurl & _ & Hq).
  exists quoted. split; [exact Hurl|].
  vm_compute in Hs, Hd, Hu, Hp.
  injection Hs as <-. injection Hd as <-. injection Hu as <-. injection Hp as <-.
  exact Hq.
Defined.

(** ** Dedupe: one row per identifier *)

Lemma drop_duplicates_from_sublist seen i rows :
  sublist (drop_duplicates_from seen i rows) rows.
Proof.
  revert seen. induction rows as [|r rows IH]; intros seen;
    cbn [drop_duplicates_from]; [constructor|].
  case_decide; [apply sublist_cons|apply sublist_skip]; apply IH.
Qed.

Lemma drop_duplicates_from_keys seen i rows k :
  k ∈ (λ r, iat r i) <$> rows →
  k ∈ seen ∨ k ∈ (λ r, iat r i) <$> drop_duplicates_from seen i rows.
Proof.
  revert seen. induction rows as [|r rows IH]; intros seen; cbn [drop_duplicates_from].
  { by intros ?%not_elem_of_nil. }
  rewrite fmap_cons. intros [->|Hin]%elem_of_cons.
  - case_decide as Hseen; [by left|]. right. rewrite fmap_cons. by left.
  - case_decide as Hseen; [by apply IH|].
    rewrite fmap_cons, elem_of_cons.
    destruct (IH (iat r i :: seen) Hin) as [[->|?]%elem_of_cons|?]; auto.
Qed.

Lemma drop_duplicates_from_fixed seen i rows :
  (∀ r, r ∈ rows → iat r i ∉ seen) → NoDup ((λ r, iat r i) <$> rows) →
  drop_duplicates_from seen i rows = rows.
Proof.
  revert seen. induction rows as [|r rows IH]; intros seen Hseen;
    cbn [drop_duplicates_from]; [done|].
  rewrite fmap_cons, NoDup_cons. intros [Hr Hnd].
  rewrite decide_False by (apply Hseen; by left). f_equal.
  apply IH; [|done]. intros r' Hr'. rewrite not_elem_of_cons. split.
  - intros Heq. apply Hr. rewrite <-Heq. by apply (list_elem_of_fmap_2 (λ r, iat r i)).
  - apply Hseen. by right.
Qed.

(** X4.  Dedupe keeps rows of the table in their order, exactly one for
    every identifier that occurs; no identifier is lost, and a second
    dedupe changes nothing. *)
Theorem drop_duplicates_one_row_per_key i rows :
  let key := λ r : list cell, iat r i in
  let out := drop_duplicates i rows in
  sublist out rows
  ∧ NoDup (key <$> out)
  ∧ (∀ k, k ∈ key <$> rows ↔ k ∈ key <$> out)
  ∧ drop_duplicates i out = out.
Proof.
  intros key out. unfold out, drop_duplicates. split_and!.
  - apply drop_duplicates_from_sublist.
  - apply drop_duplicates_from_NoDup.
  - intros k. split.
    + intros Hk. destruct (drop_duplicates_from_keys [] i rows k Hk) as [Hs|?]; [|done].
      by apply not_elem_of_nil in Hs.
    + intros (r & -> & Hr)%list_elem_of_fmap.
      apply (list_elem_of_fmap_2 key). by eapply drop_duplicates_from_elem.
  - apply drop_duplicates_from_fixed; [|apply drop_duplicates_from_NoDup].
    intros r _. apply not_elem_of_nil.
Qed.

(** ** Validate / Clean: counters, identifiers and the caller's frames *)

Lemma str_strip_idem d c : str_strip d (str_strip d c) = str_strip d c.
Proof.
  unfold str_strip. destruct c as [s|], d; cbn; by rewrite ?strip_idem.
Qed.

Lemma normalised_idem df : normalised (normalised df) = normalised df.
Proof.
  unfold normalised, strip_cells, strip_columns. cbn. f_equal.
  - rewrite <-list_fmap_compose. apply list_fmap_ext. intros _ c _. apply strip_idem.
  - rewrite map_map. apply map_ext. intros row.
    rewrite map_map. apply map_ext. intros c. apply str_strip_idem.
Qed.

Lemma len_normalised df : len (normalised df) = len df.
Proof. unfold len. cbn. by rewrite length_map. Qed.

Section ValidateMore.

Context {ar : Arith} {sv : Server}.
Context (to_numeric : string → option Qc).
Context (to_datetime : string → option Timestamp).

Lemma clean_rows_sublist m t :
  sublist (cells <$> clean_rows to_numeric to_datetime m t)
          (drop_duplicates (pos "transaction_id" (columns t)) (data t)).
Proof.
  rewrite clean_rows_accepted, <-list_fmap_compose.
  rewrite (list_fmap_ext _ id) by done. rewrite list_fmap_id.
  apply sublist_filter.
Qed.

Lemma validate_and_clean_result w lm lt t w' clean stats :
  lm ≠ lt → store w !! lt = Some t →
  validate_and_clean to_numeric to_datetime lm lt w = (w', Ok (clean, stats)) →
  ∃ m, store w !! lm = Some m
       ∧ required_merch_cols ⊆ list_to_set (strip <$> columns m)
       ∧ required_txn_cols ⊆ list_to_set (strip <$> columns t)
       ∧ w' = mkWorld (<[lt := normalised t]> (<[lm := normalised m]> (store w))) (db w)
       ∧ clean = mkTxnFrame (columns (normalised t))
                   (clean_rows to_numeric to_datetime (normalised m) (normalised t))
       ∧ stats = clean_stats to_numeric to_datetime (len t) (normalised m) (normalised t).
Proof.
  intros Hne Ht Hrun.
  destruct (validate_and_clean_inv _ _ _ _ _ _ _ _ Hne Ht Hrun) as (m & Hm & Hrm & Hrt).
  rewrite (validate_and_clean_ok _ _ _ _ _ _ _ Hne Hm Ht Hrm Hrt) in Hrun.
  injection Hrun as <- <- <-. by exists m.
Qed.

(** X5.  The counters of a returned RunStats: the total is the number
    of rows read, dedupe can only lower it, valid and rejected add up to
    the post-dedupe count, the valid count is the length of the returned
    table, and the three load counters are still 0. *)
Theorem validate_and_clean_counters w lm lt t w' clean stats :
  lm ≠ lt → store w !! lt = Some t →
  validate_and_clean to_numeric to_datetime lm lt w = (w', Ok (clean, stats)) →
  txns_total stats = len t
  ∧ (txns_after_dedupe stats ≤ txns_total stats)%nat
  ∧ txns_valid stats + txns_rejected stats = txns_after_dedupe stats
  ∧ txns_valid stats = length (trows clean)
  ∧ merchants_loaded stats = 0 ∧ daily_rows stats = 0
  ∧ fact_rows_upserted stats = 0.
Proof.
  intros Hne Ht Hrun.
  destruct (validate_and_clean_result _ _ _ _ _ _ _ Hne Ht Hrun)
    as (m & _ & _ & _ & _ & -> & ->).
  unfold clean_stats. cbn [txns_total txns_after_dedupe txns_valid txns_rejected
    merchants_loaded daily_rows fact_rows_upserted trows].
  pose proof (sublist_length _ _ (clean_rows_sublist (normalised m) (normalised t)))
    as Hvalid.
  pose proof (sublist_length _ _
                (drop_duplicates_from_sublist []
                   (pos "transaction_id" (columns (normalised t)))
                   (data (normalised t)))) as Hdedupe.
  rewrite length_fmap in Hvalid. unfold drop_duplicates in *.
  assert (length (data (normalised t)) = len t) as Hlen
    by (unfold len; simpl; by rewrite length_map).
  split_and!; try done; lia.
Qed.

(** X6.  The returned table holds every transaction identifier once,
    and its rows are rows of the trimmed transactions frame, in the
    order of the file. *)
Theorem validate_and_clean_unique_transaction_ids w lm lt t w' clean stats :
  lm ≠ lt → store w !! lt = Some t →
  validate_and_clean to_numeric to_datetime lm lt w = (w', Ok (clean, stats)) →
  NoDup ((λ x, field_of (tcolumns clean) "transaction_id" (cells x)) <$> trows clean)
  ∧ sublist (cells <$> trows clean) (map (map (str_strip (dtype t))) (data t)).
Proof.
  intros Hne Ht Hrun.
  destruct (validate_and_clean_result _ _ _ _ _ _ _ Hne Ht Hrun)
    as (m & _ & _ & _ & _ & -> & _).
  cbn [tcolumns trows].
  pose proof (clean_rows_sublist (normalised m) (normalised t)) as Hsub.
  split.
  - rewrite (list_fmap_compose cells
               (λ row, iat row (pos "transaction_id" (columns (normalised t))))).
    exact (sublist_NoDup _ _ (drop_duplicates_from_NoDup _ _ _)
             (fmap_sublist _ _ _ Hsub)).
  - etrans; [exact Hsub|]. apply drop_duplicates_from_sublist.
Qed.

(** X7.  What a successful validation leaves behind: the caller's
    transactions frame is trimmed in place but keeps every row, the
    repeated and the rejected ones too, and gets no new column; no other
    frame than the two changes, and the sink is not touched. *)
Theorem validate_and_clean_keeps_callers_rows w lm lt t w' clean stats :
  lm ≠ lt → store w !! lt = Some t →
  validate_and_clean to_numeric to_datetime lm lt w = (w', Ok (clean, stats)) →
  store w' !! lt
  = Some (mkFrame (dtype t) (strip <$> columns t)
            (map (map (str_strip (dtype t))) (data t)))
  ∧ (∀ l, l ≠ lm → l ≠ lt → store w' !! l = store w !! l)
  ∧ db w' = db w.
Proof.
  intros Hne Ht Hrun.
  destruct (validate_and_clean_result _ _ _ _ _ _ _ Hne Ht Hrun)
    as (m & _ & _ & _ & -> & _ & _).
  cbn [store db]. split_and!; [|intros l Hlm Hlt|done].
  - by rewrite lookup_insert_eq.
  - by rewrite !lookup_insert_ne.
Qed.

End ValidateMore.

Lemma validate_and_clean_counters_witness :
  (0 ≠ 1 ∧ store example_world !! 1 = Some example_transactions)
  ∧ txns_total example_stats = 6
  ∧ txns_valid example_stats + txns_rejected example_stats
    = txns_after_dedupe example_stats.
Proof.
  assert (0 ≠ 1) as Hne by lia.
  assert (store example_world !! 1 = Some example_transactions) as Ht by reflexivity.
  split; [exact (conj Hne Ht)|].
  destruct (validate_and_clean_counters sample_to_numeric sample_to_datetime
              example_world 0 1 example_transactions example_validated.1
              example_clean example_stats Hne Ht example_validated_eq)
    as (Htotal & _ & Hsum & _).
  exact (conj Htotal Hsum).
Defined.

Lemma validate_and_clean_unique_transaction_ids_witness :
  (0 ≠ 1 ∧ store example_world !! 1 = Some example_transactions)
  ∧ NoDup ((λ x, field_of (tcolumns example_clean) "transaction_id" (cells x))
             <$> trows example_clean).
Proof.
  assert (0 ≠ 1) as Hne by lia.
  assert (store example_world !! 1 = Some example_transactions) as Ht by reflexivity.
  split; [exact (conj Hne Ht)|].
  exact (proj1 (validate_and_clean_unique_transaction_ids sample_to_numeric
                  sample_to_datetime example_world 0 1 example_transactions
                  example_validated.1 example_clean example_stats Hne Ht
                  example_validated_eq)).
Defined.

Lemma validate_and_clean_keeps_callers_rows_witness :
  (0 ≠ 1 ∧ store example_world !! 1 = Some example_transactions)
  ∧ (∃ t', store example_validated.1 !! 1 = Some t' ∧ len t' = 6)
  ∧ db example_validated.1 = empty_sink.
Proof.
  assert (0 ≠ 1) as Hne by lia.
  assert (store example_world !! 1 = Some example_transactions) as Ht by reflexivity.
  split; [exact (conj Hne Ht)|].
  destruct (validate_and_clean_keeps_callers_rows sample_to_numeric
              sample_to_datetime example_world 0 1 example_transactions
              example_validated.1 example_clean example_stats Hne Ht
              example_validated_eq) as (Hlt & _ & Hdb).
  split; [|exact Hdb].
  eexists. split; [exact Hlt|reflexivity].
Defined.

(** ** Validate / Clean: the first occurrence, and a second validation *)

Section ValidateAgain.

Context {ar : Arith} {sv : Server}.
Context (to_numeric : string → option Qc).
Context (to_datetime : string → option Timestamp).

(** X8.  Dedupe comes before validation, so only the first row of the
    file that carries an identifier can stand for it in the cleaned
    table: a later row with the same identifier is never kept, not even
    when the first one is rejected. *)
Theorem validate_and_clean_first_occurrence_decides
    w lm lt t w' clean stats pre r0 post :
  lm ≠ lt → store w !! lt = Some t →
  validate_and_clean to_numeric to_datetime lm lt w = (w', Ok (clean, stats)) →
  let id := λ row, field_of (strip <$> columns t) "transaction_id" row in
  map (map (str_strip (dtype t))) (data t) = pre ++ r0 :: post →
  id r0 ∉ id <$> pre →
  ∀ x, x ∈ trows clean → id (cells x) = id r0 → cells x = r0.
Proof.
  intros Hne Ht Hrun id Hrows Hfirst x Hx Heq.
  destruct (validate_and_clean_result _ _ _ _ _ _ _ _ _ Hne Ht Hrun)
    as (m & _ & _ & _ & _ & -> & _).
  cbn [trows] in Hx. rewrite clean_rows_accepted in Hx.
  apply list_elem_of_fmap in Hx as (row & -> & Hrow).
  apply list_elem_of_filter in Hrow as [_ Hrow]. cbn [cells typed] in *.
  unfold drop_duplicates in Hrow.
  apply (NoDup_fmap_elem_inj id
           (drop_duplicates_from [] (pos "transaction_id" (columns (normalised t)))
              (data (normalised t)))); [|done| |done].
  - apply drop_duplicates_from_NoDup.
  - cbn [data dtype normalised strip_cells strip_columns]. rewrite Hrows.
    apply drop_duplicates_from_first_elem; [apply not_elem_of_nil|done].
Qed.

(** X9.  Validation can be repeated: run again on the frames it has
    just trimmed, it leaves them as they are and returns the same table
    and the same counters. *)
Theorem validate_and_clean_again w lm lt t w' r :
  lm ≠ lt → store w !! lt = Some t →
  validate_and_clean to_numeric to_datetime lm lt w = (w', Ok r) →
  validate_and_clean to_numeric to_datetime lm lt w' = (w', Ok r).
Proof.
  intros Hne Ht Hrun. destruct r as [clean stats].
  destruct (validate_and_clean_result _ _ _ _ _ _ _ _ _ Hne Ht Hrun)
    as (m & Hm & Hrm & Hrt & -> & -> & ->).
  assert (∀ df, strip <$> columns (normalised df) = strip <$> columns df) as Hcols.
  { intros df. cbn. rewrite <-list_fmap_compose. apply list_fmap_ext.
    intros _ c _. apply strip_idem. }
  rewrite (validate_and_clean_ok _ _ _ lm lt (normalised m) (normalised t));
    [|done|cbn; by rewrite lookup_insert_ne, lookup_insert_eq
      |cbn; by rewrite lookup_insert_eq|by rewrite Hcols..].
  rewrite !normalised_idem, len_normalised. cbn [store db].
  do 2 f_equal. apply map_eq. intros l.
  destruct (decide (l = lt)) as [->|]; [by rewrite !lookup_insert_eq|].
  rewrite !(lookup_insert_ne _ lt) by done.
  destruct (decide (l = lm)) as [->|]; [by rewrite !lookup_insert_eq|].
  by rewrite !lookup_insert_ne by done.
Qed.

End ValidateAgain.

Lemma validate_and_clean_first_occurrence_decides_witness :
  (0 ≠ 1 ∧ store example_world !! 1 = Some example_transactions)
  ∧ ∀ x, x ∈ trows example_clean →
         field_of (strip <$> columns example_transactions) "transaction_id" (cells x)
         = Some "t1" →
         cells x = [Some "t1"; Some "m1"; Some "2026-01-01T10:00:00Z";
                    Some "10.00"; Some "APPROVED"; Some "CARD"].
Proof.
  assert (0 ≠ 1) as Hne by lia.
  assert (store example_world !! 1 = Some example_transactions) as Ht by reflexivity.
  split; [exact (conj Hne Ht)|].
  apply (validate_and_clean_first_occurrence_decides sample_to_numeric
           sample_to_datetime example_world 0 1 example_transactions
           example_validated.1 example_clean example_stats []
           [Some "t1"; Some "m1"; Some "2026-01-01T10:00:00Z";
            Some "10.00"; Some "APPROVED"; Some "CARD"]
           (tail (map (map (str_strip object_dtype)) (data example_transactions)))
           Hne Ht example_validated_eq).
  - vm_compute. reflexivity.
  - apply not_elem_of_nil.
Defined.

Lemma validate_and_clean_again_witness :
  (0 ≠ 1 ∧ store example_world !! 1 = Some example_transactions)
  ∧ validate_and_clean sample_to_numeric sample_to_datetime 0 1 example_validated.1
    = (example_validated.1, Ok (example_clean, example_stats)).
Proof.
  assert (0 ≠ 1) as Hne by lia.
  assert (store example_world !! 1 = Some example_transactions) as Ht by reflexivity.
  split; [exact (conj Hne Ht)|].
  exact (validate_and_clean_again sample_to_numeric sample_to_datetime
           example_world 0 1 example_transactions example_validated.1
           (example_clean, example_stats) Hne Ht example_validated_eq).
Defined.

(** ** Grouping: every row in one group, the groups in key order *)

Section GroupsJoin.

Context {K A : Type} `{EqDecision K} (key : A → option K).

Lemma group_insert_join k x (gs : list (K * list A)) :
  mjoin (group_insert k x gs).*2 ≡ₚ x :: mjoin gs.*2.
Proof.
  induction gs as [|[k' xs] gs IH]; [done|].
  cbn [group_insert]. case_decide; rewrite !fmap_cons; cbn [snd mjoin list_join].
  - rewrite <-app_assoc. cbn [app]. by rewrite <-Permutation_middle.
  - rewrite IH. by rewrite <-Permutation_middle.
Qed.

Lemma groups_join (l : list A) :
  mjoin (groups key l).*2 ≡ₚ filter (λ x, is_Some (key x)) l.
Proof.
  unfold groups. induction l as [|x l IH] using rev_ind; [done|].
  rewrite foldl_snoc, filter_app. cbv beta.
  destruct (key x) as [k|] eqn:Hx.
  - rewrite group_insert_join, IH.
    rewrite (filter_cons_True _ x []) by (rewrite Hx; by eexists).
    by rewrite filter_nil, Permutation_cons_append.
  - rewrite (filter_cons_False _ x []) by (rewrite Hx; by intros [? ?]).
    by rewrite filter_nil, app_nil_r.
Qed.

Lemma length_group_insert k x (gs : list (K * list A)) :
  (length (group_insert k x gs) ≤ S (length gs))%nat.
Proof.
  induction gs as [|[k' xs] gs IH]; cbn [group_insert length]; [lia|].
  case_decide; cbn [length]; lia.
Qed.

Lemma length_groups (l : list A) : (length (groups key l) ≤ length l)%nat.
Proof.
  unfold groups. induction l as [|x l IH] using rev_ind; [done|].
  rewrite foldl_snoc, length_app. cbn [length]. destruct (key x) as [k|]; [|lia].
  pose proof (length_group_insert k x (foldl (λ gs r, match key r with
                                                      | Some k => group_insert k r gs
                                                      | None => gs
                                                      end) [] l)).
  lia.
Qed.

End GroupsJoin.

Lemma date_eq_spec d1 d2 :
  d1 = d2 ↔ year d1 = year d2 ∧ month d1 = month d2 ∧ day d1 = day d2.
Proof.
  split; [by intros ->|]. destruct d1, d2; simpl. by intros (-> & -> & ->).
Qed.

Lemma date_leb_spec d1 d2 : date_leb d1 d2 ↔ d1 = d2 ∨ date_lt d1 d2.
Proof.
  rewrite date_eq_spec. unfold date_leb, date_lt.
  rewrite !orb_True, !andb_True, !orb_True, !andb_True.
  rewrite !Is_true_true, !Z.ltb_lt, !Z.eqb_eq, Z.leb_le. lia.
Qed.

Lemma string_leb_strict s1 s2 :
  String.leb s1 s2 → s1 ≠ s2 → String.ltb s1 s2 = true.
Proof.
  unfold String.leb, String.ltb. intros Hle Hne.
  destruct (s1 ?= s2)%string eqn:Hc; [|done|done].
  by apply String.compare_eq_iff in Hc.
Qed.

Lemma key_leb_total k1 k2 : key_leb k1 k2 ∨ key_leb k2 k1.
Proof.
  unfold key_leb. destruct (decide (k1.1 = k2.1)) as [Heq|Hne].
  - rewrite decide_True by done.
    destruct (String.leb_total k1.2 k2.2) as [->| ->]; [by left|by right].
  - rewrite decide_False by done. rewrite !date_leb_spec.
    rewrite !date_eq_spec in *. unfold date_lt. lia.
Qed.

Lemma key_leb_trans k1 k2 k3 : key_leb k1 k2 → key_leb k2 k3 → key_leb k1 k3.
Proof.
  unfold key_leb.
  destruct (decide (k1.1 = k2.1)) as [H12|H12],
           (decide (k2.1 = k3.1)) as [H23|H23].
  - rewrite decide_True by congruence. apply (@transitivity _ String.le _).
  - rewrite decide_False by congruence. intros _. by rewrite H12.
  - rewrite decide_False by congruence. intros ? _. by rewrite <-H23.
  - rewrite !date_leb_spec. intros [?|Hlt1] [?|Hlt2]; [done..|].
    assert (date_lt k1.1 k3.1) as Hlt by (unfold date_lt in *; lia).
    rewrite decide_False; [rewrite date_leb_spec; by right|].
    rewrite date_eq_spec. unfold date_lt in Hlt. lia.
Qed.

Lemma key_leb_strict k1 k2 :
  key_leb k1 k2 → k1 ≠ k2 →
  date_lt k1.1 k2.1 ∨ (k1.1 = k2.1 ∧ String.ltb k1.2 k2.2 = true).
Proof.
  unfold key_leb. destruct k1 as [d1 m1], k2 as [d2 m2]; cbn [fst snd].
  case_decide as Hd.
  - intros Hle Hne. right. split; [done|]. apply string_leb_strict; [done|].
    intros ->. apply Hne. by rewrite Hd.
  - rewrite date_leb_spec. intros [?|?] _; [done|by left].
Qed.

Lemma StronglySorted_strict {A B} (R : relation A) (f : A → B) l :
  StronglySorted R l → NoDup (f <$> l) →
  StronglySorted (λ x y, R x y ∧ f x ≠ f y) l.
Proof.
  induction 1 as [|x l Hs IH Hall]; [constructor|].
  rewrite fmap_cons, NoDup_cons. intros [Hx Hnd].
  constructor; [by apply IH|].
  apply Forall_forall. intros y Hy. split.
  - rewrite Forall_forall in Hall. by apply Hall.
  - intros Heq. apply Hx. rewrite Heq. by apply list_elem_of_fmap_2.
Qed.

Lemma groupby_sorted {A} (key : A → option (Date * string)) (l : list A) :
  StronglySorted (λ g1 g2, key_leb g1.1 g2.1 ∧ g1.1 ≠ g2.1) (groupby key l).
Proof.
  apply (StronglySorted_strict _ fst); [|apply groupby_spec].
  unfold groupby. apply @StronglySorted_merge_sort.
  - intros g1 g2 g3. apply key_leb_trans.
  - intros g1 g2. apply key_leb_total.
Qed.

Section Sorted.

Context {ar : Arith}.

Lemma daily_of_sorted f : StronglySorted daily_lt (daily_of f).
Proof.
  unfold daily_of.
  eapply StronglySorted_fmap; [|apply groupby_sorted].
  intros [[d1 m1] xs1] [[d2 m2] xs2] [Hle Hne].
  apply (key_leb_strict (d1, m1) (d2, m2) Hle Hne).
Qed.

Lemma transform_daily_metrics_inv f w w' daily :
  transform_daily_metrics f w = (w', Ok daily) →
  w' = w ∧ daily = mkDailyFrame daily_columns (daily_of f).
Proof.
  unfold transform_daily_metrics.
  intros (w1 & i1 & (-> & _ & ->)%getitem_inv & H)%bind_inv.
  apply bind_inv in H as (w2 & i2 & (-> & _ & ->)%getitem_inv & H).
  apply bind_inv in H as (w3 & i3 & (-> & _ & ->)%getitem_inv & H).
  by injection H as <- <-.
Qed.

(** X10.  The daily rows come out in ascending order of date and, within
    a date, of merchant identifier, no two rows sharing both (groupby
    sorts its keys), whatever the order of the transactions. *)
Theorem transform_daily_metrics_sorted f w w' daily :
  transform_daily_metrics f w = (w', Ok daily) →
  StronglySorted daily_lt (drows daily).
Proof.
  intros [_ ->]%transform_daily_metrics_inv. apply daily_of_sorted.
Qed.

End Sorted.

(** ** Sums over the groups *)

Lemma sum_list_groups {A} (c : A → nat) (G : list (list A)) :
  sum_list ((λ xs, sum_list (c <$> xs)) <$> G) = sum_list (c <$> mjoin G).
Proof.
  induction G as [|xs G IH]; [done|].
  rewrite fmap_cons. cbn [mjoin list_join]. rewrite fmap_app.
  rewrite sum_list_with_app. cbn [sum_list_with]. by rewrite IH.
Qed.

Lemma sum_list_Permutation (l k : list nat) : l ≡ₚ k → sum_list l = sum_list k.
Proof. intros Hp. by rewrite Hp. Qed.

(** [count] as a sum of indicators. *)
Lemma count_sum_list {A} (c : A → cell) (xs : list A) :
  count (c <$> xs) = sum_list ((λ x, if decide (is_Some (c x)) then 1 else 0) <$> xs).
Proof.
  unfold count. induction xs as [|x xs IH]; [done|].
  rewrite !fmap_cons, filter_cons. cbn [sum_list_with].
  case_decide; cbn [length]; unfold id; cbn [Nat.add]; [f_equal|]; exact IH.
Qed.

Lemma sum_list_indicator {A} (P : A → Prop) `{∀ x, Decision (P x)} (xs : list A) :
  sum_list ((λ x, if decide (P x) then 1 else 0) <$> xs) = length (filter P xs).
Proof.
  induction xs as [|x xs IH]; [done|].
  rewrite fmap_cons, filter_cons. cbn [sum_list_with].
  case_decide; cbn [length]; rewrite IH; unfold id; lia.
Qed.

(** On a cleaned table every row has a group. *)
Lemma groupby_join_cleaned f :
  cleaned f →
  mjoin (groupby (group_key (pos "merchant_id" (tcolumns f)))
           (enrich (pos "status" (tcolumns f)) <$> trows f)).*2
  ≡ₚ enrich (pos "status" (tcolumns f)) <$> trows f.
Proof.
  intros [_ Hrows]. rewrite groupby_groups, groups_join.
  rewrite filter_all; [done|].
  apply Forall_fmap. eapply Forall_impl; [exact Hrows|].
  intros x (_ & _ & [ts Hts] & [m Hm]). cbn.
  unfold group_key, enrich. cbn. unfold field_of in Hm. by rewrite Hts, Hm.
Qed.

Section Totals.

Context {ar : Arith}.

Lemma daily_of_totals f :
  cleaned f →
  sum_list (txn_count <$> daily_of f) = length (filter (has_id f) (trows f))
  ∧ sum_list (approved_txn_count <$> daily_of f)
    = length (filter (λ x, status_of f x = Some "APPROVED") (trows f))
  ∧ sum_list (declined_txn_count <$> daily_of f)
    = length (filter (λ x, status_of f x = Some "DECLINED") (trows f)).
Proof.
  intros Hf. pose proof (groupby_join_cleaned f Hf) as Hjoin.
  unfold daily_of. set (E := enrich (pos "status" (tcolumns f)) <$> trows f) in *.
  set (G := groupby _ E) in *. rewrite <-!list_fmap_compose.
  set (c := λ e, iat (cells (e_txn e)) (pos "transaction_id" (tcolumns f))).
  split_and!.
  - trans (sum_list ((λ xs, sum_list ((λ e, if decide (is_Some (c e)) then 1 else 0)
                                        <$> xs)) <$> G.*2)).
    { rewrite <-list_fmap_compose. f_equal. apply list_fmap_ext.
      intros _ g _. cbn. apply (count_sum_list c). }
    rewrite sum_list_groups,
      (sum_list_Permutation _ ((λ e, if decide (is_Some (c e)) then 1 else 0) <$> E)).
    + unfold E. rewrite <-list_fmap_compose.
      apply (sum_list_indicator (has_id f)).
    + by rewrite Hjoin.
  - trans (sum_list ((λ xs, sum_list (e_is_approved <$> xs)) <$> G.*2)).
    { by rewrite <-list_fmap_compose. }
    rewrite sum_list_groups, (sum_list_Permutation _ (e_is_approved <$> E)).
    + unfold E. rewrite <-list_fmap_compose. apply (sum_eq_int_length f).
    + by rewrite Hjoin.
  - trans (sum_list ((λ xs, sum_list (e_is_declined <$> xs)) <$> G.*2)).
    { by rewrite <-list_fmap_compose. }
    rewrite sum_list_groups, (sum_list_Permutation _ (e_is_declined <$> E)).
    + unfold E. rewrite <-list_fmap_compose. apply (sum_eq_int_length f).
    + by rewrite Hjoin.
Qed.

Lemma length_daily_of f : (length (daily_of f) ≤ length (trows f))%nat.
Proof.
  unfold daily_of. rewrite length_fmap, groupby_groups.
  etrans; [apply length_groups|]. by rewrite length_fmap.
Qed.

End Totals.

Lemma statuses_partition f :
  cleaned f →
  length (filter (λ x, status_of f x = Some "APPROVED") (trows f))
  + length (filter (λ x, status_of f x = Some "DECLINED") (trows f))
  = length (trows f).
Proof.
  intros [_ Hall]. apply status_partition.
  eapply Forall_impl; [exact Hall|]. by intros x (? & _).
Qed.

Section TransformMore.

Context {ar : Arith} {sv : Server}.
Context (to_numeric : string → option Qc).
Context (to_datetime : string → option Timestamp).

(** X11.  Nothing is lost or counted twice by the grouping: over the
    daily rows the approved and the declined counts add up to the
    numbers of APPROVED and of DECLINED rows of the cleaned table, and
    together to the Valid counter; the transaction counts add up to the
    number of cleaned rows that carry a transaction identifier, which is
    the Valid counter when every row carries one; and there are no more
    daily rows than valid transactions. *)
Theorem transform_daily_metrics_totals w lm lt t w' clean stats :
  lm ≠ lt → store w !! lt = Some t →
  validate_and_clean to_numeric to_datetime lm lt w = (w', Ok (clean, stats)) →
  ∃ daily,
    transform_daily_metrics clean w' = (w', Ok daily)
    ∧ sum_list (txn_count <$> drows daily)
      = length (filter (has_id clean) (trows clean))
    ∧ sum_list (approved_txn_count <$> drows daily)
      = length (filter (λ x, status_of clean x = Some "APPROVED") (trows clean))
    ∧ sum_list (declined_txn_count <$> drows daily)
      = length (filter (λ x, status_of clean x = Some "DECLINED") (trows clean))
    ∧ sum_list (approved_txn_count <$> drows daily)
      + sum_list (declined_txn_count <$> drows daily) = txns_valid stats
    ∧ (identified clean →
       sum_list (txn_count <$> drows daily) = txns_valid stats)
    ∧ (length (drows daily) ≤ txns_valid stats)%nat.
Proof.
  intros Hne Ht Hrun.
  pose proof (validate_and_clean_cleaned _ _ _ _ _ _ _ _ _ Hne Ht Hrun) as Hc.
  assert (txns_valid stats = length (trows clean)) as Hvalid.
  { by destruct (validate_and_clean_result _ _ _ _ _ _ _ _ _ Hne Ht Hrun)
      as (m & _ & _ & _ & _ & -> & ->). }
  eexists. split; [by apply transform_daily_metrics_ok|]. cbn [drows].
  destruct (daily_of_totals clean Hc) as (H1 & H2 & H3).
  rewrite Hvalid. split_and!; try done.
  - rewrite H2, H3. by apply statuses_partition.
  - intros Hid. rewrite H1. f_equal. by apply filter_all.
  - apply length_daily_of.
Qed.

(** X12.  On object columns, as read_csv(dtype=str) returns them before
    pandas 3.0, no cell is missing once trimmed (a missing field has
    become the text nan), so every row of the cleaned table carries a
    transaction identifier; then in every daily row the transaction
    count is the number of rows of its group, it is positive, and the
    approved and the declined counts add up to it. *)
Theorem transform_daily_metrics_on_object_columns w lm lt t w' clean stats :
  lm ≠ lt → store w !! lt = Some t → dtype t = object_dtype → rectangular t →
  validate_and_clean to_numeric to_datetime lm lt w = (w', Ok (clean, stats)) →
  identified clean
  ∧ ∃ daily,
      transform_daily_metrics clean w' = (w', Ok daily)
      ∧ ∀ r, r ∈ drows daily →
             txn_count r
             = length (group_of clean (metric_date r) (merchant_id r))
             ∧ (0 < txn_count r)%nat
             ∧ approved_txn_count r + declined_txn_count r = txn_count r.
Proof.
  intros Hne Ht Hd Hrect Hrun.
  pose proof (validate_and_clean_cleaned _ _ _ _ _ _ _ _ _ Hne Ht Hrun) as Hc.
  pose proof (validate_and_clean_identified _ _ _ _ _ _ _ _ _ Hne Ht Hd Hrect Hrun)
    as Hid.
  split; [done|].
  eexists. split; [by apply transform_daily_metrics_ok|]. cbn [drows].
  intros r (d & m & Hg & ->)%(daily_rows_spec clean).
  cbn [spec_daily_row txn_count approved_txn_count declined_txn_count metric_date
       merchant_id].
  rewrite group_of_identified by done. split_and!; [done| |by apply group_of_statuses].
  destruct (group_of clean d m); [done|]. cbn [length]. lia.
Qed.

End TransformMore.

Lemma example_clean_cleaned : cleaned example_clean.
Proof.
  apply (validate_and_clean_cleaned sample_to_numeric sample_to_datetime
           example_world 0 1 example_transactions example_validated.1
           example_clean example_stats);
    [lia|reflexivity|exact example_validated_eq].
Defined.

Lemma transform_daily_metrics_sorted_witness :
  ∃ daily,
    transform_daily_metrics (ar := exact_arith) example_clean example_world
    = (example_world, Ok daily)
    ∧ StronglySorted daily_lt (drows daily).
Proof.
  pose proof (transform_daily_metrics_ok (ar := exact_arith) example_clean
                example_world example_clean_cleaned) as Hrun.
  eexists. split; [exact Hrun|].
  exact (transform_daily_metrics_sorted _ _ _ _ Hrun).
Defined.

Lemma transform_daily_metrics_totals_witness :
  (0 ≠ 1 ∧ store example_world !! 1 = Some example_transactions)
  ∧ ∃ daily,
      transform_daily_metrics (ar := exact_arith) example_clean example_validated.1
        = (example_validated.1, Ok daily)
      ∧ sum_list (approved_txn_count <$> drows daily)
        + sum_list (declined_txn_count <$> drows daily) = txns_valid example_stats
      ∧ sum_list (txn_count <$> drows daily) = txns_valid example_stats.
Proof.
  assert (0 ≠ 1) as Hne by lia.
  assert (store example_world !! 1 = Some example_transactions) as Ht by reflexivity.
  split; [exact (conj Hne Ht)|].
  destruct (transform_daily_metrics_totals (ar := exact_arith) sample_to_numeric
              sample_to_datetime example_world 0 1 example_transactions
              example_validated.1 example_clean example_stats
              Hne Ht example_validated_eq)
    as (daily & Hrun & _ & _ & _ & Hsum & Hcount & _).
  exists daily. exact (conj Hrun (conj Hsum (Hcount example_identified))).
Defined.

Lemma transform_daily_metrics_on_object_columns_witness :
  (0 ≠ 1 ∧ store example_world !! 1 = Some example_transactions
   ∧ dtype example_transactions = object_dtype
   ∧ rectangular example_transactions)
  ∧ identified example_clean
  ∧ ∃ daily,
      transform_daily_metrics (ar := exact_arith) example_clean example_validated.1
        = (example_validated.1, Ok daily)
      ∧ ∀ r, r ∈ drows daily →
             (0 < txn_count r)%nat
             ∧ approved_txn_count r + declined_txn_count r = txn_count r.
Proof.
  assert (0 ≠ 1) as Hne by lia.
  assert (store example_world !! 1 = Some example_transactions) as Ht by reflexivity.
  split; [exact (conj Hne (conj Ht (conj eq_refl example_rectangular)))|].
  destruct (transform_daily_metrics_on_object_columns (ar := exact_arith)
              sample_to_numeric
              sample_to_datetime example_world 0 1 example_transactions
              example_validated.1 example_clean example_stats
              Hne Ht eq_refl example_rectangular example_validated_eq)
    as (Hid & daily & Hrun & Hall).
  split; [exact Hid|].
  exists daily. split; [exact Hrun|].
  intros r Hr. destruct (Hall r Hr) as (_ & H1 & H2). exact (conj H1 H2).
Defined.

(** ** Load: what one MERGE writes *)

Section UpsertEffect.

Context {K V R : Type} `{Countable K}.
Context (key : R → K) (mk : R → option V → V).
Context (merge : gmap K V → R → gmap K V).
Hypothesis merge_eq : ∀ m r, merge m r = <[key r := mk r (m !! key r)]> m.

Lemma foldl_merge_lookup (m : gmap K V) rs r :
  NoDup (key <$> rs) → r ∈ rs →
  foldl merge m rs !! key r = Some (mk r (m !! key r)).
Proof.
  revert m. induction rs as [|r0 rs IH]; intros m; [by intros _ ?%not_elem_of_nil|].
  rewrite fmap_cons, NoDup_cons. intros [Hnin Hnd] [->|Hin]%elem_of_cons;
    cbn [foldl].
  - rewrite (foldl_merge_other key mk merge merge_eq) by done.
    by rewrite merge_eq, lookup_insert_eq.
  - rewrite IH by done. rewrite merge_eq, lookup_insert_ne; [done|].
    intros Heq. apply Hnin. rewrite Heq. by apply list_elem_of_fmap_2.
Qed.

Lemma foldl_merge_dom_eq (m : gmap K V) rs :
  dom (foldl merge m rs) = dom m ∪ list_to_set (key <$> rs).
Proof.
  revert m. induction rs as [|r rs IH]; intros m; cbn [foldl].
  - rewrite fmap_nil. set_solver.
  - rewrite IH, merge_eq, dom_insert_L, fmap_cons. set_solver.
Qed.

End UpsertEffect.

Section UpsertKeeps.

Context {K V R T : Type} `{Countable K}.
Context (key : R → K) (mk : R → option V → V).
Context (merge : gmap K V → R → gmap K V).
Hypothesis merge_eq : ∀ m r, merge m r = <[key r := mk r (m !! key r)]> m.
(** A column that MERGE leaves alone on UPDATE. *)
Context (stamp : V → T).
Hypothesis mk_stamp : ∀ r v, stamp (mk r (Some v)) = stamp v.

Lemma foldl_merge_keeps (m : gmap K V) rs k v :
  m !! k = Some v →
  ∃ v', foldl merge m rs !! k = Some v' ∧ stamp v' = stamp v.
Proof.
  revert m v. induction rs as [|r rs IH]; intros m v Hk; cbn [foldl]; [by exists v|].
  destruct (decide (key r = k)) as [<-|Hne].
  - destruct (IH (merge m r) (mk r (Some v))) as (v' & Hv' & Hst).
    { by rewrite merge_eq, lookup_insert_eq, Hk. }
    exists v'. split; [done|]. by rewrite Hst, mk_stamp.
  - apply IH. by rewrite merge_eq, lookup_insert_ne.
Qed.

End UpsertKeeps.

Lemma merge_merchant_lookup now dim staged r :
  NoDup (sm_merchant_id <$> staged) → r ∈ staged →
  foldl (merge_merchant now) dim staged !! sm_merchant_id r
  = Some (mkDimMerchant (sm_merchant_name r) (sm_category r) (sm_city r)
            (sm_state r)
            (match dim !! sm_merchant_id r with
             | Some old => created_at_utc old
             | None => now
             end)).
Proof.
  apply (foldl_merge_lookup sm_merchant_id
           (λ r o, mkDimMerchant (sm_merchant_name r) (sm_category r) (sm_city r)
                     (sm_state r)
                     (match o with Some old => created_at_utc old | None => now end))
           (merge_merchant now) (λ _ _, eq_refl)).
Qed.

Lemma merge_merchant_other now dim staged id :
  id ∉ sm_merchant_id <$> staged →
  foldl (merge_merchant now) dim staged !! id = dim !! id.
Proof.
  apply (foldl_merge_other sm_merchant_id
           (λ r o, mkDimMerchant (sm_merchant_name r) (sm_category r) (sm_city r)
                     (sm_state r)
                     (match o with Some old => created_at_utc old | None => now end))
           (merge_merchant now) (λ _ _, eq_refl)).
Qed.

Lemma merge_merchant_dom now dim staged :
  dom (foldl (merge_merchant now) dim staged)
  = dom dim ∪ list_to_set (sm_merchant_id <$> staged).
Proof.
  apply (foldl_merge_dom_eq sm_merchant_id
           (λ r o, mkDimMerchant (sm_merchant_name r) (sm_category r) (sm_city r)
                     (sm_state r)
                     (match o with Some old => created_at_utc old | None => now end))
           (merge_merchant now) (λ _ _, eq_refl)).
Qed.

Lemma merge_merchant_keeps now dim staged id old :
  dim !! id = Some old →
  ∃ new, foldl (merge_merchant now) dim staged !! id = Some new
         ∧ created_at_utc new = created_at_utc old.
Proof.
  apply (foldl_merge_keeps sm_merchant_id
           (λ r o, mkDimMerchant (sm_merchant_name r) (sm_category r) (sm_city r)
                     (sm_state r)
                     (match o with Some old => created_at_utc old | None => now end))
           (merge_merchant now) (λ _ _, eq_refl) created_at_utc (λ _ _, eq_refl)).
Qed.

Lemma merge_daily_lookup now fact staged r :
  NoDup ((λ r, (sd_metric_date r, sd_merchant_id r)) <$> staged) → r ∈ staged →
  foldl (merge_daily now) fact staged !! (sd_metric_date r, sd_merchant_id r)
  = Some (fact_of now r (fact !! (sd_metric_date r, sd_merchant_id r))).
Proof.
  apply (foldl_merge_lookup (λ r, (sd_metric_date r, sd_merchant_id r))
           (fact_of now) (merge_daily now) (λ _ _, eq_refl)).
Qed.

Lemma merge_daily_other now fact staged k :
  k ∉ (λ r, (sd_metric_date r, sd_merchant_id r)) <$> staged →
  foldl (merge_daily now) fact staged !! k = fact !! k.
Proof.
  apply (foldl_merge_other (λ r, (sd_metric_date r, sd_merchant_id r))
           (fact_of now) (merge_daily now) (λ _ _, eq_refl)).
Qed.

Lemma merge_daily_dom now fact staged :
  dom (foldl (merge_daily now) fact staged)
  = dom fact ∪ list_to_set ((λ r, (sd_metric_date r, sd_merchant_id r)) <$> staged).
Proof.
  apply (foldl_merge_dom_eq (λ r, (sd_metric_date r, sd_merchant_id r))
           (fact_of now) (merge_daily now) (λ _ _, eq_refl)).
Qed.

Lemma merge_daily_keeps now fact staged k old :
  fact !! k = Some old →
  ∃ new, foldl (merge_daily now) fact staged !! k = Some new
         ∧ loaded_at_utc new = loaded_at_utc old.
Proof.
  apply (foldl_merge_keeps (λ r, (sd_metric_date r, sd_merchant_id r))
           (fact_of now) (merge_daily now) (λ _ _, eq_refl) loaded_at_utc
           (λ _ _, eq_refl)).
Qed.

(** ** The staged rows *)

Section StagedRows.

Context {sv : Server}.

Lemma stg_merchant_of_fields df row r :
  stg_merchant_of (selected df row <$> sink_merchant_columns) = Some r →
  selected df row "merchant_id" = Some (sm_merchant_id r)
  ∧ selected df row "merchant_name" = Some (sm_merchant_name r)
  ∧ selected df row "category" = sm_category r
  ∧ selected df row "city" = sm_city r
  ∧ selected df row "state" = sm_state r.
Proof.
  unfold sink_merchant_columns. cbn [fmap list_fmap stg_merchant_of].
  destruct (selected df row "merchant_id"); [|done].
  destruct (selected df row "merchant_name"); [|done].
  destruct (_ && _); [|done]. by intros [= <-].
Qed.

Lemma stg_merchant_of_stageable df row :
  is_Some (stg_merchant_of (selected df row <$> sink_merchant_columns))
  ↔ stageable_merchant df row.
Proof.
  unfold sink_merchant_columns, stageable_merchant.
  cbn [fmap list_fmap stg_merchant_of].
  destruct (selected df row "merchant_id") as [mid|];
    [|split; [by intros [? ?]|by intros [(? & ? & _) _]]].
  destruct (selected df row "merchant_name") as [name|];
    [|split; [by intros [? ?]|by intros (_ & (? & ? & _) & _)]].
  destruct (varchar 64 mid) eqn:H1, (varchar 255 name) eqn:H2,
    (varchar_null 100 (selected df row "category")) eqn:H3,
    (varchar_null 100 (selected df row "city")) eqn:H4,
    (varchar_null 50 (selected df row "state")) eqn:H5; cbn [andb];
    (split; [intros [? ?]; try done|
             intros ((? & [= <-] & ?) & (? & [= <-] & ?) & ? & ? & ?)]);
    rewrite ?H1, ?H2 in *; try done.
  split_and!; by eauto.
Qed.

Lemma staged_merchants_rows df staged :
  staged_merchants df = Some staged →
  Forall2 (λ row r,
    selected df row "merchant_id" = Some (sm_merchant_id r)
    ∧ selected df row "merchant_name" = Some (sm_merchant_name r)
    ∧ selected df row "category" = sm_category r
    ∧ selected df row "city" = sm_city r
    ∧ selected df row "state" = sm_state r) (data df) staged.
Proof.
  unfold staged_merchants, select_columns. intros Hstaged%mapM_Some.
  apply Forall2_fmap_l in Hstaged.
  eapply Forall2_impl; [exact Hstaged|].
  intros row r. apply stg_merchant_of_fields.
Qed.

(** The staging INSERT of merchants is accepted exactly when every row
    is. *)
Lemma staged_merchants_is_Some df :
  is_Some (staged_merchants df) ↔ Forall (stageable_merchant df) (data df).
Proof.
  unfold staged_merchants, select_columns.
  rewrite mapM_is_Some, Forall_fmap. apply Forall_iff. intros row.
  apply stg_merchant_of_stageable.
Qed.

Lemma staged_merchants_None df :
  staged_merchants df = None ↔ ∃ row, row ∈ data df ∧ ¬ stageable_merchant df row.
Proof.
  rewrite eq_None_not_Some. unfold staged_merchants, select_columns.
  rewrite mapM_is_Some, Forall_fmap. split.
  - intros Hn. apply not_Forall_Exists in Hn; [|intros row; apply _].
    apply Exists_exists in Hn as (row & Hrow & Hn). exists row. split; [done|].
    intros Hs. apply Hn. by apply stg_merchant_of_stageable.
  - intros (row & Hrow & Hn) Hall. rewrite Forall_forall in Hall.
    apply Hn, stg_merchant_of_stageable. by apply Hall.
Qed.

Lemma stg_daily_of_staged_as r s : stg_daily_of r = Some s → staged_as r s.
Proof.
  unfold stg_daily_of, staged_as. destruct (_ && _); [|done].
  destruct (decimal_not_null 18 2 (gross_amount r)); [|done].
  destruct (decimal_not_null 18 2 (approved_amount r)); [|done].
  destruct (decimal_not_null 9 4 (approval_rate r)); [|done].
  destruct (decimal_not_null 18 2 (avg_ticket r)); [|done].
  by intros [= <-].
Qed.

Lemma stg_daily_of_stageable r : is_Some (stg_daily_of r) ↔ stageable_daily r.
Proof.
  unfold stg_daily_of, stageable_daily.
  destruct (varchar 64 (merchant_id r)), (int (txn_count r)),
    (int (approved_txn_count r)), (int (declined_txn_count r)); cbn [andb];
    try (split; [by intros [? ?]|by intros (? & ? & ? & ? & _)]).
  destruct (decimal_not_null 18 2 (gross_amount r));
    [|split; [by intros [? ?]|by intros (_ & _ & _ & _ & [? ?] & _)]].
  destruct (decimal_not_null 18 2 (approved_amount r));
    [|split; [by intros [? ?]|by intros (_ & _ & _ & _ & _ & [? ?] & _)]].
  destruct (decimal_not_null 9 4 (approval_rate r));
    [|split; [by intros [? ?]|by intros (_ & _ & _ & _ & _ & _ & [? ?] & _)]].
  destruct (decimal_not_null 18 2 (avg_ticket r));
    [|split; [by intros [? ?]|by intros (_ & _ & _ & _ & _ & _ & _ & [? ?])]].
  split; [intros _; by split_and!|by eexists].
Qed.

Lemma staged_daily_rows rows (staged : list StgDaily) :
  mapM stg_daily_of rows = Some staged → Forall2 staged_as rows staged.
Proof.
  intros Hstaged%mapM_Some. eapply Forall2_impl; [exact Hstaged|].
  apply stg_daily_of_staged_as.
Qed.

Lemma staged_daily_None rows :
  mapM stg_daily_of rows = None ↔ ∃ r, r ∈ rows ∧ ¬ stageable_daily r.
Proof.
  rewrite eq_None_not_Some, mapM_is_Some. split.
  - intros Hn. apply not_Forall_Exists in Hn; [|intros r; apply _].
    apply Exists_exists in Hn as (r & Hr & Hn). exists r. split; [done|].
    intros Hs. apply Hn. by apply stg_daily_of_stageable.
  - intros (r & Hr & Hn) Hall. rewrite Forall_forall in Hall.
    apply Hn, stg_daily_of_stageable. by apply Hall.
Qed.
(** X13.  A load of merchants that returns has upserted every staged
    row: its identifier now maps to the staged name, category, city and
    state, with the creation time of the row it replaced or the clock of
    this load for a new row; every other merchant is as it was, the fact
    table and the frames are untouched, the staging table is dropped,
    and the count returned is the number of rows of the frame. *)
Theorem load_merchants_upserts now l w df w' n :
  store w !! l = Some df →
  load_merchants now l w = (w', Ok n) →
  ∃ staged,
    staged_merchants df = Some staged
    ∧ n = len df ∧ length staged = len df
    ∧ store w' = store w
    ∧ fact_daily_merchant_metrics (db w') = fact_daily_merchant_metrics (db w)
    ∧ stg_merchants (db w') = None
    ∧ stg_daily_metrics (db w') = stg_daily_metrics (db w)
    ∧ (∀ r, r ∈ staged →
         dim_merchants (db w') !! sm_merchant_id r
         = Some (mkDimMerchant (sm_merchant_name r) (sm_category r) (sm_city r)
                   (sm_state r)
                   (match dim_merchants (db w) !! sm_merchant_id r with
                    | Some old => created_at_utc old
                    | None => now
                    end)))
    ∧ (∀ id, id ∉ sm_merchant_id <$> staged →
         dim_merchants (db w') !! id = dim_merchants (db w) !! id).
Proof.
  intros Hl. rewrite (load_merchants_run _ _ _ _ Hl). unfold load_merchants_db.
  destruct (staged_merchants df) as [staged|] eqn:Hstaged; [|done].
  case_decide as Hnd; [|done]. cbn [fst snd]. intros [= <- <-].
  exists staged. cbn [store db dim_merchants fact_daily_merchant_metrics
                      stg_merchants stg_daily_metrics].
  split_and!; try done.
  - unfold staged_merchants in Hstaged. apply length_mapM in Hstaged.
    by rewrite <-Hstaged, length_select_columns.
  - intros r Hr. by apply merge_merchant_lookup.
  - intros id Hid. by apply merge_merchant_other.
Qed.

(** X14.  A load of merchants that raises has changed neither table.
    It fails either in the staging INSERT, on a row the staging table
    does not accept (no identifier, no name, or a text longer than its
    VARCHAR column), or in the MERGE, on two rows with one identifier;
    in both cases dim_merchants, the fact table and the frames are as
    before, and only the staging table is left behind, since its DROP
    sits in the transaction that was rolled back. *)
Theorem load_merchants_failure now l w df w' e :
  store w !! l = Some df →
  load_merchants now l w = (w', Raise e) →
  store w' = store w
  ∧ dim_merchants (db w') = dim_merchants (db w)
  ∧ fact_daily_merchant_metrics (db w') = fact_daily_merchant_metrics (db w)
  ∧ stg_daily_metrics (db w') = stg_daily_metrics (db w)
  ∧ (((∃ row, row ∈ data df ∧ ¬ stageable_merchant df row)
      ∧ e = DBAPIError "stg_merchants"
      ∧ stg_merchants (db w') = Some [])
     ∨ (∃ staged,
          staged_merchants df = Some staged
          ∧ ¬ NoDup (sm_merchant_id <$> staged)
          ∧ e = DBAPIError "dim_merchants"
          ∧ stg_merchants (db w') = Some staged)).
Proof.
  intros Hl. rewrite (load_merchants_run _ _ _ _ Hl). unfold load_merchants_db.
  destruct (staged_merchants df) as [staged|] eqn:Hstaged.
  - case_decide as Hnd; [done|]. cbn [fst snd]. intros [= <- <-].
    split_and!; try done. right. by exists staged.
  - cbn [fst snd]. intros [= <- <-]. split_and!; try done. left.
    split; [by apply staged_merchants_None|done].
Qed.

(** X15.  An upsert of facts that returns has written every daily row
    under its (date, merchant) key: the three counts as they are and
    the two amounts, the rate and the average ticket as the
    DECIMAL(18,2) and DECIMAL(9,4) columns store them, with the load
    time of the row it replaced or the clock of this upsert for a new
    row; every inserted row names a merchant of dim_merchants; every
    other fact row is as it was, dim_merchants and the frames are
    untouched, the staging table is dropped, and the count returned is
    the number of daily rows. *)
Theorem upsert_facts_upserts now daily w w' n :
  upsert_facts now daily w = (w', Ok n) →
  ∃ staged : list StgDaily,
    Forall2 staged_as (drows daily) staged
    ∧ n = length (drows daily)
    ∧ store w' = store w
    ∧ dim_merchants (db w') = dim_merchants (db w)
    ∧ stg_merchants (db w') = stg_merchants (db w)
    ∧ stg_daily_metrics (db w') = None
    ∧ (∀ r, r ∈ staged →
         fact_daily_merchant_metrics (db w') !! (sd_metric_date r, sd_merchant_id r)
         = Some (mkFactDaily (sd_txn_count r) (sd_approved_txn_count r)
                   (sd_declined_txn_count r) (sd_gross_amount r)
                   (sd_approved_amount r) (sd_approval_rate r) (sd_avg_ticket r)
                   (match fact_daily_merchant_metrics (db w)
                            !! (sd_metric_date r, sd_merchant_id r) with
                    | Some old => loaded_at_utc old
                    | None => now
                    end))
         ∧ ((sd_metric_date r, sd_merchant_id r)
              ∈ dom (fact_daily_merchant_metrics (db w))
            ∨ sd_merchant_id r ∈ dom (dim_merchants (db w))))
    ∧ (∀ k, k ∉ (λ r, (metric_date r, merchant_id r)) <$> drows daily →
         fact_daily_merchant_metrics (db w') !! k
         = fact_daily_merchant_metrics (db w) !! k).
Proof.
  rewrite upsert_facts_run. unfold upsert_facts_db.
  destruct (mapM stg_daily_of (drows daily)) as [staged|] eqn:Hstaged; [|done].
  case_decide as Hok; [|done]. destruct Hok as [Hnd Hfk].
  cbn [fst snd]. intros [= <- <-].
  exists staged. cbn [store db dim_merchants fact_daily_merchant_metrics
                      stg_merchants stg_daily_metrics].
  split_and!; try done.
  - by apply staged_daily_rows.
  - intros r Hr. split; [by apply merge_daily_lookup|].
    rewrite Forall_forall in Hfk. by apply Hfk.
  - intros k Hk. apply merge_daily_other.
    assert ((λ s, (sd_metric_date s, sd_merchant_id s)) <$> staged
            = (λ r, (metric_date r, merchant_id r)) <$> drows daily) as ->; [|done].
    symmetry. apply list_eq_Forall2, Forall2_fmap.
    eapply Forall2_impl; [exact (staged_daily_rows _ _ Hstaged)|].
    by intros r s (-> & -> & _).
Qed.

(** X16.  An upsert of facts that raises has changed neither table.
    It fails either in the staging INSERT, on a daily row the staging
    table does not accept (an identifier longer than VARCHAR(64), a
    count beyond INT, or a number that is NaN, infinite or outside its
    DECIMAL column), or in the MERGE, on two rows with one key or on a
    new row whose merchant is not in dim_merchants; nothing of the batch
    is written, and the staging table is left behind. *)
Theorem upsert_facts_failure now daily w w' e :
  upsert_facts now daily w = (w', Raise e) →
  store w' = store w
  ∧ dim_merchants (db w') = dim_merchants (db w)
  ∧ fact_daily_merchant_metrics (db w') = fact_daily_merchant_metrics (db w)
  ∧ stg_merchants (db w') = stg_merchants (db w)
  ∧ (((∃ r, r ∈ drows daily ∧ ¬ stageable_daily r)
      ∧ e = DBAPIError "stg_daily_metrics"
      ∧ stg_daily_metrics (db w') = Some [])
     ∨ (∃ staged : list StgDaily,
          Forall2 staged_as (drows daily) staged
          ∧ (¬ NoDup ((λ r, (metric_date r, merchant_id r)) <$> drows daily)
             ∨ (∃ r, r ∈ drows daily
                     ∧ ((metric_date r, merchant_id r)
                          ∉ dom (fact_daily_merchant_metrics (db w)))
                     ∧ merchant_id r ∉ dom (dim_merchants (db w))))
          ∧ e = DBAPIError "fact_daily_merchant_metrics"
          ∧ stg_daily_metrics (db w') = Some staged)).
Proof.
  rewrite upsert_facts_run. unfold upsert_facts_db.
  destruct (mapM stg_daily_of (drows daily)) as [staged|] eqn:Hstaged.
  - pose proof (staged_daily_rows _ _ Hstaged) as Hrows.
    assert ((λ s, (sd_metric_date s, sd_merchant_id s)) <$> staged
            = (λ r, (metric_date r, merchant_id r)) <$> drows daily) as Hkeys.
    { symmetry. apply list_eq_Forall2, Forall2_fmap.
      eapply Forall2_impl; [exact Hrows|]. by intros r s (-> & -> & _). }
    case_decide as Hok; [done|]. cbn [fst snd]. intros [= <- <-].
    split_and!; try done. right. exists staged. split_and!; try done.
    apply not_and_l in Hok as [Hnd|Hfk]; [left; by rewrite <-Hkeys|right].
    apply not_Forall_Exists in Hfk; [|apply _].
    apply Exists_exists in Hfk as (s & Hs & Hfk).
    apply list_elem_of_lookup_1 in Hs as [i Hi].
    destruct (Forall2_lookup_r _ _ _ _ _ Hrows Hi) as (r & Hr & Has).
    destruct Has as (Hd & Hm & _). exists r.
    unfold fk_merchant, compose in Hfk. rewrite Hd, Hm in Hfk.
    split_and!; [by eapply list_elem_of_lookup_2
                |intros ?; apply Hfk; by left|intros ?; apply Hfk; by right].
  - cbn [fst snd]. intros [= <- <-]. split_and!; try done. left.
    split; [by apply staged_daily_None|done].
Qed.

End StagedRows.

(** ** The staged rows and the frames they come from *)

Lemma selected_elem df row c :
  c ∈ columns df → selected df row c = field_of (columns df) c row.
Proof. intros Hc. unfold selected, field_of. by rewrite (get_loc_elem _ _ Hc). Qed.

Lemma id_set_staged (staged : list StgMerchant) :
  id_set (Some ∘ sm_merchant_id <$> staged) = list_to_set (sm_merchant_id <$> staged).
Proof.
  unfold id_set. f_equal. induction staged as [|r staged IH]; [done|].
  rewrite !fmap_cons. cbn. by rewrite IH.
Qed.

Section StagedFrames.

Context {ar : Arith} {sv : Server}.

Lemma staged_merchants_ids df staged :
  "merchant_id" ∈ columns df → staged_merchants df = Some staged →
  column "merchant_id" df = Some ∘ sm_merchant_id <$> staged.
Proof.
  intros Hc Hstaged%staged_merchants_rows. unfold column.
  apply list_eq_Forall2, Forall2_fmap.
  eapply Forall2_impl; [exact Hstaged|].
  intros row r [Hid _]. by rewrite <-(selected_elem df row _ Hc).
Qed.

Lemma staged_daily_keys rows (staged : list StgDaily) :
  mapM stg_daily_of rows = Some staged →
  (λ s, (sd_metric_date s, sd_merchant_id s)) <$> staged
  = (λ r, (metric_date r, merchant_id r)) <$> rows.
Proof.
  intros Hstaged%staged_daily_rows. symmetry. apply list_eq_Forall2, Forall2_fmap.
  eapply Forall2_impl; [exact Hstaged|].
  by intros r s (-> & -> & _).
Qed.

Lemma staged_daily_row rows (staged : list StgDaily) r :
  mapM stg_daily_of rows = Some staged → r ∈ rows →
  ∃ s, s ∈ staged ∧ staged_as r s.
Proof.
  intros Hstaged%staged_daily_rows Hr.
  apply list_elem_of_lookup_1 in Hr as [i Hi].
  destruct (Forall2_lookup_l _ _ _ _ _ Hstaged Hi) as (s & Hs & Hof).
  exists s. split; [by eapply list_elem_of_lookup_2|done].
Qed.

Lemma daily_of_keys_NoDup f :
  NoDup ((λ r, (metric_date r, merchant_id r)) <$> daily_of f).
Proof.
  unfold daily_of. rewrite <-list_fmap_compose.
  rewrite (list_fmap_ext _ fst); [apply groupby_spec|].
  intros _ g _. apply aggregate_key.
Qed.

(** Every daily row is the row of a merchant some table row names. *)
Lemma daily_of_merchant f r :
  r ∈ daily_of f →
  ∃ x, x ∈ trows f
       ∧ field_of (tcolumns f) "merchant_id" (cells x) = Some (merchant_id r).
Proof.
  unfold daily_of. intros ([[d m] xs] & -> & Hg)%list_elem_of_fmap.
  apply groupby_spec in Hg as [-> Hne]. cbn [merchant_id aggregate fst snd].
  destruct (filter _ _) as [|e es] eqn:Hf; [done|].
  assert (e ∈ filter (λ e, group_key (pos "merchant_id" (tcolumns f)) e = Some (d, m))
                 (enrich (pos "status" (tcolumns f)) <$> trows f)) as He
    by (rewrite Hf; by left).
  apply list_elem_of_filter in He as [Hk He].
  apply list_elem_of_fmap in He as (x & -> & Hx).
  exists x. split; [done|]. by apply (group_key_enrich f x d m) in Hk as [_ ?].
Qed.

End StagedFrames.

Section CleanRowsMerchant.

Context {ar : Arith} {sv : Server}.
Context (to_numeric : string → option Qc).
Context (to_datetime : string → option Timestamp).

Lemma clean_rows_known_merchant m t x :
  x ∈ clean_rows to_numeric to_datetime m t →
  ∃ mid, field_of (columns t) "merchant_id" (cells x) = Some mid
         ∧ mid ∈ id_set (column "merchant_id" m).
Proof.
  rewrite clean_rows_accepted. intros (row & -> & Hrow)%list_elem_of_fmap.
  apply list_elem_of_filter in Hrow as [(_ & _ & _ & Hmid) _]. exact Hmid.
Qed.

(** Once the merchants are loaded, the MERGE of the daily rows of the
    cleaned table meets neither a repeated key nor an unknown
    merchant. *)
Lemma upsert_facts_db_after_load now m t s staged sdaily :
  "merchant_id" ∈ columns m →
  staged_merchants m = Some staged →
  list_to_set (sm_merchant_id <$> staged) ⊆ dom (dim_merchants s) →
  mapM stg_daily_of
    (daily_of (mkTxnFrame (columns t) (clean_rows to_numeric to_datetime m t)))
  = Some sdaily →
  upsert_facts_db now
    (daily_of (mkTxnFrame (columns t) (clean_rows to_numeric to_datetime m t))) s
  = (mkSink (dim_merchants s)
       (foldl (merge_daily now) (fact_daily_merchant_metrics s) sdaily)
       (stg_merchants s) None,
     Ok (length (daily_of (mkTxnFrame (columns t)
                             (clean_rows to_numeric to_datetime m t))))).
Proof.
  intros Hc Hstaged Hdom Hsd. unfold upsert_facts_db. rewrite Hsd.
  rewrite decide_True; [done|]. split.
  - rewrite (staged_daily_keys _ _ Hsd). apply daily_of_keys_NoDup.
  - apply Forall_forall. intros sd Hsd'. right.
    apply mapM_Some in Hsd.
    apply list_elem_of_lookup_1 in Hsd' as [i Hi].
    destruct (Forall2_lookup_r _ _ _ _ _ Hsd Hi) as (r & Hr & Hof).
    apply stg_daily_of_staged_as in Hof as (_ & -> & _).
    apply list_elem_of_lookup_2, daily_of_merchant in Hr as (x & Hx & Hmid).
    cbn [trows tcolumns] in Hx, Hmid.
    apply clean_rows_known_merchant in Hx as (mid & Hmid' & Hin).
    assert (mid = merchant_id r) as <- by congruence.
    apply Hdom. by rewrite <-id_set_staged, <-(staged_merchants_ids m staged).
Qed.

End CleanRowsMerchant.

(** ** The run: outcome, counters and the two tables *)

Section RunTables.

Context {sv : Server}.

Lemma load_merchants_db_fact now df s :
  fact_daily_merchant_metrics (load_merchants_db now df s).1
  = fact_daily_merchant_metrics s.
Proof.
  unfold load_merchants_db. destruct (staged_merchants df); [case_decide|]; done.
Qed.

Lemma load_merchants_db_raise now df s e :
  (load_merchants_db now df s).2 = Raise e →
  dim_merchants (load_merchants_db now df s).1 = dim_merchants s.
Proof.
  unfold load_merchants_db. destruct (staged_merchants df); [case_decide|]; done.
Qed.

Lemma load_merchants_db_fk now df s :
  fk_closed s → fk_closed (load_merchants_db now df s).1.
Proof.
  unfold load_merchants_db, fk_closed.
  destruct (staged_merchants df) as [staged|]; [case_decide|]; cbn; try done.
  intros Hfk k Hk. rewrite merge_merchant_dom. apply elem_of_union_l. by apply Hfk.
Qed.

Lemma upsert_facts_db_fk now rows s :
  fk_closed s → fk_closed (upsert_facts_db now rows s).1.
Proof.
  unfold upsert_facts_db, fk_closed.
  destruct (mapM stg_daily_of rows) as [staged|]; [case_decide as Hok|]; cbn;
    try done.
  destruct Hok as [_ Hall]. intros Hfk k. rewrite merge_daily_dom, elem_of_union.
  intros [Hk|Hk]; [by apply Hfk|].
  apply elem_of_list_to_set, list_elem_of_fmap in Hk as (r & -> & Hr).
  rewrite Forall_forall in Hall. destruct (Hall r Hr) as [Hin|Hin]; [|done].
  by apply Hfk in Hin.
Qed.

Lemma load_merchants_db_keeps now df s id old :
  dim_merchants s !! id = Some old →
  ∃ new, dim_merchants (load_merchants_db now df s).1 !! id = Some new
         ∧ created_at_utc new = created_at_utc old.
Proof.
  unfold load_merchants_db.
  destruct (staged_merchants df) as [staged|]; [case_decide|]; cbn;
    [apply merge_merchant_keeps|by exists old..].
Qed.

Lemma upsert_facts_db_keeps now rows s k old :
  fact_daily_merchant_metrics s !! k = Some old →
  ∃ new, fact_daily_merchant_metrics (upsert_facts_db now rows s).1 !! k = Some new
         ∧ loaded_at_utc new = loaded_at_utc old.
Proof.
  unfold upsert_facts_db.
  destruct (mapM stg_daily_of rows) as [staged|]; [case_decide|]; cbn;
    [apply merge_daily_keeps|by exists old..].
Qed.

Lemma load_merchants_db_tables now df s1 s2 :
  dim_merchants s1 = dim_merchants s2 →
  fact_daily_merchant_metrics s1 = fact_daily_merchant_metrics s2 →
  (load_merchants_db now df s1).2 = (load_merchants_db now df s2).2
  ∧ dim_merchants (load_merchants_db now df s1).1
    = dim_merchants (load_merchants_db now df s2).1
  ∧ fact_daily_merchant_metrics (load_merchants_db now df s1).1
    = fact_daily_merchant_metrics (load_merchants_db now df s2).1.
Proof.
  intros Hdim Hfact. unfold load_merchants_db.
  destruct (staged_merchants df); [case_decide|]; cbn; by rewrite ?Hdim, ?Hfact.
Qed.

Lemma upsert_facts_db_tables now rows s1 s2 :
  dim_merchants s1 = dim_merchants s2 →
  fact_daily_merchant_metrics s1 = fact_daily_merchant_metrics s2 →
  (upsert_facts_db now rows s1).2 = (upsert_facts_db now rows s2).2
  ∧ dim_merchants (upsert_facts_db now rows s1).1
    = dim_merchants (upsert_facts_db now rows s2).1
  ∧ fact_daily_merchant_metrics (upsert_facts_db now rows s1).1
    = fact_daily_merchant_metrics (upsert_facts_db now rows s2).1.
Proof.
  intros Hdim Hfact. unfold upsert_facts_db.
  destruct (mapM stg_daily_of rows) as [staged|]; [|done].
  assert (Forall (fk_merchant s1) staged ↔ Forall (fk_merchant s2) staged) as Hfk.
  { apply Forall_iff. intros r. unfold fk_merchant. by rewrite Hdim, Hfact. }
  destruct (decide (_ ∧ Forall (fk_merchant s1) staged)) as [[Hnd H1]|H1],
           (decide (_ ∧ Forall (fk_merchant s2) staged)) as [[Hnd' H2]|H2]; cbn.
  - by rewrite Hfact.
  - exfalso. apply H2. split; [done|by apply Hfk].
  - exfalso. apply H1. split; [done|by apply Hfk].
  - done.
Qed.

End RunTables.

Section RunMore.

Context {ar : Arith} {sv : Server}.
Context (to_numeric : string → option Qc).
Context (to_datetime : string → option Timestamp).

Lemma daily_of_known_merchant m t r :
  r ∈ daily_of (mkTxnFrame (columns t) (clean_rows to_numeric to_datetime m t)) →
  merchant_id r ∈ id_set (column "merchant_id" m).
Proof.
  intros (x & Hx & Hmid)%daily_of_merchant. cbn [trows tcolumns] in Hx, Hmid.
  apply clean_rows_known_merchant in Hx as (mid & Hmid' & Hin).
  by assert (mid = merchant_id r) as <- by congruence.
Qed.

(** A run that returns went through both loads. *)
Lemma run_db_inv files now s s' stats :
  run_db to_numeric to_datetime files now s = (s', Ok stats) →
  let M := normalised (merchants_csv files) in
  let T := normalised (transactions_csv files) in
  let rows :=
    daily_of (mkTxnFrame (columns T) (clean_rows to_numeric to_datetime M T)) in
  let cs := clean_stats to_numeric to_datetime (len (transactions_csv files)) M T in
  ∃ staged (sdaily : list StgDaily),
    required_merch_cols ⊆ list_to_set (strip <$> columns (merchants_csv files))
    ∧ required_txn_cols ⊆ list_to_set (strip <$> columns (transactions_csv files))
    ∧ staged_merchants M = Some staged
    ∧ NoDup (sm_merchant_id <$> staged)
    ∧ mapM stg_daily_of rows = Some sdaily
    ∧ NoDup ((λ r, (sd_metric_date r, sd_merchant_id r)) <$> sdaily)
    ∧ s' = mkSink (foldl (merge_merchant now) (dim_merchants s) staged)
             (foldl (merge_daily now) (fact_daily_merchant_metrics s) sdaily)
             None None
    ∧ stats = mkRunStats (txns_total cs) (txns_after_dedupe cs) (txns_valid cs)
                (txns_rejected cs) (len M) (length rows) (length rows).
Proof.
  unfold run_db.
  destruct (decide (required_merch_cols ⊆ _)) as [Hrm|]; [|done].
  destruct (decide (required_txn_cols ⊆ _)) as [Hrt|]; [|done]. cbv zeta.
  unfold load_merchants_db.
  destruct (staged_merchants _) as [staged|]; [|done].
  destruct (decide (NoDup (sm_merchant_id <$> staged))) as [Hnd|]; [|done].
  cbn [fst snd]. unfold upsert_facts_db.
  destruct (mapM stg_daily_of _) as [sdaily|]; [|done].
  destruct (decide (_ ∧ _)) as [[Hnd' _]|]; [|done].
  cbn [fst snd dim_merchants fact_daily_merchant_metrics stg_merchants
       stg_daily_metrics]. intros [= <- <-].
  by exists staged, sdaily.
Qed.

(** In a run the MERGE of the facts never fails: once the merchants
    are loaded and the staging table has accepted the daily rows, the
    upsert returns. *)
Lemma run_db_facts_merge files now s s1 n sdaily :
  required_merch_cols ⊆ list_to_set (strip <$> columns (merchants_csv files)) →
  let M := normalised (merchants_csv files) in
  let T := normalised (transactions_csv files) in
  let rows :=
    daily_of (mkTxnFrame (columns T) (clean_rows to_numeric to_datetime M T)) in
  load_merchants_db now M s = (s1, Ok n) →
  mapM stg_daily_of rows = Some sdaily →
  upsert_facts_db now rows s1
  = (mkSink (dim_merchants s1)
       (foldl (merge_daily now) (fact_daily_merchant_metrics s1) sdaily)
       (stg_merchants s1) None,
     Ok (length rows)).
Proof.
  intros Hrm M T rows Hload Hsd.
  destruct (load_merchants_db_ok _ _ _ _ _ Hload) as (staged & Hstaged & _ & Hs1).
  apply (upsert_facts_db_after_load _ _ now M T s1 staged sdaily); [|done| |done].
  - apply required_merch_elem; [done|set_solver].
  - rewrite Hs1, merge_merchant_dom. set_solver.
Qed.

(** X17.  When both files have the required columns, their labels
    pairwise distinct once trimmed, and each staging table accepts the
    rows sent to it, the run can fail in one way only: it returns when
    the trimmed merchant identifiers are pairwise distinct, and raises
    the database error of the MERGE into dim_merchants when two
    merchants share one.  The MERGE of the facts never fails. *)
Theorem run_succeeds_iff_merchant_ids_distinct files now s :
  let M := normalised (merchants_csv files) in
  let T := normalised (transactions_csv files) in
  let ids := column "merchant_id" M in
  NoDup (columns M) → NoDup (columns T) →
  required_merch_cols ⊆ list_to_set (strip <$> columns (merchants_csv files)) →
  required_txn_cols ⊆ list_to_set (strip <$> columns (transactions_csv files)) →
  Forall (stageable_merchant M) (data M) →
  (∀ rows, metrics to_numeric to_datetime files = Ok rows →
           Forall stageable_daily rows) →
  (NoDup ids → ∃ stats, (run to_numeric to_datetime files now s).2 = Ok stats)
  ∧ (¬ NoDup ids →
     (run to_numeric to_datetime files now s).2
     = Raise (DBAPIError "dim_merchants")).
Proof.
  intros M T ids _ _ Hrm Hrt HstM HstD. rewrite run_unfold. unfold run_db.
  rewrite !decide_True by done. cbv zeta. fold M T.
  assert ("merchant_id" ∈ columns M) as Hc
    by (apply required_merch_elem; [done|set_solver]).
  apply staged_merchants_is_Some in HstM as [staged Hstaged].
  assert (NoDup ids ↔ NoDup (sm_merchant_id <$> staged)) as Hids.
  { unfold ids. rewrite (staged_merchants_ids M staged Hc Hstaged).
    rewrite list_fmap_compose. apply (NoDup_fmap Some). }
  set (rows := daily_of (mkTxnFrame (columns T)
                           (clean_rows to_numeric to_datetime M T))).
  assert (is_Some (mapM stg_daily_of rows)) as [sdaily Hsd].
  { apply mapM_is_Some. eapply Forall_impl; [apply (HstD rows)|].
    - pose proof (metrics_unfold to_numeric to_datetime files) as Hmetrics.
      cbv zeta in Hmetrics. rewrite Hmetrics. by rewrite !decide_True.
    - intros r. apply stg_daily_of_stageable. }
  destruct (load_merchants_db now M s) as [s1 [n|e]] eqn:Hload; cbn [fst snd].
  - pose proof (run_db_facts_merge files now s s1 n sdaily Hrm Hload Hsd) as Hmerge.
    cbv zeta in Hmerge. fold M T rows in Hmerge. rewrite Hmerge.
    cbn [fst snd]. split; [by eexists|].
    intros Hn. exfalso. apply Hn, Hids.
    by destruct (load_merchants_db_ok _ _ _ _ _ Hload)
      as (staged' & [= <-]%(eq_trans (eq_sym Hstaged)) & ? & _).
  - revert Hload. unfold load_merchants_db. rewrite Hstaged.
    case_decide as Hnd; [done|]. intros [= _ <-].
    split; [by intros ?%Hids|done].
Qed.

(** X18.  A run that raises has not changed the fact table.  It has
    not changed dim_merchants either, unless it failed in the staging
    INSERT of the daily metrics: the MERGE of the merchants is committed
    before the facts are staged, so dim_merchants then holds the
    upserted merchants, and some daily row is one the staging table
    does not accept.  No other step fails after that commit. *)
Theorem run_failure_leaves_tables files now s e :
  (run to_numeric to_datetime files now s).2 = Raise e →
  let s' := (run to_numeric to_datetime files now s).1 in
  fact_daily_merchant_metrics s' = fact_daily_merchant_metrics s
  ∧ (e ≠ DBAPIError "stg_daily_metrics" → dim_merchants s' = dim_merchants s)
  ∧ (e = DBAPIError "stg_daily_metrics" →
     ∃ staged rows,
       staged_merchants (normalised (merchants_csv files)) = Some staged
       ∧ NoDup (sm_merchant_id <$> staged)
       ∧ dim_merchants s' = foldl (merge_merchant now) (dim_merchants s) staged
       ∧ metrics to_numeric to_datetime files = Ok rows
       ∧ ∃ r, r ∈ rows ∧ ¬ stageable_daily r).
Proof.
  rewrite run_unfold. unfold run_db.
  destruct (decide (required_merch_cols ⊆ _)) as [Hrm|];
    [|by intros [= <-]].
  destruct (decide (required_txn_cols ⊆ _)) as [Hrt|];
    [|by intros [= <-]]. cbv zeta.
  set (M := normalised (merchants_csv files)).
  set (T := normalised (transactions_csv files)).
  set (rows := daily_of (mkTxnFrame (columns T)
                           (clean_rows to_numeric to_datetime M T))).
  pose proof (load_merchants_db_fact now M s) as Hfact.
  pose proof (load_merchants_db_raise now M s) as Hdim.
  destruct (load_merchants_db now M s) as [s1 [n|e1]] eqn:Hload; cbn [fst snd] in *.
  - destruct (mapM stg_daily_of rows) as [sdaily|] eqn:Hsd.
    { pose proof (run_db_facts_merge files now s s1 n sdaily Hrm Hload Hsd)
        as Hmerge.
      cbv zeta in Hmerge. fold M T rows in Hmerge. by rewrite Hmerge. }
    unfold upsert_facts_db. rewrite Hsd. cbn [fst snd]. intros [= <-].
    cbn [fact_daily_merchant_metrics dim_merchants].
    split_and!; [done|done|]. intros _.
    destruct (load_merchants_db_ok _ _ _ _ _ Hload) as (staged & Hstaged & Hnd & Hs1).
    exists staged, rows. split_and!; [done|done|done| |].
    + pose proof (metrics_unfold to_numeric to_datetime files) as Hmetrics.
      cbv zeta in Hmetrics. rewrite Hmetrics. by rewrite !decide_True.
    + by apply staged_daily_None.
  - intros [= <-]. split_and!; [done|intros _; by apply (Hdim e1)|].
    intros ->. exfalso. revert Hload. unfold load_merchants_db.
    destruct (staged_merchants M); [case_decide|]; by intros [= _ ?].
Qed.

(** X19.  The counters of a run that returns: the total is the number
    of transaction rows read, dedupe can only lower it, valid and
    rejected add up to the post-dedupe count, the merchants loaded are
    the rows of the merchants file, the fact rows upserted are the daily
    rows, and there are no more daily rows than valid transactions. *)
Theorem run_stats_consistent files now s s' stats :
  run to_numeric to_datetime files now s = (s', Ok stats) →
  txns_total stats = len (transactions_csv files)
  ∧ (txns_after_dedupe stats ≤ txns_total stats)%nat
  ∧ txns_valid stats + txns_rejected stats = txns_after_dedupe stats
  ∧ merchants_loaded stats = len (merchants_csv files)
  ∧ fact_rows_upserted stats = daily_rows stats
  ∧ (daily_rows stats ≤ txns_valid stats)%nat.
Proof.
  rewrite run_unfold. intros Hrun.
  destruct (run_db_inv _ _ _ _ _ Hrun) as (staged & sdaily & _ & _ & _ & _ & _ & _ & _ & ->).
  unfold clean_stats.
  cbn [txns_total txns_after_dedupe txns_valid txns_rejected merchants_loaded
       daily_rows fact_rows_upserted].
  rewrite (len_normalised (merchants_csv files)).
  set (M := normalised (merchants_csv files)).
  set (T := normalised (transactions_csv files)).
  pose proof (sublist_length _ _ (clean_rows_sublist to_numeric to_datetime M T))
    as Hvalid.
  pose proof (sublist_length _ _
                (drop_duplicates_from_sublist [] (pos "transaction_id" (columns T))
                   (data T))) as Hdedupe.
  rewrite length_fmap in Hvalid. unfold drop_duplicates in *.
  assert (length (data T) = len (transactions_csv files)) as Hlen
    by apply len_normalised.
  pose proof (length_daily_of
                (mkTxnFrame (columns T) (clean_rows to_numeric to_datetime M T)))
    as Hdaily. cbn [trows] in Hdaily.
  split_and!; try done; lia.
Qed.

(** X20.  After a run that returns, the fact table holds the computed
    metrics: every daily row of the files is stored under its (date,
    merchant) key with its three counts and with its two amounts, its
    rate and its average ticket as the DECIMAL(18,2) and DECIMAL(9,4)
    columns store them, stamped with the load time of the row it
    replaced or with the clock of this run, and names a merchant of
    dim_merchants; every other fact row is as it was. *)
Theorem run_loads_the_daily_metrics files now s s' stats :
  run to_numeric to_datetime files now s = (s', Ok stats) →
  ∃ rows,
    metrics to_numeric to_datetime files = Ok rows
    ∧ daily_rows stats = length rows
    ∧ (∀ r, r ∈ rows →
         ∃ gross approved rate avg,
           decimal_not_null 18 2 (gross_amount r) = Some gross
           ∧ decimal_not_null 18 2 (approved_amount r) = Some approved
           ∧ decimal_not_null 9 4 (approval_rate r) = Some rate
           ∧ decimal_not_null 18 2 (avg_ticket r) = Some avg
           ∧ fact_daily_merchant_metrics s' !! (metric_date r, merchant_id r)
             = Some (mkFactDaily (txn_count r) (approved_txn_count r)
                       (declined_txn_count r) gross approved rate avg
                       (match fact_daily_merchant_metrics s
                                !! (metric_date r, merchant_id r) with
                        | Some old => loaded_at_utc old
                        | None => now
                        end))
           ∧ merchant_id r ∈ dom (dim_merchants s'))
    ∧ (∀ k, k ∉ (λ r, (metric_date r, merchant_id r)) <$> rows →
         fact_daily_merchant_metrics s' !! k
         = fact_daily_merchant_metrics s !! k).
Proof.
  rewrite run_unfold. intros Hrun.
  destruct (run_db_inv _ _ _ _ _ Hrun)
    as (staged & sdaily & Hrm & Hrt & Hstaged & Hnd & Hsd & Hnd' & -> & ->).
  set (M := normalised (merchants_csv files)) in *.
  set (T := normalised (transactions_csv files)) in *.
  set (rows := daily_of _) in *.
  exists rows. split_and!.
  - pose proof (metrics_unfold to_numeric to_datetime files) as Hmetrics.
    cbv zeta in Hmetrics. rewrite Hmetrics. by rewrite !decide_True.
  - done.
  - intros r Hr. destruct (staged_daily_row _ _ _ Hsd Hr) as (sd & Hin & Hof).
    destruct Hof as (Hd & Hm & <- & <- & <- & Hgross & Happroved & Hrate & Havg).
    exists (sd_gross_amount sd), (sd_approved_amount sd),
      (sd_approval_rate sd), (sd_avg_ticket sd).
    cbn [fact_daily_merchant_metrics dim_merchants]. split_and!; [done..| |].
    + rewrite <-Hd, <-Hm. by apply merge_daily_lookup.
    + rewrite merge_merchant_dom. apply elem_of_union_r.
      rewrite <-id_set_staged, <-(staged_merchants_ids M staged); [|
        apply required_merch_elem; [done|set_solver]|done].
      apply (daily_of_known_merchant M T). exact Hr.
  - intros k Hk. cbn [fact_daily_merchant_metrics].
    apply merge_daily_other. by rewrite (staged_daily_keys _ _ Hsd).
Qed.

(** X21.  The run keeps the foreign key of the fact table: if every
    fact row names a merchant of dim_merchants before the run, so it
    does after it, whether the run returns or raises. *)
Theorem run_keeps_foreign_key files now s :
  fk_closed s → fk_closed (run to_numeric to_datetime files now s).1.
Proof.
  intros Hfk. rewrite run_unfold. unfold run_db.
  destruct (decide (required_merch_cols ⊆ _)) as [Hrm|]; [|done].
  destruct (decide (required_txn_cols ⊆ _)) as [Hrt|]; [|done]. cbv zeta.
  set (M := normalised (merchants_csv files)).
  set (rows := daily_of _).
  pose proof (load_merchants_db_fk now M s Hfk) as Hfk1.
  destruct (load_merchants_db now M s) as [s1 [n|e1]]; cbn [fst snd] in *; [|done].
  pose proof (upsert_facts_db_fk now rows s1 Hfk1) as Hfk2.
  by destruct (upsert_facts_db now rows s1) as [s2 [k|e2]].
Qed.

(** X22.  The run never deletes: a merchant of dim_merchants is still
    there afterwards with the creation time it had, and a fact row is
    still there with the load time it had, whether the run returns or
    raises. *)
Theorem run_never_deletes files now s :
  (∀ id old, dim_merchants s !! id = Some old →
     ∃ new, dim_merchants (run to_numeric to_datetime files now s).1 !! id = Some new
            ∧ created_at_utc new = created_at_utc old)
  ∧ (∀ k old, fact_daily_merchant_metrics s !! k = Some old →
       ∃ new, fact_daily_merchant_metrics (run to_numeric to_datetime files now s).1
                !! k = Some new
              ∧ loaded_at_utc new = loaded_at_utc old).
Proof.
  rewrite run_unfold. unfold run_db.
  destruct (decide (required_merch_cols ⊆ _)) as [Hrm|];
    [|split; intros ? old ?; by exists old].
  destruct (decide (required_txn_cols ⊆ _)) as [Hrt|];
    [|split; intros ? old ?; by exists old]. cbv zeta.
  set (M := normalised (merchants_csv files)).
  set (rows := daily_of _).
  pose proof (load_merchants_db_keeps now M s) as Hdim.
  pose proof (load_merchants_db_fact now M s) as Hfact.
  destruct (load_merchants_db now M s) as [s1 [n|e1]]; cbn [fst snd] in *;
    [|split; [done|rewrite Hfact; intros ? old ?; by exists old]].
  pose proof (upsert_facts_db_keeps now rows s1) as Hkeep.
  pose proof (upsert_facts_db_dim now rows s1) as Hdim'.
  rewrite Hfact in Hkeep.
  destruct (upsert_facts_db now rows s1) as [s2 [k|e2]]; cbn [fst snd] in *;
    rewrite Hdim'; done.
Qed.

(** X23.  A staging table left behind by an earlier, failed run has no
    effect: two sinks with the same dim_merchants and the same fact
    table give the same outcome and the same two tables. *)
Theorem run_ignores_stale_staging files now s1 s2 :
  dim_merchants s1 = dim_merchants s2 →
  fact_daily_merchant_metrics s1 = fact_daily_merchant_metrics s2 →
  (run to_numeric to_datetime files now s1).2
  = (run to_numeric to_datetime files now s2).2
  ∧ dim_merchants (run to_numeric to_datetime files now s1).1
    = dim_merchants (run to_numeric to_datetime files now s2).1
  ∧ fact_daily_merchant_metrics (run to_numeric to_datetime files now s1).1
    = fact_daily_merchant_metrics (run to_numeric to_datetime files now s2).1.
Proof.
  intros Hdim Hfact. rewrite !run_unfold. unfold run_db.
  destruct (decide (required_merch_cols ⊆ _)) as [Hrm|]; [|done].
  destruct (decide (required_txn_cols ⊆ _)) as [Hrt|]; [|done]. cbv zeta.
  set (M := normalised (merchants_csv files)).
  set (rows := daily_of _).
  destruct (load_merchants_db_tables now M s1 s2 Hdim Hfact) as (Hr & Hd & Hf).
  destruct (load_merchants_db now M s1) as [t1 [n1|e1]],
           (load_merchants_db now M s2) as [t2 [n2|e2]];
    cbn [fst snd] in *; simplify_eq; try (by split_and!).
  destruct (upsert_facts_db_tables now rows t1 t2 Hd Hf) as (Hr' & Hd' & Hf').
  destruct (upsert_facts_db now rows t1) as [u1 [k1|x1]],
           (upsert_facts_db now rows t2) as [u2 [k2|x2]];
    cbn [fst snd] in *; simplify_eq; by split_and!.
Qed.

(** X24.  Stray whitespace in the files is immaterial: a run on the two
    files already trimmed, labels and cells, ends as the run on the files
    as they are, with the same sink and the same counters. *)
Theorem run_on_trimmed_files files now s :
  run to_numeric to_datetime
    (mkFiles (normalised (merchants_csv files))
             (normalised (transactions_csv files))) now s
  = run to_numeric to_datetime files now s.
Proof.
  rewrite !run_unfold. unfold run_db.
  cbn [merchants_csv transactions_csv]. rewrite !normalised_idem, len_normalised.
  assert (∀ df, strip <$> columns (normalised df) = strip <$> columns df) as Hcols.
  { intros df. cbn. rewrite <-list_fmap_compose. apply list_fmap_ext.
    intros _ c _. apply strip_idem. }
  by rewrite !Hcols.
Qed.

End RunMore.

(** ** Optional merchant fields *)

Lemma get_loc_None c cols : get_loc c cols = None → c ∉ cols.
Proof.
  intros Hnone Hin. apply get_loc_elem in Hin. by rewrite Hnone in Hin.
Qed.

Lemma str_strip_None d c :
  str_strip d c = None ↔ d = str_dtype ∧ c = None.
Proof. destruct c, d; cbn; naive_solver. Qed.

Lemma selected_normalised m raw c :
  rectangular m → raw ∈ data m →
  selected (normalised m) (map (str_strip (dtype m)) raw) c
  = if decide (c ∈ strip <$> columns m)
    then str_strip (dtype m) (field_of (strip <$> columns m) c raw)
    else None.
Proof.
  intros Hrect Hraw. unfold selected, field_of, pos.
  change (columns (normalised m)) with (strip <$> columns m).
  destruct (get_loc c (strip <$> columns m)) as [i|] eqn:Hi.
  - pose proof (get_loc_Some _ _ _ Hi) as Hlook.
    rewrite decide_True by (by eapply list_elem_of_lookup_2). cbn [default].
    unfold iat. change (map (str_strip (dtype m)) raw)
      with (str_strip (dtype m) <$> raw).
    rewrite list_lookup_fmap. change (id i) with i.
    destruct (raw !! i) as [v|] eqn:Hv; [done|].
    apply lookup_ge_None in Hv. apply lookup_lt_Some in Hlook.
    unfold rectangular in Hrect. rewrite Forall_forall in Hrect.
    rewrite (Hrect _ Hraw), <-(length_fmap strip) in Hv. lia.
  - by rewrite decide_False by (by apply get_loc_None).
Qed.

Section OptionalFields.

Context {sv : Server}.

(** X25.  The optional fields of a staged merchant: for category, city
    and state the load stages the trimmed cell of the column, and NULL
    when the file has no such column.  So NULL is staged exactly for a
    column the file lacks or, in a str column, for a cell that is
    missing; in an object column a missing cell is staged as the text
    astype(str) made of it. *)
Theorem load_merchants_optional_fields m staged :
  rectangular m →
  staged_merchants (normalised m) = Some staged →
  Forall2 (λ raw r,
    ∀ c v,
      (c, v) ∈ [("category", sm_category r); ("city", sm_city r);
                ("state", sm_state r)] →
      v = (if decide (c ∈ strip <$> columns m)
           then str_strip (dtype m) (field_of (strip <$> columns m) c raw)
           else None)
      ∧ (v = None ↔
         c ∉ strip <$> columns m
         ∨ (dtype m = str_dtype
            ∧ field_of (strip <$> columns m) c raw = None)))
    (data m) staged.
Proof.
  intros Hrect Hstaged%staged_merchants_rows.
  cbn [data normalised strip_cells strip_columns dtype] in Hstaged.
  change (map (map (str_strip (dtype m))) (data m))
    with (map (str_strip (dtype m)) <$> data m) in Hstaged.
  apply Forall2_fmap_l in Hstaged.
  apply Forall2_same_length_lookup. split; [by eapply Forall2_length|].
  intros i raw r Hraw Hr.
  pose proof (Forall2_lookup_lr _ _ _ _ _ _ Hstaged Hraw Hr)
    as (_ & _ & Hcat & Hcity & Hstate).
  apply list_elem_of_lookup_2 in Hraw.
  rewrite (selected_normalised m raw _ Hrect Hraw) in Hcat.
  rewrite (selected_normalised m raw _ Hrect Hraw) in Hcity.
  rewrite (selected_normalised m raw _ Hrect Hraw) in Hstate.
  assert (∀ c v,
            v = (if decide (c ∈ strip <$> columns m)
                 then str_strip (dtype m) (field_of (strip <$> columns m) c raw)
                 else None) →
            v = None ↔
            c ∉ strip <$> columns m
            ∨ (dtype m = str_dtype
               ∧ field_of (strip <$> columns m) c raw = None)) as Hnull.
  { intros c v ->. destruct (decide (c ∈ strip <$> columns m)) as [Hc|Hc].
    - rewrite str_strip_None. split; [intros [? ?]; by right|].
      by intros [?|?].
    - split; [intros _; by left|done]. }
  intros c v. rewrite !elem_of_cons, elem_of_nil.
  intros [[= -> ->]|[[= -> ->]|[[= -> ->]|[]]]]; (split; [done|by apply Hnull]).
Qed.

End OptionalFields.

(** ** The further theorems at the example data *)

Lemma example_validated_merchants :
  store example_validated.1 !! 0 = Some (normalised example_merchants).
Proof. vm_compute. reflexivity. Defined.

Lemma example_loaded_eq :
  load_merchants (sv := sample_server) 0 0 example_validated.1
  = (example_loaded.1, Ok 2).
Proof. vm_compute. reflexivity. Defined.

Lemma load_merchants_upserts_witness :
  store example_validated.1 !! 0 = Some (normalised example_merchants)
  ∧ ∃ staged,
      staged_merchants (sv := sample_server) (normalised example_merchants)
      = Some staged
      ∧ length staged = 2
      ∧ stg_merchants (db example_loaded.1) = None.
Proof.
  split; [exact example_validated_merchants|].
  destruct (load_merchants_upserts (sv := sample_server) 0 0 example_validated.1
              (normalised example_merchants) example_loaded.1 2
              example_validated_merchants example_loaded_eq)
    as (staged & Hstaged & _ & Hlen & _ & _ & Hnone & _).
  exists staged. exact (conj Hstaged (conj Hlen Hnone)).
Defined.

Lemma example_duplicates_eq :
  load_merchants (sv := sample_server) 0 0 example_world_duplicates
  = ((load_merchants (sv := sample_server) 0 0 example_world_duplicates).1,
     Raise (DBAPIError "dim_merchants")).
Proof. vm_compute. reflexivity. Defined.

Lemma load_merchants_failure_witness :
  store example_world_duplicates !! 0 = Some example_duplicate_merchants
  ∧ load_merchants (sv := sample_server) 0 0 example_world_duplicates
    = ((load_merchants (sv := sample_server) 0 0 example_world_duplicates).1,
       Raise (DBAPIError "dim_merchants"))
  ∧ dim_merchants
      (db (load_merchants (sv := sample_server) 0 0 example_world_duplicates).1)
    = ∅.
Proof.
  assert (store example_world_duplicates !! 0 = Some example_duplicate_merchants)
    as Hl by reflexivity.
  split; [exact Hl|]. split; [exact example_duplicates_eq|].
  destruct (load_merchants_failure (sv := sample_server) 0 0
              example_world_duplicates
              example_duplicate_merchants _ _ Hl example_duplicates_eq)
    as (_ & Hdim & _).
  exact Hdim.
Defined.

Lemma example_upserted_eq :
  upsert_facts (sv := sample_server) 0 example_daily example_loaded.1
  = ((upsert_facts (sv := sample_server) 0 example_daily example_loaded.1).1,
     Ok 2).
Proof. vm_compute. reflexivity. Defined.

Lemma upsert_facts_upserts_witness :
  upsert_facts (sv := sample_server) 0 example_daily example_loaded.1
  = ((upsert_facts (sv := sample_server) 0 example_daily example_loaded.1).1,
     Ok 2)
  ∧ ∃ staged : list StgDaily,
      Forall2 (staged_as (sv := sample_server)) (drows example_daily) staged
      ∧ stg_daily_metrics
          (db (upsert_facts (sv := sample_server) 0 example_daily
                 example_loaded.1).1)
        = None.
Proof.
  split; [exact example_upserted_eq|].
  destruct (upsert_facts_upserts (sv := sample_server) 0 example_daily
              example_loaded.1 _ 2 example_upserted_eq)
    as (staged & Hstaged & _ & _ & _ & _ & Hnone & _).
  exists staged. exact (conj Hstaged Hnone).
Defined.

Lemma example_unknown_merchant_eq :
  upsert_facts (sv := sample_server) 0 example_daily example_validated.1
  = ((upsert_facts (sv := sample_server) 0 example_daily example_validated.1).1,
     Raise (DBAPIError "fact_daily_merchant_metrics")).
Proof. vm_compute. reflexivity. Defined.

Lemma upsert_facts_failure_witness :
  upsert_facts (sv := sample_server) 0 example_daily example_validated.1
  = ((upsert_facts (sv := sample_server) 0 example_daily example_validated.1).1,
     Raise (DBAPIError "fact_daily_merchant_metrics"))
  ∧ fact_daily_merchant_metrics
      (db (upsert_facts (sv := sample_server) 0 example_daily
             example_validated.1).1)
    = fact_daily_merchant_metrics (db example_validated.1).
Proof.
  split; [exact example_unknown_merchant_eq|].
  destruct (upsert_facts_failure (sv := sample_server) 0 example_daily
              example_validated.1 _ _
              example_unknown_merchant_eq) as (_ & _ & Hfact & _).
  exact Hfact.
Defined.

Lemma example_merchant_ids_distinct :
  NoDup (column "merchant_id" (normalised example_merchants)).
Proof. apply (bool_decide_unpack _). vm_compute. exact I. Defined.

Lemma example_labels_distinct :
  NoDup (columns (normalised example_merchants))
  ∧ NoDup (columns (normalised example_transactions)).
Proof. split; apply (bool_decide_unpack _); vm_compute; exact I. Defined.

Lemma example_merchants_stageable :
  Forall (stageable_merchant (sv := sample_server) (normalised example_merchants))
    (data (normalised example_merchants)).
Proof. apply staged_merchants_is_Some. vm_compute. by eexists. Defined.

Lemma example_daily_stageable rows :
  metrics (ar := exact_arith) sample_to_numeric sample_to_datetime example_files
  = Ok rows →
  Forall (stageable_daily (sv := sample_server)) rows.
Proof.
  intros Hrows.
  assert (is_Some (rows' ← Some rows; mapM (stg_daily_of (sv := sample_server)) rows'))
    as Hsome.
  { assert (Some rows
            = match metrics (ar := exact_arith) sample_to_numeric
                      sample_to_datetime example_files with
              | Ok rows => Some rows
              | Raise _ => None
              end) as -> by (by rewrite Hrows).
    vm_compute. by eexists. }
  cbn in Hsome. apply mapM_is_Some in Hsome.
  eapply Forall_impl; [exact Hsome|]. intros r. apply stg_daily_of_stageable.
Defined.

Lemma run_succeeds_iff_merchant_ids_distinct_witness :
  (NoDup (columns (normalised example_merchants))
   ∧ NoDup (columns (normalised example_transactions))
   ∧ required_merch_cols ⊆ list_to_set (strip <$> columns example_merchants)
   ∧ required_txn_cols ⊆ list_to_set (strip <$> columns example_transactions)
   ∧ Forall (stageable_merchant (sv := sample_server)
               (normalised example_merchants))
       (data (normalised example_merchants))
   ∧ NoDup (column "merchant_id" (normalised example_merchants)))
  ∧ ∃ stats, example_run.2 = Ok stats.
Proof.
  split.
  - exact (conj (proj1 example_labels_distinct)
             (conj (proj2 example_labels_distinct)
                (conj example_merchant_columns
                   (conj example_txn_columns
                      (conj example_merchants_stageable
                         example_merchant_ids_distinct))))).
  - exact (proj1 (run_succeeds_iff_merchant_ids_distinct (ar := exact_arith)
                    (sv := sample_server) sample_to_numeric
                    sample_to_datetime example_files 0%Z empty_sink
                    (proj1 example_labels_distinct)
                    (proj2 example_labels_distinct)
                    example_merchant_columns example_txn_columns
                    example_merchants_stageable example_daily_stageable)
             example_merchant_ids_distinct).
Defined.

Lemma example_run_only_missing_id_eq :
  (sample_run example_files_only_missing_id 0 empty_sink).2
  = Raise (DBAPIError "stg_daily_metrics").
Proof. vm_compute. reflexivity. Defined.

Lemma example_run_duplicates_eq :
  (sample_run example_files_duplicates 0 empty_sink).2
  = Raise (DBAPIError "dim_merchants").
Proof. vm_compute. reflexivity. Defined.

Lemma run_failure_leaves_tables_witness :
  ((sample_run example_files_only_missing_id 0 empty_sink).2
   = Raise (DBAPIError "stg_daily_metrics")
   ∧ fact_daily_merchant_metrics
       (sample_run example_files_only_missing_id 0 empty_sink).1 = ∅
   ∧ ∃ staged,
       staged_merchants (sv := sample_server) (normalised example_merchants_str)
       = Some staged
       ∧ dim_merchants (sample_run example_files_only_missing_id 0 empty_sink).1
         = foldl (merge_merchant 0) ∅ staged)
  ∧ ((sample_run example_files_duplicates 0 empty_sink).2
     = Raise (DBAPIError "dim_merchants")
     ∧ fact_daily_merchant_metrics
         (sample_run example_files_duplicates 0 empty_sink).1 = ∅
     ∧ dim_merchants (sample_run example_files_duplicates 0 empty_sink).1 = ∅).
Proof.
  split.
  - split; [exact example_run_only_missing_id_eq|].
    destruct (run_failure_leaves_tables (ar := exact_arith) (sv := sample_server)
                sample_to_numeric sample_to_datetime
                example_files_only_missing_id 0%Z empty_sink _
                example_run_only_missing_id_eq)
      as (Hfact & _ & Hdim).
    split; [exact Hfact|].
    destruct (Hdim eq_refl) as (staged & rows & Hstaged & _ & Hs & _).
    exists staged. exact (conj Hstaged Hs).
  - split; [exact example_run_duplicates_eq|].
    destruct (run_failure_leaves_tables (ar := exact_arith) (sv := sample_server)
                sample_to_numeric sample_to_datetime
                example_files_duplicates 0%Z empty_sink _
                example_run_duplicates_eq)
      as (Hfact & Hdim & _).
    split; [exact Hfact|]. apply Hdim. discriminate.
Defined.

Lemma run_stats_consistent_witness :
  txns_total example_run_stats = 6
  ∧ merchants_loaded example_run_stats = 2
  ∧ fact_rows_upserted example_run_stats = daily_rows example_run_stats.
Proof.
  destruct (run_stats_consistent (ar := exact_arith) (sv := sample_server)
              sample_to_numeric sample_to_datetime
              example_files 0%Z empty_sink example_run.1 example_run_stats
              example_run_eq) as (Htotal & _ & _ & Hloaded & Hfacts & _).
  exact (conj Htotal (conj Hloaded Hfacts)).
Defined.

Lemma run_loads_the_daily_metrics_witness :
  ∃ rows,
    metrics (ar := exact_arith) sample_to_numeric sample_to_datetime example_files
    = Ok rows
    ∧ daily_rows example_run_stats = length rows
    ∧ ∀ r, r ∈ rows →
           merchant_id r ∈ dom (dim_merchants example_run.1)
           ∧ ∃ gross,
               decimal_not_null (sv := sample_server) 18 2 (gross_amount r)
               = Some gross
               ∧ f_gross_amount
                   <$> fact_daily_merchant_metrics example_run.1
                         !! (metric_date r, merchant_id r)
                 = Some gross.
Proof.
  destruct (run_loads_the_daily_metrics (ar := exact_arith) (sv := sample_server)
              sample_to_numeric sample_to_datetime
              example_files 0%Z empty_sink example_run.1 example_run_stats
              example_run_eq) as (rows & Hmetrics & Hlen & Hrows & _).
  exists rows. split; [exact Hmetrics|]. split; [exact Hlen|].
  intros r Hr.
  destruct (Hrows r Hr) as (gross & approved & rate & avg & Hg & _ & _ & _ & Hf & Hdim).
  split; [exact Hdim|]. exists gross. split; [exact Hg|].
  exact (f_equal (fmap f_gross_amount) Hf).
Defined.

Lemma empty_sink_fk_closed : fk_closed empty_sink.
Proof.
  intros k Hk. exfalso. revert Hk. cbn. rewrite dom_empty_L.
  apply not_elem_of_empty.
Defined.

Lemma run_keeps_foreign_key_witness :
  fk_closed empty_sink ∧ fk_closed example_run.1.
Proof.
  split; [exact empty_sink_fk_closed|].
  exact (run_keeps_foreign_key (ar := exact_arith) (sv := sample_server)
           sample_to_numeric sample_to_datetime example_files
           0%Z empty_sink empty_sink_fk_closed).
Defined.

Lemma example_run_m1 :
  dim_merchants example_run.1 !! "m1"
  = Some (mkDimMerchant "Sunrise Coffee" None (Some "Costa Mesa") None 0).
Proof. vm_compute. reflexivity. Defined.

Lemma run_never_deletes_witness :
  dim_merchants example_run.1 !! "m1"
  = Some (mkDimMerchant "Sunrise Coffee" None (Some "Costa Mesa") None 0)
  ∧ ∃ new,
      dim_merchants (sample_run example_files 5 example_run.1).1 !! "m1" = Some new
      ∧ created_at_utc new = 0%Z.
Proof.
  split; [exact example_run_m1|].
  exact (proj1 (run_never_deletes (ar := exact_arith) (sv := sample_server)
                  sample_to_numeric sample_to_datetime
                  example_files 5%Z example_run.1) "m1" _ example_run_m1).
Defined.

Lemma run_ignores_stale_staging_witness :
  (dim_merchants example_stale_sink = dim_merchants empty_sink
   ∧ fact_daily_merchant_metrics example_stale_sink
     = fact_daily_merchant_metrics empty_sink)
  ∧ (sample_run example_files 0 example_stale_sink).2 = example_run.2.
Proof.
  split; [exact (conj eq_refl eq_refl)|].
  exact (proj1 (run_ignores_stale_staging (ar := exact_arith)
                  (sv := sample_server) sample_to_numeric sample_to_datetime
                  example_files 0%Z example_stale_sink empty_sink eq_refl eq_refl)).
Defined.

Lemma example_staged_str :
  staged_merchants (sv := sample_server) (normalised example_merchants_str)
  = Some [ mkStgMerchant "m1" "Sunrise Coffee" None None None ].
Proof. vm_compute. reflexivity. Defined.

Lemma example_staged_m2 :
  staged_merchants (sv := sample_server) (normalised example_merchants)
  = Some [ mkStgMerchant "m1" "Sunrise Coffee" None (Some "Costa Mesa") None;
           mkStgMerchant "m2" "Taco Town" None (Some "nan") None ].
Proof. vm_compute. reflexivity. Defined.

Lemma load_merchants_optional_fields_witness :
  ((rectangular example_merchants_str
    ∧ staged_merchants (sv := sample_server) (normalised example_merchants_str)
      = Some [ mkStgMerchant "m1" "Sunrise Coffee" None None None ])
   ∧ Forall2 (λ raw r,
       sm_city r = None ↔
       "city" ∉ strip <$> columns example_merchants_str
       ∨ (dtype example_merchants_str = str_dtype
          ∧ field_of (strip <$> columns example_merchants_str) "city" raw = None))
       (data example_merchants_str)
       [ mkStgMerchant "m1" "Sunrise Coffee" None None None ])
  ∧ ((rectangular example_merchants
      ∧ staged_merchants (sv := sample_server) (normalised example_merchants)
        = Some [ mkStgMerchant "m1" "Sunrise Coffee" None (Some "Costa Mesa") None;
                 mkStgMerchant "m2" "Taco Town" None (Some "nan") None ])
     ∧ Forall2 (λ raw r,
         sm_city r
         = str_strip object_dtype
             (field_of (strip <$> columns example_merchants) "city" raw))
         (data example_merchants)
         [ mkStgMerchant "m1" "Sunrise Coffee" None (Some "Costa Mesa") None;
           mkStgMerchant "m2" "Taco Town" None (Some "nan") None ]).
Proof.
  assert (rectangular example_merchants_str) as Hrect by repeat constructor.
  assert (rectangular example_merchants) as Hrect' by repeat constructor.
  split.
  - split; [exact (conj Hrect example_staged_str)|].
    eapply Forall2_impl;
      [exact (load_merchants_optional_fields (sv := sample_server)
                example_merchants_str _ Hrect example_staged_str)|].
    intros raw r Hall.
    exact (proj2 (Hall "city" (sm_city r)
                    (list_elem_of_further _ _ _ (list_elem_of_here _ _)))).
  - split; [exact (conj Hrect' example_staged_m2)|].
    eapply Forall2_impl;
      [exact (load_merchants_optional_fields (sv := sample_server)
                example_merchants _ Hrect' example_staged_m2)|].
    intros raw r Hall.
    exact (proj1 (Hall "city" (sm_city r)
                    (list_elem_of_further _ _ _ (list_elem_of_here _ _)))).
Defined.
